(** * mq2wsbridge: a shallow embedding of the MQ <-> WebSocket bridge

    The development follows the Python sources:
    - [Py]        : the Python values and primitives the handlers rely on;
    - [Metrics]   : the counters of [metricshandler.py];
    - [MQ]        : [mqhandler.py] (connect loop, publish, consume callback);
    - [JWT]       : the signed URL of [wshandler.py] (dictionaries, JSON,
                    base64, token, URL);
    - [WS]        : the rest of [wshandler.py] (callbacks, sending, the run
                    loop, the stub);
    - [Bridge]    : the startup poll of [main] in [mq2wsbridge.py];
    - [Spec]      : the vocabulary the statements are written in;
    - [Scenarios] : concrete handlers, worlds and environments.
    The statements and their proofs come after the definitions.

    Threads other than the one executing an operation are modelled by
    explicit observations handed to the operation (what the flags read at each
    loop head, how each library call ends).  What the handlers do to the
    broker, the socket and the clock is recorded in a trace of events.
    Logging is not modelled.  Callbacks are state transformers that return a
    Python value or raise. *)

From Stdlib Require Import ZArith List String Ascii Bool Lia Permutation.
From Stdlib Require Import DecimalString DecimalPos DecimalZ QArith.
Import ListNotations.
Open Scope Z_scope.

(* ------------------------------------------------------------------ *)
(** ** Python values and primitives *)

Module Py.

(** The Python values that flow through flags and callback results. *)
Inductive pyval : Type :=
| PyNone
| PyBool (b : bool)
| PyInt (z : Z)
| PyStr (s : string).

(** [v is True]. *)
Definition is_True (v : pyval) : bool :=
  match v with PyBool true => true | _ => false end.

(** [v is False]. *)
Definition is_False (v : pyval) : bool :=
  match v with PyBool false => true | _ => false end.

(** [v is None]. *)
Definition is_None (v : pyval) : bool :=
  match v with PyNone => true | _ => false end.

(** Truth value testing, as [if v:] does. *)
Definition truthy (v : pyval) : bool :=
  match v with
  | PyNone => false
  | PyBool b => b
  | PyInt z => negb (z =? 0)
  | PyStr s => negb (String.eqb s EmptyString)
  end.

(** [str(z)] for an [int]. *)
Definition str_int (z : Z) : string := NilZero.string_of_int (Z.to_int z).

(** The outcome of a call that may raise. *)
Inductive outcome (A : Type) : Type :=
| Returned (a : A)
| Raised (exn : string).
Arguments Returned {A} a.
Arguments Raised {A} exn.

(** Whether a loop run under a bound on its turns has been left. *)
Inductive progress : Type :=
| Finished
| StillLooping.

End Py.
Import Py.

(* ------------------------------------------------------------------ *)
(** ** metricshandler.py : the four counters *)

Module Metrics.

Record MetricsHandler : Type := mkMetrics {
  metrics_enabled : bool;
  count_from_ws : Z;
  count_to_ws : Z;
  count_mq_connection_attempts : Z;
  count_ws_connection_attempts : Z
}.

(** [MetricsHandler.__init__]; setup may later enable it. *)
Definition init (enabled : bool) : MetricsHandler :=
  mkMetrics enabled 0 0 0 0.

Definition set_count_from_ws (v : Z) (m : MetricsHandler) :=
  mkMetrics (metrics_enabled m) v (count_to_ws m)
            (count_mq_connection_attempts m) (count_ws_connection_attempts m).
Definition set_count_to_ws (v : Z) (m : MetricsHandler) :=
  mkMetrics (metrics_enabled m) (count_from_ws m) v
            (count_mq_connection_attempts m) (count_ws_connection_attempts m).
Definition set_count_mq_connection_attempts (v : Z) (m : MetricsHandler) :=
  mkMetrics (metrics_enabled m) (count_from_ws m) (count_to_ws m)
            v (count_ws_connection_attempts m).
Definition set_count_ws_connection_attempts (v : Z) (m : MetricsHandler) :=
  mkMetrics (metrics_enabled m) (count_from_ws m) (count_to_ws m)
            (count_mq_connection_attempts m) v.

(** The guard [if self.metrics and self.metrics.metrics_enabled:] followed by
    an update of the shared metrics object; [None] when no metrics object is
    wired into the handler. *)
Definition when_enabled (f : MetricsHandler -> MetricsHandler)
           (m : option MetricsHandler) : option MetricsHandler :=
  match m with
  | Some mh => if metrics_enabled mh then Some (f mh) else Some mh
  | None => None
  end.

(** Pointwise order on the four counters of the shared object. *)
Definition counters_le (a b : MetricsHandler) : Prop :=
  count_from_ws a <= count_from_ws b /\
  count_to_ws a <= count_to_ws b /\
  count_mq_connection_attempts a <= count_mq_connection_attempts b /\
  count_ws_connection_attempts a <= count_ws_connection_attempts b.

Definition counters_le_opt (a b : option MetricsHandler) : Prop :=
  match a, b with
  | Some x, Some y => counters_le x y
  | None, None => True
  | _, _ => False
  end.

End Metrics.
Import Metrics.

(* ------------------------------------------------------------------ *)
(** ** The handler objects and the world they share *)

(** A message as the broker library hands it over or builds it. *)
Record Message : Type := mkMessage {
  body : string;
  properties : list (string * string)
}.

(** What the handlers do to the outside: sleeps, broker and socket calls. *)
Inductive event : Type :=
| EvSleep (secs : Z)
| EvConnect (url : string) (ok : bool)
| EvDeclare (queue : string) (durable : bool)
| EvPublish (routing_key : string) (m : Message) (ok : bool)
| EvAck (m : Message)
| EvReject (m : Message) (requeue : bool)
| EvWsOpen (uri : string)
| EvWsSend (msg : string) (ok : bool)
| EvWsClose
| EvDelivered (msg : string).

Definition trace := list event.

Definition sleeps (t : trace) : list Z :=
  flat_map (fun e => match e with EvSleep s => [s] | _ => [] end) t.

Definition publishes (t : trace) : list bool :=
  flat_map (fun e => match e with EvPublish _ _ ok => [ok] | _ => [] end) t.

Definition delivered (t : trace) : list string :=
  flat_map (fun e => match e with EvDelivered m => [m] | _ => [] end) t.

(** The channel object of the broker library: always truthy when present. *)
Record Channel : Type := mkChannel {
  consumer_tags : list string
}.

(** [MQHandler]: the fields the modelled methods read or write. *)
Record MQHandler : Type := mkMQ {
  mq_url : string;
  connection : bool;            (* [self.connection] is not None *)
  channel : option Channel;
  mq_qname_to_ws : string;
  mq_qname_from_ws : string;
  ttl_from_ws : Z;              (* seconds, per the comment in [__init__] *)
  consumer_tag : string;
  mq_running : bool;
  max_retries : Z
}.

(** [WSHandler]: [ws_failed] is [None] or a reason string. *)
Record WSHandler : Type := mkWS {
  ws_failed : pyval;
  ws_connected : bool;
  ws_running : bool;
  ws_handle : bool;             (* [self.ws_handle] is set *)
  ws_api_host : string;
  ws_api_uri : string;
  ws_credentials : string * string;   (* clientId, clientSecret *)
  ws_ping_interval : Z;
  ws_max_connect_attempts : Z;
  ws_attempt_window_secs : Z
}.

(** The state every operation runs in.  Both handlers hold a reference to
    the same metrics object, so it is stored once. *)
Record World : Type := mkWorld {
  mq : MQHandler;
  ws : WSHandler;
  metrics : option MetricsHandler;
  events : trace
}.

Definition emit (e : event) (w : World) : World :=
  mkWorld (mq w) (ws w) (metrics w) (events w ++ [e]).
Definition with_mq (h : MQHandler) (w : World) : World :=
  mkWorld h (ws w) (metrics w) (events w).
Definition with_ws (h : WSHandler) (w : World) : World :=
  mkWorld (mq w) h (metrics w) (events w).
Definition with_metrics (m : option MetricsHandler) (w : World) : World :=
  mkWorld (mq w) (ws w) m (events w).
Definition with_events (t : trace) (w : World) : World :=
  mkWorld (mq w) (ws w) (metrics w) t.

(** A callback wired between the handlers ([mq_to_ws_method],
    [on_message_handler]): it receives a body and may touch the world. *)
Definition callback := string -> World -> World * outcome pyval.

(* ------------------------------------------------------------------ *)
(** ** mqhandler.py *)

Module MQ.

Definition set_mq_running (b : bool) (h : MQHandler) : MQHandler :=
  mkMQ (mq_url h) (connection h) (channel h) (mq_qname_to_ws h)
       (mq_qname_from_ws h) (ttl_from_ws h) (consumer_tag h) b (max_retries h).

Definition set_connection (c : bool) (h : MQHandler) : MQHandler :=
  mkMQ (mq_url h) c (channel h) (mq_qname_to_ws h)
       (mq_qname_from_ws h) (ttl_from_ws h) (consumer_tag h) (mq_running h)
       (max_retries h).

(** [MQHandler.__init__]: no channel, not running, five retries; the
    settings it leaves at [None] hold an empty string or zero. *)
Definition init : MQHandler :=
  mkMQ EmptyString false None EmptyString EmptyString 0 EmptyString false 5.

(** *** [MQHandler.__call__] *)

Definition __call__ (mq_to_ws_method : callback) (message : Message)
           (w : World) : World * outcome pyval :=
  match channel (mq w) with
  | None => (w, Returned (PyBool false))
  | Some _ =>
      if negb (mq_running (mq w)) then
        (emit (EvReject message true) w, Returned (PyBool false))
      else
        match mq_to_ws_method (body message) w with
        | (w1, Returned success) =>
            if is_True success
            then (emit (EvAck message) w1, Returned success)
            else (emit (EvReject message true) w1, Returned success)
        | (w1, Raised e) => (w1, Raised e)
        end
  end.

(** *** [MQHandler.send_message] *)

(** What one turn of the publish loop observes: the flags other threads may
    have changed, and whether [message.publish] raises. *)
Record pub_obs : Type := mkPubObs {
  obs_consumer_tags : bool;   (* [self.channel.consumer_tags] is non-empty *)
  obs_running : bool;         (* [self.mq_running] *)
  obs_publish_ok : bool       (* [message.publish] returns *)
}.

Definition build_properties (h : MQHandler) : list (string * string) :=
  [ ("content_type", "text/plain") ; ("expiration", str_int (ttl_from_ws h)) ]%string.

(** The loop [while retry_count > 0 and message is not None].  [retry_count]
    starts at [max_retries] and only ever steps down by one while positive, so
    it is carried as the natural number [n]; [i] counts the turns taken. *)
Fixpoint publish_loop (env : nat -> pub_obs) (h : MQHandler)
         (routing_key : string) (message : Message)
         (n : nat) (i : nat) (t : trace) : trace * bool :=
  match n with
  | O => (t, false)
  | S n' =>
      let retry_count := Z.of_nat n in
      let o := env i in
      if (negb (obs_consumer_tags o) || negb (obs_running o))
         && (retry_count <? max_retries h)
      then (t, false)
      else if obs_publish_ok o
      then (t ++ [EvPublish routing_key message true], true)
      else publish_loop env h routing_key message n' (S i)
             (t ++ [EvPublish routing_key message false; EvSleep 1])
  end.

Definition send_message (env : nat -> pub_obs) (exchange routing_key body : string)
           (w : World) : World * outcome pyval :=
  match channel (mq w) with
  | None => (w, Raised "AttributeError")
  | Some _ =>
      let w1 := emit (EvDeclare routing_key true) w in
      let message := mkMessage body (build_properties (mq w)) in
      let '(t, sent) := publish_loop env (mq w) routing_key message
                          (Z.to_nat (max_retries (mq w))) 0 (events w1) in
      (with_events t w1, Returned (PyBool sent))
  end.

Definition send_message_from_ws (env : nat -> pub_obs) : callback :=
  fun msg w => send_message env EmptyString (mq_qname_from_ws (mq w)) msg w.

(** *** [MQHandler.create_connection] *)

(** How one call of [amqpstorm.UriConnection] ends; after a failure that is
    retried, [still_running] is what [self.mq_running] reads at the next loop
    head (another thread may have closed the handler during the sleep). *)
Inductive connect_obs : Type :=
| ConnOk
| ConnAMQPError (still_running : bool)
| ConnKeyboardInterrupt.

Definition backoff (attempts : Z) : Z := Z.min (attempts * 2) 30.

(** The loop [while self.mq_running is True].  [fuel] bounds the number of
    turns; the result says whether the loop was left ([Finished]) or is still
    going when the bound is reached ([StillLooping], with the world so far). *)
Fixpoint connect_loop (fuel : nat) (env : nat -> connect_obs) (attempts : Z)
         (i : nat) (w : World) : World * progress :=
  if mq_running (mq w) then
    match fuel with
    | O => (w, StillLooping)
    | S fuel' =>
        let attempts := attempts + 1 in
        let w1 := with_metrics
                    (when_enabled (set_count_mq_connection_attempts attempts)
                                  (metrics w)) w in
        match env i with
        | ConnOk =>
            (with_mq (set_connection true (mq w1))
                     (emit (EvConnect (mq_url (mq w1)) true) w1), Finished)
        | ConnAMQPError still =>
            let w2 := emit (EvConnect (mq_url (mq w1)) false) w1 in
            if negb (max_retries (mq w2) =? 0) && (attempts >? max_retries (mq w2))
            then (with_mq (set_mq_running false (mq w2)) w2, Finished)
            else
              let w3 := emit (EvSleep (backoff attempts)) w2 in
              connect_loop fuel' env attempts (S i)
                           (with_mq (set_mq_running still (mq w3)) w3)
        | ConnKeyboardInterrupt =>
            (with_mq (set_mq_running false (mq w1)) w1, Finished)
        end
    end
  else (w, Finished).

Definition create_connection (fuel : nat) (env : nat -> connect_obs)
           (w : World) : World * progress :=
  connect_loop fuel env 0 0 w.

End MQ.

(* ------------------------------------------------------------------ *)
(** ** wshandler.py : the signed URL *)

Module JWT.

Local Open Scope string_scope.

(** The double quote character. *)
Definition dquote : ascii := ascii_of_N 34.

(** The values the token dictionaries hold. *)
Inductive jval : Type :=
| JStr (s : string)
| JInt (z : Z).

Definition item : Type := string * jval.

Definition jval_eq_dec (a b : jval) : {a = b} + {a <> b}.
Proof. decide equality; [apply string_dec | apply Z.eq_dec]. Defined.

Definition item_eq_dec (a b : item) : {a = b} + {a <> b}.
Proof. decide equality; [apply jval_eq_dec | apply string_dec]. Defined.

(** A Python [dict]: keys are unique and keep their insertion order. *)
Definition pydict : Type := list item.

Fixpoint dict_get (k : string) (d : pydict) : option jval :=
  match d with
  | [] => None
  | (k', v) :: d' => if String.eqb k k' then Some v else dict_get k d'
  end.

(** [d[k] = v]: overwrite in place, or append a new key. *)
Fixpoint dict_set (k : string) (v : jval) (d : pydict) : pydict :=
  match d with
  | [] => [(k, v)]
  | (k', v') :: d' =>
      if String.eqb k k' then (k', v) :: d' else (k', v') :: dict_set k v d'
  end.

(** [dict(pairs)]: the pairs are inserted one after the other. *)
Definition dict_step (d : pydict) (kv : item) : pydict :=
  dict_set (fst kv) (snd kv) d.

Definition dict_of_items (l : list item) : pydict :=
  fold_left dict_step l [].

Definition keys (d : pydict) : list string := map fst d.

(** [a.items() | b.items()] is a set of pairs.  The order in which a set is
    iterated is not fixed by the language: it follows the hashes of the
    strings, which change from one interpreter process to the next.  A run
    supplies it as [set_order], a rearrangement of the distinct pairs. *)
Definition items_union (set_order : list item -> list item) (a b : pydict)
  : list item :=
  set_order (nodup item_eq_dec (a ++ b)%list).

(** [dict(a.items() | b.items())] *)
Definition merge (set_order : list item -> list item) (a b : pydict) : pydict :=
  dict_of_items (items_union set_order a b).

(** *** [json.dumps] with its defaults, on a flat dictionary *)

Definition hex_digit (n : N) : ascii :=
  nth (N.to_nat n)
      (list_ascii_of_string "0123456789abcdef") "0"%char.

Definition u_escape (c : ascii) : string :=
  let n := N_of_ascii c in
  String "\"%char (String "u"%char (String "0"%char (String "0"%char
    (String (hex_digit (n / 16)) (String (hex_digit (n mod 16)) EmptyString))))).

(** One character of [py_encode_basestring_ascii]. *)
Definition json_escape_char (c : ascii) : string :=
  let n := N_of_ascii c in
  if (n =? 34)%N then String "\"%char (String dquote EmptyString)
  else if (n =? 92)%N then String "\"%char (String "\"%char EmptyString)
  else if (n =? 10)%N then String "\"%char (String "n"%char EmptyString)
  else if (n =? 13)%N then String "\"%char (String "r"%char EmptyString)
  else if (n =? 9)%N then String "\"%char (String "t"%char EmptyString)
  else if (n =? 8)%N then String "\"%char (String "b"%char EmptyString)
  else if (n =? 12)%N then String "\"%char (String "f"%char EmptyString)
  else if ((32 <=? n) && (n <=? 126))%N then String c EmptyString
  else u_escape c.

Fixpoint json_escape (s : string) : string :=
  match s with
  | EmptyString => EmptyString
  | String c s' => json_escape_char c ++ json_escape s'
  end.

Definition json_string (s : string) : string :=
  String dquote (json_escape s ++ String dquote EmptyString).

Definition json_value (v : jval) : string :=
  match v with
  | JStr s => json_string s
  | JInt z => str_int z
  end.

Definition json_item (kv : item) : string :=
  json_string (fst kv) ++ ": " ++ json_value (snd kv).

Definition json_dumps (d : pydict) : string :=
  "{" ++ String.concat ", " (map json_item d) ++ "}".

(** *** [WSHandler.b64encode] *)

(** [str.encode()]: UTF-8, for code points below 256. *)
Definition utf8_char (c : ascii) : list N :=
  let n := N_of_ascii c in
  if (n <? 128)%N then [n] else [(192 + n / 64)%N; (128 + n mod 64)%N].

Fixpoint encode (s : string) : list N :=
  match s with
  | EmptyString => []
  | String c s' => (utf8_char c ++ encode s')%list
  end.

Definition b64_alphabet : list ascii :=
  list_ascii_of_string
    "ABCDEFGHIJKLMNOPQRSTUVWXYZabcdefghijklmnopqrstuvwxyz0123456789-_".

Definition b64_char (n : N) : ascii := nth (N.to_nat n) b64_alphabet "="%char.

(** [base64.urlsafe_b64encode], bytes as numbers below 256. *)
Fixpoint urlsafe_b64encode (l : list N) : list ascii :=
  match l with
  | [] => []
  | [a] =>
      [b64_char (a / 4); b64_char ((a mod 4) * 16); "="%char; "="%char]
  | [a; b] =>
      [b64_char (a / 4); b64_char ((a mod 4) * 16 + b / 16);
       b64_char ((b mod 16) * 4); "="%char]
  | a :: b :: c :: r =>
      b64_char (a / 4) :: b64_char ((a mod 4) * 16 + b / 16)
      :: b64_char ((b mod 16) * 4 + c / 64) :: b64_char (c mod 64)
      :: urlsafe_b64encode r
  end%N.

(** The argument of [b64encode] is a [str] or a [bytes]. *)
Inductive str_or_bytes : Type :=
| Str (s : string)
| Bytes (b : list N).

Definition b64encode (x : str_or_bytes) : string :=
  let bytes := match x with Str s => encode s | Bytes b => b end in
  string_of_list_ascii
    (filter (fun c => negb (Ascii.eqb c "="%char)) (urlsafe_b64encode bytes)).

(** The dictionary literal [algo] of [generate_header]. *)
Definition algo : pydict :=
  [("alg", JStr "HS256"); ("typ", JStr "JWT")].

(** The dictionary literal [jwt_payload] of [generate_payload]. *)
Definition jwt_payload (current_time : Z) (nonce : string)
           (key_id path uri method : string) : pydict :=
  [ ("iss", JStr key_id);
    ("kid", JStr key_id);
    ("exp", JInt (current_time + 300));
    ("nbf", JInt (current_time - 60));
    ("iat", JInt (current_time - 60));
    ("region", JStr "ny");
    ("method", JStr method);
    ("path", JStr path);
    ("host", JStr uri);
    ("client_id", JStr key_id);
    ("nonce", JStr nonce) ].

Section Signing.

(** [hmac.new(key, msg, hashlib.sha256).digest()], from the standard library. *)
Variable hmac_sha256 : list N -> list N -> list N.

(** The iteration order of sets in this run. *)
Variable set_order : list item -> list item.

(** [generate_header]: the dictionary, then its encoding. *)
Definition header_dict (params : pydict) : pydict :=
  merge set_order algo params.

Definition generate_header (params : pydict) : string :=
  b64encode (Str (json_dumps (header_dict params))).

(** [generate_payload]; [current_time] is [int(round(time.time()))] and
    [nonce] is [str(uuid.uuid4())], both read inside the method. *)
Definition payload_dict (current_time : Z) (nonce : string)
           (key_id path uri method : string) (payload_params : pydict) : pydict :=
  merge set_order (jwt_payload current_time nonce key_id path uri method)
        payload_params.

Definition generate_payload (current_time : Z) (nonce : string)
           (key_id path uri method : string) (payload_params : pydict) : string :=
  b64encode (Str (json_dumps
    (payload_dict current_time nonce key_id path uri method payload_params))).

Definition generate_signature (payload : string) (key_secret : list N) : string :=
  b64encode (Bytes (hmac_sha256 key_secret (encode payload))).

Definition generate_jwt (current_time : Z) (nonce : string)
           (key_id : string) (key_secret : list N) (path uri method : string)
           (jwt_params header_params : pydict) : string :=
  let header := generate_header header_params in
  let payload := generate_payload current_time nonce key_id path uri method
                                  jwt_params in
  let jwt_header := header ++ "." ++ payload in
  let signature := generate_signature jwt_header key_secret in
  jwt_header ++ "." ++ signature.

(** The three parts of the token, before they are joined. *)
Definition jwt_parts (current_time : Z) (nonce : string)
           (key_id : string) (key_secret : list N) (path uri method : string)
           (jwt_params header_params : pydict) : string * string * string :=
  let header := generate_header header_params in
  let payload := generate_payload current_time nonce key_id path uri method
                                  jwt_params in
  (header, payload, generate_signature (header ++ "." ++ payload) key_secret).

(** [binascii.unhexlify]: [None] stands for [binascii.Error]. *)
Definition hex_val (c : ascii) : option N :=
  let n := N_of_ascii c in
  if ((48 <=? n) && (n <=? 57))%N then Some (n - 48)%N
  else if ((97 <=? n) && (n <=? 102))%N then Some (n - 87)%N
  else if ((65 <=? n) && (n <=? 70))%N then Some (n - 55)%N
  else None.

Fixpoint unhexlify (s : string) : option (list N) :=
  match s with
  | EmptyString => Some []
  | String _ EmptyString => None
  | String a (String b r) =>
      match hex_val a, hex_val b, unhexlify r with
      | Some x, Some y, Some l => Some ((x * 16 + y)%N :: l)
      | _, _, _ => None
      end
  end.

(** [urllib.parse.quote_plus] and [urlencode], on string values. *)
Definition HEX_digit (n : N) : ascii :=
  nth (N.to_nat n) (list_ascii_of_string "0123456789ABCDEF") "0"%char.

Definition unreserved (n : N) : bool :=
  (((65 <=? n) && (n <=? 90)) || ((97 <=? n) && (n <=? 122))
   || ((48 <=? n) && (n <=? 57))
   || (n =? 95) || (n =? 46) || (n =? 45) || (n =? 126))%N.

Definition quote_byte (n : N) : string :=
  if unreserved n then String (ascii_of_N n) EmptyString
  else if (n =? 32)%N then "+"
  else String "%"%char (String (HEX_digit (n / 16))
                               (String (HEX_digit (n mod 16)) EmptyString)).

Definition quote_plus (s : string) : string :=
  String.concat EmptyString (map quote_byte (encode s)).

Definition urlencode (q : list (string * string)) : string :=
  String.concat "&" (map (fun kv => quote_plus (fst kv) ++ "=" ++ quote_plus (snd kv)) q).

(** [query_params['jwt'] = token] on a dictionary of strings. *)
Fixpoint query_set (k v : string) (q : list (string * string))
  : list (string * string) :=
  match q with
  | [] => [(k, v)]
  | (k', v') :: q' =>
      if String.eqb k k' then (k', v) :: q' else (k', v') :: query_set k v q'
  end.

(** [generate_url]; the result is [Raised] when the secret is not hex. *)
Definition generate_url (current_time : Z) (nonce : string)
           (path method : string) (credentials : string * string) (uri : string)
           (jwt_params header_params : pydict)
           (query_params : list (string * string)) : outcome string :=
  let client_id := fst credentials in
  let client_secret := snd credentials in
  match unhexlify client_secret with
  | None => Raised "binascii.Error"
  | Some key_secret =>
      let q := query_set "jwt"
                 (generate_jwt current_time nonce client_id key_secret path uri
                               method jwt_params header_params) query_params in
      Returned (uri ++ path ++ "?" ++ urlencode q)
  end.

(** The parameters [generate_websocket_url] hands to [generate_url];
    [now_ws] is its own reading of [int(round(time.time()))]. *)
Definition websocket_jwt_params (now_ws : Z) (jwt_params : pydict) : pydict :=
  merge set_order [("connection_expiry", JInt (now_ws + 300))]%string jwt_params.

Definition generate_websocket_url (now_ws current_time : Z) (nonce : string)
           (path method : string) (credentials : string * string) (uri : string)
           (jwt_params header_params : pydict)
           (query_params : list (string * string)) : outcome string :=
  let websocket_uri := uri in
  generate_url current_time nonce path method credentials websocket_uri
               (websocket_jwt_params now_ws jwt_params) header_params query_params.

End Signing.

End JWT.

(* ------------------------------------------------------------------ *)
(** ** wshandler.py : callbacks, sending, the run loop *)

Module WS.

Definition set_ws_failed (v : pyval) (h : WSHandler) : WSHandler :=
  mkWS v (ws_connected h) (ws_running h) (ws_handle h) (ws_api_host h)
       (ws_api_uri h) (ws_credentials h) (ws_ping_interval h)
       (ws_max_connect_attempts h) (ws_attempt_window_secs h).
Definition set_ws_connected (b : bool) (h : WSHandler) : WSHandler :=
  mkWS (ws_failed h) b (ws_running h) (ws_handle h) (ws_api_host h)
       (ws_api_uri h) (ws_credentials h) (ws_ping_interval h)
       (ws_max_connect_attempts h) (ws_attempt_window_secs h).
Definition set_ws_running (b : bool) (h : WSHandler) : WSHandler :=
  mkWS (ws_failed h) (ws_connected h) b (ws_handle h) (ws_api_host h)
       (ws_api_uri h) (ws_credentials h) (ws_ping_interval h)
       (ws_max_connect_attempts h) (ws_attempt_window_secs h).
Definition set_ws_handle (b : bool) (h : WSHandler) : WSHandler :=
  mkWS (ws_failed h) (ws_connected h) (ws_running h) b (ws_api_host h)
       (ws_api_uri h) (ws_credentials h) (ws_ping_interval h)
       (ws_max_connect_attempts h) (ws_attempt_window_secs h).

(** [WSHandler.__init__], with the settings [setup_wshandler] stores. *)
Definition init (host uri : string) (credentials : string * string)
           (ping attempts window : Z) : WSHandler :=
  mkWS PyNone false false false host uri credentials ping attempts window.

(** The module constant. *)
Definition STUB_SEND_DELAY : Z := 0.

Definition on_open (w : World) : World :=
  with_ws (set_ws_connected true (ws w)) w.

Definition on_message (on_message_handler : option callback) (message : string)
           (w : World) : World * outcome pyval :=
  match on_message_handler with
  | None => (w, Returned PyNone)
  | Some handler =>
      let w1 := with_metrics
                  (when_enabled
                     (fun m => set_count_from_ws (count_from_ws m + 1) m)
                     (metrics w)) w in
      match handler message w1 with
      | (w2, Returned _) => (w2, Returned PyNone)
      | (w2, Raised e) => (w2, Raised e)
      end
  end.

Definition on_close (code msg : pyval) (w : World) : World :=
  let w1 := with_ws (set_ws_connected false (ws w)) w in
  if is_None code && is_None msg
  then with_ws (set_ws_failed
                  (PyStr "websocket appears to have failed to connect (unidentified by library)"%string)
                  (ws w1)) w1
  else w1.

Definition close (w : World) : World :=
  let w1 := with_ws (set_ws_running false (ws w)) w in
  if ws_handle (ws w1) then emit EvWsClose w1 else w1.

Definition prepare_for_shutdown (w : World) : World := close w.

(** [send_ws_message]; [send_ok] tells whether [ws_handle.send] returns. *)
Definition send_ws_message (send_ok : bool) : callback :=
  fun msg w =>
    if ws_connected (ws w) && ws_running (ws w) then
      if send_ok then
        let w1 := emit (EvWsSend msg true) w in
        (with_metrics
           (when_enabled (fun m => set_count_to_ws (count_to_ws m + 1) m)
                         (metrics w1)) w1,
         Returned (PyBool true))
      else (emit (EvWsSend msg false) w, Returned (PyBool false))
    else
      if ws_running (ws w)
      then (emit (EvSleep 1) w, Returned (PyBool false))
      else (w, Returned (PyBool false)).

(** [send_ws_message_stub]; calling an unset handler raises [TypeError]. *)
Definition send_ws_message_stub (on_message_handler : option callback) : callback :=
  fun msg w =>
    if ws_connected (ws w) && ws_running (ws w) then
      let w1 := if STUB_SEND_DELAY >? 0 then emit (EvSleep STUB_SEND_DELAY) w else w in
      let w2 := with_metrics
                  (when_enabled
                     (fun m =>
                        let m1 := set_count_to_ws (count_to_ws m + 1) m in
                        set_count_from_ws (count_from_ws m1 + 1) m1)
                     (metrics w1)) w1 in
      match on_message_handler with
      | None => (w2, Raised "TypeError"%string)
      | Some handler =>
          match handler msg w2 with
          | (w3, Returned _) => (w3, Returned (PyBool true))
          | (w3, Raised e) => (w3, Raised e)
          end
      end
    else
      if ws_running (ws w)
      then (emit (EvSleep 1) w, Returned (PyBool false))
      else (w, Returned (PyBool false)).

(** *** [run_ws_server] *)

(** What happens while [run_forever] blocks: the library fires callbacks,
    and another thread may call [close]. *)
Inductive session_event : Type :=
| CbOpen
| CbMessage (message : string)
| CbClose (code msg : pyval)
| CbError
| OtherThreadClose.

(** How [run_forever] ends. *)
Inductive forever_end : Type :=
| FeReturn (teardown : bool)
| FeKeyboardInterrupt
| FeException (e : string).

(** One turn of the connect loop as the environment shapes it: the clock
    readings, the nonce, the session and its end. *)
Record attempt_obs : Type := mkAttempt {
  ao_time_start : Q;          (* [time.time()] at the loop head *)
  ao_now_ws : Z;              (* clock reading in [generate_websocket_url] *)
  ao_now : Z;                 (* clock reading in [generate_payload] *)
  ao_nonce : string;
  ao_session : list session_event;
  ao_end : forever_end;
  ao_time_end : Q             (* [time.time()] after [run_forever] *)
}.

(** The library catches what a callback raises. *)
Definition dispatch (on_message_handler : option callback) (e : session_event)
           (w : World) : World :=
  match e with
  | CbOpen => on_open w
  | CbMessage m => fst (on_message on_message_handler m w)
  | CbClose code msg => on_close code msg w
  | CbError => w
  | OtherThreadClose => close w
  end.

Definition run_session (on_message_handler : option callback)
           (es : list session_event) (w : World) : World :=
  fold_left (fun w e => dispatch on_message_handler e w) es w.

(** How [run_ws_server] is left, if it is. *)
Inductive ws_exit : Type :=
| WsReturned
| WsRaised (e : string)
| WsStillLooping.

Definition budget_exceeded : string :=
  "Exiting WebSocket forever loop because number of connect attempts exceeded"%string.

Section RunLoop.

Variable hmac_sha256 : list N -> list N -> list N.
Variable set_order : list JWT.item -> list JWT.item.
Variable on_message_handler : option callback.
Variable env : nat -> attempt_obs.

(** The loop [while attempt < self.ws_max_connect_attempts] and the check
    after it.  [fuel] bounds the turns; at the bound the world so far is
    returned with [WsStillLooping]. *)
Fixpoint ws_loop (fuel : nat) (attempt : Z) (i : nat) (w : World)
  : World * ws_exit :=
  if attempt <? ws_max_connect_attempts (ws w) then
    match fuel with
    | O => (w, WsStillLooping)
    | S fuel' =>
        let attempt := attempt + 1 in
        let o := env i in
        let last_attempt_time := ao_time_start o in
        if negb (ws_running (ws w)) then (w, WsReturned)
        else
          let w1 := with_metrics
                      (when_enabled (set_count_ws_connection_attempts attempt)
                                    (metrics w)) w in
          match JWT.generate_websocket_url hmac_sha256 set_order
                  (ao_now_ws o) (ao_now o) (ao_nonce o)
                  (ws_api_uri (ws w1)) "GET"%string (ws_credentials (ws w1))
                  (ws_api_host (ws w1)) [] [] [] with
          | Raised _ => ws_loop fuel' attempt (S i) w1
          | Returned uri =>
              let w2 := emit (EvWsOpen uri) (with_ws (set_ws_handle true (ws w1)) w1) in
              let w3 := run_session on_message_handler (ao_session o) w2 in
              match ao_end o with
              | FeReturn _ =>
                  let attempt' :=
                    if negb (Qle_bool (ao_time_end o - last_attempt_time)%Q
                                      (inject_Z (ws_attempt_window_secs (ws w3))))
                    then 0 else attempt in
                  ws_loop fuel' attempt' (S i) w3
              | FeKeyboardInterrupt => ws_loop fuel' attempt (S i) (close w3)
              | FeException e => (w3, WsRaised e)
              end
          end
    end
  else
    if attempt >=? ws_max_connect_attempts (ws w)
    then (with_ws (set_ws_failed (PyStr budget_exceeded) (ws w)) w, WsReturned)
    else (w, WsReturned).

Definition run_ws_server (fuel : nat) (w : World) : World * ws_exit :=
  ws_loop fuel 0 0 (with_ws (set_ws_running true (ws w)) w).

End RunLoop.

End WS.

(* ------------------------------------------------------------------ *)
(** ** mq2wsbridge.py : the startup poll of [main] *)

Module Bridge.

Record Mq2WsBridge : Type := mkBridge {
  server_running : bool;
  int_sleeper : bool;           (* the wake event is set *)
  interrupt_secs : Z
}.

(** What [main] holds when the poll is over. *)
Record poll_result : Type := mkPoll {
  bridge : Mq2WsBridge;
  successful_start : Z;         (* the value [main] returns *)
  slept : list Z
}.

(** The shutdown the poll performs when it sees a failure. *)
Definition trip (bb : Mq2WsBridge) : Mq2WsBridge :=
  mkBridge false true (interrupt_secs bb).

(** [for poll in range(n)]: [obs i] is what the two handlers read when turn
    [i] looks at them (their threads run meanwhile). *)
Fixpoint poll_loop (n i : nat) (obs : nat -> World) (r : poll_result)
  : poll_result :=
  match n with
  | O => r
  | S n' =>
      let w := obs i in
      if is_True (ws_failed (ws w)) then
        mkPoll (trip (bridge r)) 1 (slept r)
      else if mq_running (mq w) && ws_running (ws w) && ws_connected (ws w)
      then r
      else poll_loop n' (S i) obs (mkPoll (bridge r) (successful_start r) (slept r ++ [1]))
  end.

Definition startup_poll (obs : nat -> World) (bb : Mq2WsBridge) : poll_result :=
  poll_loop 60 0 obs (mkPoll bb 0 []).

End Bridge.

(* ------------------------------------------------------------------ *)
(** ** Vocabulary of the statements *)

Module Spec.

(** [MQHandler] with another channel reference. *)
Definition set_channel (c : option Channel) (h : MQHandler) : MQHandler :=
  mkMQ (mq_url h) (connection h) c (mq_qname_to_ws h)
       (mq_qname_from_ws h) (ttl_from_ws h) (consumer_tag h) (mq_running h)
       (max_retries h).

(** The consume-callback contract: a handler that is not running rejects
    with requeue and answers [False]; one that is running forwards the body
    and, when the forward call returns [v], acks once if [v] is [True] and
    rejects with requeue otherwise, answering [v].  The ack or reject is the
    one event the handler adds to what the forward call left. *)
Definition callback_contract (fwd : callback) (m : Message) (w : World) : Prop :=
  let '(w', r) := MQ.__call__ fwd m w in
  if mq_running (mq w) then
    forall (w1 : World) (v : pyval),
      fwd (body m) w = (w1, Returned v) ->
      r = Returned v /\
      w' = emit (if is_True v then EvAck m else EvReject m true) w1
  else r = Returned (PyBool false) /\ w' = emit (EvReject m true) w.

(** A callback that returns on this body in this world. *)
Definition returns_on (fwd : callback) (b : string) (w : World) : Prop :=
  exists (w1 : World) (v : pyval), fwd b w = (w1, Returned v).

(** [k] failed tries of the publish loop: each is followed by a sleep of one
    second. *)
Fixpoint failed_tries (rk : string) (m : Message) (k : nat) : trace :=
  match k with
  | O => []
  | S k' => EvPublish rk m false :: EvSleep 1 :: failed_tries rk m k'
  end.

(** The abort test of the publish loop at turn [i]: it is only made once a
    try has failed. *)
Definition abort_at (env : nat -> MQ.pub_obs) (i : nat) : bool :=
  (negb (MQ.obs_consumer_tags (env i)) || negb (MQ.obs_running (env i)))
  && (0 <? i)%nat.

(** The abort rule without that restriction: if every try before turn [i]
    fails and [running] reads false at turn [i] while retries remain, the
    publish answers [False]. *)
Definition aborts_whenever_not_running (env : nat -> MQ.pub_obs)
           (exchange rk b : string) (w : World) : Prop :=
  forall i : nat,
    Z.of_nat i < max_retries (mq w) ->
    (forall j, (j < i)%nat -> MQ.obs_publish_ok (env j) = false) ->
    MQ.obs_running (env i) = false ->
    snd (MQ.send_message env exchange rk b w) = Returned (PyBool false).

(** The turns of the connect loop that fail and are retried, numbered from
    [n]: each failed connect is followed by its backoff sleep. *)
Fixpoint retried (url : string) (n : Z) (k : nat) : trace :=
  match k with
  | O => []
  | S k' => EvConnect url false :: EvSleep (MQ.backoff n) :: retried url (n + 1) k'
  end.

(** What [mq_running] reads at the head of turn [k] of a connect loop that
    was entered in world [w] at observation [i] and whose turns before [k]
    were failures it retried: the flag of [w] at the first turn, afterwards
    what the failure before says the flag reads once the sleep is over. *)
Definition running_at (w : World) (env : nat -> MQ.connect_obs) (i k : nat)
  : bool :=
  match k with
  | O => mq_running (mq w)
  | S j => match env (i + j)%nat with
           | MQ.ConnAMQPError still => still
           | _ => false
           end
  end.

(** The connect observed at [i], made as attempt number [attempt], fails and
    is retried: there is no limit, or the number does not exceed it. *)
Definition retried_failure (env : nat -> MQ.connect_obs) (mx : Z) (i : nat)
           (attempt : Z) : bool :=
  match env i with
  | MQ.ConnAMQPError _ => (mx =? 0) || (attempt <=? mx)
  | _ => false
  end.

(** How a run ends at a turn that is not a retried failure: what it still
    adds to the trace, whether the loop was left, and what [mq_running] reads
    afterwards. *)
Record connect_end : Type := mkConnectEnd {
  ce_tail : trace;
  ce_progress : progress;
  ce_running : bool
}.

Definition connect_ending (url : string) (running at_bound : bool)
           (o : MQ.connect_obs) : connect_end :=
  if negb running then mkConnectEnd [] Finished false
  else if at_bound then mkConnectEnd [] StillLooping true
  else match o with
       | MQ.ConnOk => mkConnectEnd [EvConnect url true] Finished true
       | MQ.ConnAMQPError _ => mkConnectEnd [EvConnect url false] Finished false
       | MQ.ConnKeyboardInterrupt => mkConnectEnd [] Finished false
       end.

(** An iteration order for sets: a rearrangement of the elements. *)
Definition is_set_order (o : list JWT.item -> list JWT.item) : Prop :=
  forall l, Permutation (o l) l.

(** Two runs, iterating sets in the orders [o1] and [o2], emit the same
    header, payload and signature from the same inputs, clock and nonce. *)
Definition runs_agree (o1 o2 : list JWT.item -> list JWT.item)
           (now : Z) (nonce key_id : string) (key_secret : list N)
           (path uri method : string) (jwt_params header_params : JWT.pydict)
  : Prop :=
  forall hmac_sha256 : list N -> list N -> list N,
    JWT.jwt_parts hmac_sha256 o1 now nonce key_id key_secret path uri method
                  jwt_params header_params
    = JWT.jwt_parts hmac_sha256 o2 now nonce key_id key_secret path uri method
                    jwt_params header_params.

(** The token is the same in every run, whatever its set order. *)
Definition deterministic_across_runs
           (now : Z) (nonce key_id : string) (key_secret : list N)
           (path uri method : string) (jwt_params header_params : JWT.pydict)
  : Prop :=
  forall o1 o2 : list JWT.item -> list JWT.item,
    is_set_order o1 -> is_set_order o2 ->
    runs_agree o1 o2 now nonce key_id key_secret path uri method
               jwt_params header_params.

(** The two dictionaries bind no key to two different values: the distinct
    pairs of both have distinct keys. *)
Definition consistent (a b : JWT.pydict) : Prop :=
  NoDup (JWT.keys (nodup JWT.item_eq_dec (a ++ b))).


(** The payload of a WebSocket URL, as a dictionary: [jwt_params] are the
    caller's extra parameters. *)
Definition websocket_payload (o : list JWT.item -> list JWT.item)
           (now_ws now : Z) (nonce key_id path uri method : string)
           (jwt_params : JWT.pydict) : JWT.pydict :=
  JWT.payload_dict o now nonce key_id path uri method
                   (JWT.websocket_jwt_params o now_ws jwt_params).



(** The eight claims with the values they are said to have. *)
Definition claimed (now_ws now : Z) (key_id : string) : JWT.pydict :=
  [ ("exp", JWT.JInt (now + 300));
    ("nbf", JWT.JInt (now - 60));
    ("iat", JWT.JInt (now - 60));
    ("iss", JWT.JStr key_id);
    ("kid", JWT.JStr key_id);
    ("client_id", JWT.JStr key_id);
    ("region", JWT.JStr "ny");
    ("connection_expiry", JWT.JInt (now_ws + 300)) ]%string.

(** Extra parameters that give none of these eight names another value (they
    may bind any other name, and may repeat a claim with its own value). *)
Definition keeps_claims (now_ws now : Z) (key_id : string)
           (params : JWT.pydict) : Prop :=
  forall (k : string) (v : JWT.jval),
    In (k, v) params ->
    In k (JWT.keys (claimed now_ws now key_id)) ->
    In (k, v) (claimed now_ws now key_id).

(** A handler whose calls are recorded: the frame is logged as delivered,
    then the handler runs. *)
Definition logged (h : callback) : callback :=
  fun msg w => h msg (emit (EvDelivered msg) w).

(** Sending a sequence of frames one call after the other, call number [i]
    going through [send i]; the results are collected in order. *)
Fixpoint send_seq (send : nat -> callback) (i : nat) (frames : list string)
         (w : World) : World * list (outcome pyval) :=
  match frames with
  | [] => (w, [])
  | m :: rest =>
      let '(w1, r) := send i m w in
      let '(w2, rs) := send_seq send (S i) rest w1 in
      (w2, r :: rs)
  end.

(** The stub send with the handler [setup_wshandler] wires to it,
    [send_message_from_ws], its calls recorded; [envs i] is what the publish
    loop of call [i] observes. *)
Definition stub_echo (envs : nat -> nat -> MQ.pub_obs) (i : nat) : callback :=
  WS.send_ws_message_stub (Some (logged (MQ.send_message_from_ws (envs i)))).

(** The world in which the stub calls its handler: both frame counters
    stepped. *)
Definition stub_counted (w : World) : World :=
  with_metrics
    (when_enabled
       (fun m =>
          let m1 := set_count_to_ws (count_to_ws m + 1) m in
          set_count_from_ws (count_from_ws m1 + 1) m1)
       (metrics w)) w.

(** What [ws_failed] holds: [None], or the reason as a string. *)
Definition reason_or_none (v : pyval) : Prop :=
  match v with
  | PyNone | PyStr _ => True
  | _ => False
  end.

End Spec.
Import Spec.

(* ------------------------------------------------------------------ *)
(** ** Concrete handlers, worlds and environments *)

Module Scenarios.

Definition a_channel : Channel := mkChannel ["mqhandler"%string].

(** [MQHandler.__init__] followed by [setup_mqhandler] with the defaults;
    [ttl] is [mq_ttl_from_ws]. *)
Definition mq_setup (ttl : Z) : MQHandler :=
  mkMQ "amqps://u:p@b.mq.r.amazonaws.com:5671" false None "to_ws" "from_ws"
       ttl "mqhandler" false 5.

(** The same handler while it consumes: connected, channel open, running. *)
Definition mq_consuming (ttl : Z) : MQHandler :=
  mkMQ "amqps://u:p@b.mq.r.amazonaws.com:5671" true (Some a_channel)
       "to_ws" "from_ws" ttl "mqhandler" true 5.

(** [consume_messages] has set [mq_running] and is about to connect. *)
Definition mq_connecting (retries : Z) : MQHandler :=
  mkMQ "amqps://u:p@b.mq.r.amazonaws.com:5671" false None "to_ws" "from_ws"
       300 "mqhandler" true retries.

Definition ws_setup : WSHandler :=
  WS.init "wss://h" "/x" ("cid", "00ff")%string 10 10 60.

(** The stub after [run_ws_server_stub] has started. *)
Definition ws_stub_up : WSHandler :=
  WS.set_ws_connected true (WS.set_ws_running true ws_setup).

Definition metrics_on : option MetricsHandler := Some (Metrics.init true).

Definition fresh_world : World :=
  mkWorld MQ.init ws_setup None [].

Definition consuming_world : World :=
  mkWorld (mq_consuming 300) ws_stub_up metrics_on [].

(** The handler after [close]: not running, the consumer cancelled, the
    channel object still referenced. *)
Definition mq_closed : MQHandler :=
  mkMQ "amqps://u:p@b.mq.r.amazonaws.com:5671" true (Some (mkChannel []))
       "to_ws" "from_ws" 300 "mqhandler" false 5.

Definition closed_world : World :=
  mkWorld mq_closed ws_stub_up metrics_on [].

Definition connecting_world (retries : Z) : World :=
  mkWorld (mq_connecting retries) ws_setup metrics_on [].

Definition a_message : Message :=
  mkMessage "hello" [("content_type", "text/plain")]%string.

(** Publishing always works, the handler keeps running. *)
Definition env_publish_ok : nat -> MQ.pub_obs :=
  fun _ => MQ.mkPubObs true true true.

(** The handler is seen stopped and without consumer, yet the broker accepts
    a publish. *)
Definition env_stopped_publish_ok : nat -> MQ.pub_obs :=
  fun _ => MQ.mkPubObs false false true.

(** Two publishes fail, then the handler is seen stopped. *)
Definition env_fail_then_stopped : nat -> MQ.pub_obs :=
  fun i => match i with
           | 0%nat | 1%nat => MQ.mkPubObs true true false
           | _ => MQ.mkPubObs true false true
           end.

(** The broker is never reachable. *)
Definition env_unreachable : nat -> MQ.connect_obs :=
  fun _ => MQ.ConnAMQPError true.

(** Two failed connects, then a connection. *)
Definition env_third_time : nat -> MQ.connect_obs :=
  fun i => match i with
           | 0%nat | 1%nat => MQ.ConnAMQPError true
           | _ => MQ.ConnOk
           end.

(** The broker answers at once. *)
Definition env_first_time : nat -> MQ.connect_obs :=
  fun _ => MQ.ConnOk.

(** Three WebSocket sessions: two that end at once, a third that lasts 98
    seconds (longer than the 60 second window); then the next attempt. *)
Definition env_sessions : nat -> WS.attempt_obs :=
  fun i =>
    match i with
    | 0%nat => WS.mkAttempt 0 0 0 "n0" [] (WS.FeReturn false) 1
    | 1%nat => WS.mkAttempt 1 1 1 "n1" [] (WS.FeReturn false) 2
    | 2%nat => WS.mkAttempt 2 2 2 "n2"
                 [WS.CbOpen; WS.CbClose (PyInt 1000) (PyStr "bye")]
                 (WS.FeReturn false) 100
    | _ => WS.mkAttempt 100 100 100 "n3" [WS.CbOpen] (WS.FeReturn false) 101
    end.

(** The WebSocket handler after a session that never shook hands:
    [on_close] was called with neither code nor message. *)
Definition ws_failed_world : World :=
  WS.on_close PyNone PyNone
    (mkWorld (mq_consuming 300) (WS.set_ws_running true ws_setup) None []).

Definition obs_ws_failed : nat -> World := fun _ => ws_failed_world.

Definition a_bridge : Bridge.Mq2WsBridge := Bridge.mkBridge true false 60.

Definition zero_nonce : string := "00000000-0000-0000-0000-000000000000".

(** Two iteration orders that differ on large sets only. *)
Definition order_a : list JWT.item -> list JWT.item := @rev JWT.item.

Definition order_b : list JWT.item -> list JWT.item :=
  fun l => if (List.length l <=? 11)%nat then rev l else l.

(** A stand-in digest for examples that do not depend on it. *)
Definition fixed_digest : list N -> list N -> list N :=
  fun _ _ => [1; 2; 3]%N.

End Scenarios.
Import Scenarios.

From Stdlib Require Import NArith.

(* ------------------------------------------------------------------ *)
(** ** Characters of tokens and URLs *)

Module Text.

(** The alphabet of URL-safe base64 without padding. *)
Definition b64url_char (c : ascii) : bool :=
  let n := N_of_ascii c in
  (((65 <=? n) && (n <=? 90)) || ((97 <=? n) && (n <=? 122))
   || ((48 <=? n) && (n <=? 57)) || (n =? 45) || (n =? 95))%N.

(** The characters of a token: that alphabet and the dot between parts. *)
Definition token_char (c : ascii) : bool :=
  b64url_char c || (N_of_ascii c =? 46)%N.

Fixpoint all_chars (p : ascii -> bool) (s : string) : bool :=
  match s with
  | EmptyString => true
  | String c s' => p c && all_chars p s'
  end.

Fixpoint count_char (c : ascii) (s : string) : nat :=
  match s with
  | EmptyString => O
  | String c' s' => (if Ascii.eqb c c' then 1 else 0) + count_char c s'
  end.

(** Byte strings: every element is below 256. *)
Definition bytes (l : list N) : Prop := Forall (fun b => (b < 256)%N) l.

(** A digest function that returns byte strings. *)
Definition digest_fn (f : list N -> list N -> list N) : Prop :=
  forall key msg, bytes (f key msg).

(** The two serialisations [generate_header] can produce without extra
    parameters. *)
Definition header_alg_first : string := "eyJhbGciOiAiSFMyNTYiLCAidHlwIjogIkpXVCJ9".
Definition header_typ_first : string := "eyJ0eXAiOiAiSldUIiwgImFsZyI6ICJIUzI1NiJ9".

End Text.
Import Text.

(* ------------------------------------------------------------------ *)
(** ** Counting in traces; the bridge as it is wired *)

Module Wiring.

Definition is_open (e : event) : bool :=
  match e with EvWsOpen _ => true | _ => false end.
Definition is_ack (e : event) : bool :=
  match e with EvAck _ => true | _ => false end.
Definition is_reject (e : event) : bool :=
  match e with EvReject _ _ => true | _ => false end.
Definition is_requeue (e : event) : bool :=
  match e with EvReject _ true => true | _ => false end.
Definition is_sent (e : event) : bool :=
  match e with EvWsSend _ true => true | _ => false end.

(** The messages a trace settles, by an ack or a reject, in order. *)
Definition settled (t : trace) : list Message :=
  flat_map (fun e => match e with
                     | EvAck m => [m]
                     | EvReject m _ => [m]
                     | _ => []
                     end) t.

Definition count (p : event -> bool) (t : trace) : Z :=
  Z.of_nat (List.length (filter p t)).

(** [count_to_ws] of the shared metrics object, 0 when there is none. *)
Definition to_ws_total (w : World) : Z :=
  match metrics w with Some m => count_to_ws m | None => 0 end.
Definition from_ws_total (w : World) : Z :=
  match metrics w with Some m => count_from_ws m | None => 0 end.
Definition ws_attempts_total (w : World) : Z :=
  match metrics w with Some m => count_ws_connection_attempts m | None => 0 end.
Definition mq_attempts_total (w : World) : Z :=
  match metrics w with Some m => count_mq_connection_attempts m | None => 0 end.

Definition metrics_on_in (w : World) : Prop :=
  exists m, metrics w = Some m /\ metrics_enabled m = true.

(** The broker library delivering messages one after the other to the
    handler, which [setup_wshandler] has wired to [send_ws_message]; each
    delivery comes with the outcome of [ws_handle.send], should it be
    called. *)
Fixpoint deliver_all (ds : list (Message * bool)) (w : World) : World :=
  match ds with
  | [] => w
  | (m, send_ok) :: rest =>
      deliver_all rest (fst (MQ.__call__ (WS.send_ws_message send_ok) m w))
  end.

(** The stub wiring of [setup_wshandler]: consumed messages go to
    [send_ws_message_stub], which hands them to [send_message_from_ws]. *)
Definition stub_wired (env : nat -> MQ.pub_obs) : callback :=
  WS.send_ws_message_stub (Some (MQ.send_message_from_ws env)).

(** [ws_failed] holds a reason. *)
Definition has_reason (v : pyval) : Prop := exists s, v = PyStr s.

End Wiring.
Import Wiring.

(* ------------------------------------------------------------------ *)
(** ** More concrete environments *)

Module Scenarios2.

(** Every session is opened, closed by the peer and over within a second. *)
Definition env_short_sessions : nat -> WS.attempt_obs :=
  fun _ => WS.mkAttempt 0 0 0 "n"
             [WS.CbOpen; WS.CbClose (PyInt 1006) PyNone] (WS.FeReturn false) 1.

Definition ws_world : World :=
  mkWorld (mq_consuming 300) ws_setup metrics_on [].

End Scenarios2.
Import Scenarios2.

(* ------------------------------------------------------------------ *)
(** ** mqhandler.py : closing *)

Module MQClose.

(** Calls into the broker library that leave no event in the trace. *)
Inductive lib_call : Type :=
| CancelConsumer (tag : string)
| CloseChannel
| CloseConnection
| CloseSocket
| WakeMetrics.

(** [MQHandler.close]: the flag first, then the channel, then the
    connection; the references themselves are kept. *)
Definition close (w : World) : World * list lib_call :=
  let w1 := with_mq (MQ.set_mq_running false (mq w)) w in
  (w1,
   (match channel (mq w1) with
    | Some _ => [CancelConsumer (consumer_tag (mq w1)); CloseChannel]
    | None => []
    end)
   ++ (if connection (mq w1) then [CloseConnection] else [])).

End MQClose.

(* ------------------------------------------------------------------ *)
(** ** mq2wsbridge.py : quit, interrupter, watch loop *)

Module Supervisor.

Import Bridge.

(** [Mq2WsBridge.quit], the signal handler. *)
Definition quit (bb : Mq2WsBridge) : Mq2WsBridge :=
  mkBridge false true (interrupt_secs bb).

(** [MetricsHandler.close]: the sleeper exists once metrics are set up. *)
Definition metrics_close (w : World) : list MQClose.lib_call :=
  match metrics w with
  | Some m => if metrics_enabled m then [MQClose.WakeMetrics] else []
  | None => []
  end.

(** The closing sequence at the end of [interrupter]. *)
Definition close_all (w : World) : World * list MQClose.lib_call :=
  let '(w1, c1) := MQClose.close w in
  let w2 := WS.close w1 in
  (w2, c1 ++ metrics_close w2).

(** The loop [while self.server_running is True: sleeper.wait(60)] of the
    interrupter; [flag i] is what [server_running] reads at loop head [i]
    (the main thread and the signal handler write it). *)
Fixpoint park (fuel : nat) (flag : nat -> bool) (i : nat) (waits : list Z)
  : list Z * progress :=
  if flag i then
    match fuel with
    | O => (waits, StillLooping)
    | S fuel' => park fuel' flag (S i) (waits ++ [60])
    end
  else (waits, Finished).

Record interrupter_result : Type := mkInterrupter {
  ir_bridge : Mq2WsBridge;
  ir_world : World;
  ir_waits : list Z;
  ir_calls : list MQClose.lib_call;
  ir_progress : progress
}.

(** [Mq2WsBridge.interrupter]. *)
Definition interrupter (fuel : nat) (flag : nat -> bool)
           (bb : Mq2WsBridge) (w : World) : interrupter_result :=
  if interrupt_secs bb =? 0 then
    match park fuel flag 0 [] with
    | (waits, Finished) =>
        let '(w', calls) := close_all w in
        mkInterrupter (mkBridge false (int_sleeper bb) (interrupt_secs bb))
                      w' waits calls Finished
    | (waits, StillLooping) => mkInterrupter bb w waits [] StillLooping
    end
  else
    let '(w', calls) := close_all w in
    mkInterrupter (mkBridge false (int_sleeper bb) (interrupt_secs bb))
                  w' [interrupt_secs bb] calls Finished.

(** What one turn of the watch loop of [main] sees after its sleep. *)
Record watch_obs : Type := mkWatch {
  wo_stopped : bool;      (* another thread has cleared [server_running] *)
  wo_mq_alive : bool;     (* [mq_thread.is_alive()] *)
  wo_ws_alive : bool;     (* [ws_thread.is_alive()] *)
  wo_world : World;       (* the handlers as they read now *)
  wo_interrupt : bool     (* [KeyboardInterrupt] during the sleep *)
}.

Record main_result : Type := mkMain {
  mr_bridge : Mq2WsBridge;
  mr_exit : Z;
  mr_slept : list Z;
  mr_progress : progress
}.

(** The loop [while bb.server_running is True] of [main]. *)
Fixpoint watch_loop (fuel : nat) (obs : nat -> watch_obs) (i : nat)
         (r : main_result) : main_result :=
  if server_running (mr_bridge r) then
    match fuel with
    | O => mkMain (mr_bridge r) (mr_exit r) (mr_slept r) StillLooping
    | S fuel' =>
        let o := obs i in
        let slept := mr_slept r ++ [3] in
        if wo_interrupt o then
          mkMain (quit (mr_bridge r)) (mr_exit r) slept Finished
        else
          let bb0 := if wo_stopped o
                     then mkBridge false (int_sleeper (mr_bridge r))
                                   (interrupt_secs (mr_bridge r))
                     else mr_bridge r in
          let bb1 := if negb (wo_mq_alive o) || negb (mq_running (mq (wo_world o)))
                     then quit bb0 else bb0 in
          let bb2 := if negb (wo_ws_alive o) || negb (ws_running (ws (wo_world o)))
                     then quit bb1 else bb1 in
          watch_loop fuel' obs (S i) (mkMain bb2 (mr_exit r) slept Finished)
    end
  else mkMain (mr_bridge r) (mr_exit r) (mr_slept r) Finished.

(** [main] from the start of the threads to its return value. *)
Definition main_after_setup (fuel : nat) (poll_obs : nat -> World)
           (obs : nat -> watch_obs) (bb : Mq2WsBridge) : main_result :=
  let p := startup_poll poll_obs bb in
  watch_loop fuel obs 0
             (mkMain (bridge p) (successful_start p) (slept p) Finished).

(** The readiness test of the startup poll. *)
Definition ready (w : World) : bool :=
  mq_running (mq w) && ws_running (ws w) && ws_connected (ws w).

End Supervisor.

(* ------------------------------------------------------------------ *)
(** ** Basic facts about the world *)

Lemma events_emit (e : event) (w : World) :
  events (emit e w) = events w ++ [e].
Proof. reflexivity. Qed.

Lemma sleeps_app (a b : trace) : sleeps (a ++ b) = sleeps a ++ sleeps b.
Proof. unfold sleeps. apply flat_map_app. Qed.

Lemma publishes_app (a b : trace) :
  publishes (a ++ b) = publishes a ++ publishes b.
Proof. unfold publishes. apply flat_map_app. Qed.

Lemma delivered_app (a b : trace) :
  delivered (a ++ b) = delivered a ++ delivered b.
Proof. unfold delivered. apply flat_map_app. Qed.

(* ------------------------------------------------------------------ *)
(** ** The consume callback *)

Section ConsumeCallback.

Variable fwd : callback.
Variable m : Message.

(** C1.  A message the broker delivers reaches a handler whose channel
    reference is set ([consume_messages] stores the channel before it
    registers the handler on it, and nothing unsets it).  There, a handler
    that is not running rejects the message with requeue and returns [False];
    a running handler calls the forward callback on the body and, when that
    returns, acks the message exactly once if the value is [True] and rejects
    it with requeue otherwise, returning that value.  Both callbacks that
    [setup_wshandler] wires as forward callback return on such a handler, so
    in the bridge every received message is acked or rejected with requeue. *)
Theorem call_contract_with_channel (w : World) (ch : Channel) :
  channel (mq w) = Some ch ->
  callback_contract fwd m w
  /\ (forall send_ok : bool,
         returns_on (WS.send_ws_message send_ok) (body m) w)
  /\ (forall env : nat -> MQ.pub_obs,
         returns_on (stub_wired env) (body m) w).
Proof.
  intros Hch. split; [|split].
  - unfold callback_contract, MQ.__call__. rewrite Hch.
    destruct (mq_running (mq w)); cbn [negb].
    + destruct (fwd (body m) w) as [w0 [v0 | e0]].
      * destruct (is_True v0) eqn:Hv; cbn beta iota; intros w1 v Heq;
          injection Heq as <- <-; rewrite Hv; split; reflexivity.
      * intros w1 v Heq. discriminate Heq.
    + split; reflexivity.
  - intros send_ok. unfold returns_on, WS.send_ws_message.
    destruct (ws_connected (ws w) && ws_running (ws w)).
    + destruct send_ok; eexists; eexists; reflexivity.
    + destruct (ws_running (ws w)); eexists; eexists; reflexivity.
  - intros env. unfold returns_on, stub_wired, WS.send_ws_message_stub.
    destruct (ws_connected (ws w) && ws_running (ws w)).
    + change (WS.STUB_SEND_DELAY >? 0) with false. cbn iota.
      unfold MQ.send_message_from_ws, MQ.send_message.
      cbn [mq with_metrics]. rewrite Hch.
      destruct (MQ.publish_loop _ _ _ _ _ _ _) as [t sent].
      eexists; eexists; reflexivity.
    + destruct (ws_running (ws w)); eexists; eexists; reflexivity.
Qed.

(** C10.  With the channel reference unset the callback returns [False] and
    leaves the world as it found it: no ack, no reject, no forward call,
    whatever [mq_running] reads.  The same handler with a channel, when not
    running, does reject with requeue. *)
Theorem call_without_channel (w : World) :
  channel (mq w) = None ->
  MQ.__call__ fwd m w = (w, Returned (PyBool false)) /\
  (mq_running (mq w) = false ->
   forall ch,
     let w_ch := with_mq (set_channel (Some ch) (mq w)) w in
     MQ.__call__ fwd m w_ch = (emit (EvReject m true) w_ch, Returned (PyBool false))).
Proof.
  intros Hch. split.
  - unfold MQ.__call__. rewrite Hch. reflexivity.
  - intros Hrun ch w_ch. unfold MQ.__call__. subst w_ch. cbn. rewrite Hrun.
    reflexivity.
Qed.

End ConsumeCallback.

(** A forward callback that raises: the exception leaves the callback, and
    the handler has neither acked nor rejected the message. *)
Lemma call_forward_raises (fwd : callback) (m : Message) (w w1 : World)
      (ch : Channel) (e : string) :
  channel (mq w) = Some ch ->
  mq_running (mq w) = true ->
  fwd (body m) w = (w1, Raised e) ->
  MQ.__call__ fwd m w = (w1, Raised e).
Proof.
  intros Hch Hrun Hfwd. unfold MQ.__call__. rewrite Hch, Hrun, Hfwd.
  reflexivity.
Qed.

(** A consuming handler wired to the socket: the frame is sent, the message
    acked once, the result [True]. *)
Lemma call_contract_with_channel_witness :
  channel (mq consuming_world) = Some a_channel /\
  MQ.__call__ (WS.send_ws_message true) a_message consuming_world
  = (emit (EvAck a_message)
          (fst (WS.send_ws_message true (body a_message) consuming_world)),
     Returned (PyBool true)).
Proof.
  split; [reflexivity|].
  pose proof (proj1 (call_contract_with_channel (WS.send_ws_message true)
                       a_message consuming_world a_channel eq_refl)) as H.
  unfold callback_contract in H.
  destruct (MQ.__call__ (WS.send_ws_message true) a_message consuming_world)
    as [w' r].
  destruct (H _ _ eq_refl) as [Hr Hw]. rewrite Hr, Hw. reflexivity.
Defined.

(** A fresh handler: the callback leaves the empty trace empty. *)
Lemma call_without_channel_witness :
  channel (mq fresh_world) = None /\
  MQ.__call__ (WS.send_ws_message true) a_message fresh_world
  = (fresh_world, Returned (PyBool false)).
Proof.
  split; [reflexivity|].
  apply (call_without_channel (WS.send_ws_message true) a_message fresh_world).
  reflexivity.
Defined.

(* ------------------------------------------------------------------ *)
(** ** The publish loop *)

Section PublishLoop.

Variable env : nat -> MQ.pub_obs.
Variable h : MQHandler.
Variable rk : string.
Variable msg : Message.

Lemma failed_tries_publishes (k : nat) :
  publishes (failed_tries rk msg k) = repeat false k.
Proof.
  induction k as [|k IH]; [reflexivity|].
  cbn [failed_tries]. unfold publishes in *. cbn [flat_map app repeat].
  now rewrite IH.
Qed.

Lemma failed_tries_sleeps (k : nat) :
  sleeps (failed_tries rk msg k) = repeat 1 k.
Proof.
  induction k as [|k IH]; [reflexivity|].
  cbn [failed_tries]. unfold sleeps in *. cbn [flat_map app repeat].
  now rewrite IH.
Qed.

Lemma failed_tries_snoc (k : nat) :
  [EvPublish rk msg false; EvSleep 1] ++ failed_tries rk msg k
  = failed_tries rk msg (S k).
Proof. reflexivity. Qed.

(** The loop test [(not tags or not running) and retry_count < max_retries]
    is [abort_at], as [retry_count] has dropped exactly once per turn. *)
Lemma loop_test_is_abort_at (n' i : nat) :
  Z.of_nat (S n' + i) = max_retries h ->
  (negb (MQ.obs_consumer_tags (env i)) || negb (MQ.obs_running (env i)))
  && (Z.of_nat (S n') <? max_retries h)
  = abort_at env i.
Proof.
  intros Hinv. unfold abort_at. f_equal.
  destruct (Z.ltb_spec (Z.of_nat (S n')) (max_retries h)) as [Hlt | Hge];
    destruct (Nat.ltb_spec 0 i) as [Hi | Hi]; try reflexivity; lia.
Qed.

(** The shape of every run of the loop, entered at turn [i] with [n]
    retries left. *)
Lemma publish_loop_spec (n : nat) :
  forall (i : nat) (t : trace),
    Z.of_nat (n + i) = max_retries h \/ n = O ->
    exists (k : nat) (sent : bool),
      MQ.publish_loop env h rk msg n i t
      = (t ++ failed_tries rk msg k
           ++ (if sent then [EvPublish rk msg true] else []), sent)
      /\ (k + (if sent then 1 else 0) <= n)%nat
      /\ (forall j, (i <= j < i + k)%nat ->
                    MQ.obs_publish_ok (env j) = false /\ abort_at env j = false)
      /\ (sent = true ->
          MQ.obs_publish_ok (env (i + k)) = true /\ abort_at env (i + k) = false)
      /\ (sent = false -> k = n \/ abort_at env (i + k) = true).
Proof.
  induction n as [|n' IH]; intros i t Hinv.
  - exists O, false. cbn [MQ.publish_loop failed_tries app Nat.add].
    rewrite app_nil_r.
    split; [reflexivity|]. split; [lia|]. split; [intros j Hj; lia|].
    split; [discriminate|]. intros _. now left.
  - destruct Hinv as [Hinv | Hinv]; [|discriminate].
    cbn [MQ.publish_loop]. rewrite (loop_test_is_abort_at n' i Hinv).
    destruct (abort_at env i) eqn:Habort.
    + exists O, false. cbn [failed_tries app].
      replace (i + 0)%nat with i by lia. rewrite app_nil_r.
      split; [reflexivity|]. split; [lia|]. split; [intros j Hj; lia|].
      split; [discriminate|]. intros _. now right.
    + destruct (MQ.obs_publish_ok (env i)) eqn:Hok.
      * exists O, true. cbn [failed_tries app].
        replace (i + 0)%nat with i by lia.
        split; [reflexivity|]. split; [lia|]. split; [intros j Hj; lia|].
        split; [intros _; split; assumption | discriminate].
      * destruct (IH (S i) (t ++ [EvPublish rk msg false; EvSleep 1]))
          as (k & sent & Heq & Hle & Hfail & Hsent & Hstop).
        { left. lia. }
        exists (S k), sent. rewrite Heq.
        replace (i + S k)%nat with (S i + k)%nat by lia.
        split; [|split; [|split; [|split]]].
        -- rewrite <- app_assoc. reflexivity.
        -- destruct sent; lia.
        -- intros j Hj. destruct (Nat.eq_dec j i) as [-> | Hne].
           ++ split; assumption.
           ++ apply Hfail. lia.
        -- exact Hsent.
        -- intros Hs. destruct (Hstop Hs) as [-> | Hab]; [now left | now right].
Qed.

End PublishLoop.

(** C6, as amended.  On a handler with a channel, [send_message] declares
    the queue and then makes tries one after the other: [k] failed tries,
    each followed by a sleep of one second, and then either one successful
    try, which is the last thing it does (result [True]), or nothing more
    (result [False]).  It goes on trying until a try succeeds, [max_retries]
    tries have failed, or a turn after the first finds [running] false (or no
    consumer tag): the tries before [k] all failed without meeting that abort
    test, a successful try is the one at turn [k], and a run that ends
    unsent has used up its [max_retries] tries or met the abort test at turn
    [k].  The first try is made whatever the flags read. *)
Theorem send_message_retry_contract
        (env : nat -> MQ.pub_obs) (exchange rk b : string) (w : World)
        (ch : Channel) :
  channel (mq w) = Some ch ->
  exists (k : nat) (sent : bool),
    let m := mkMessage b (MQ.build_properties (mq w)) in
    let tries := failed_tries rk m k
                 ++ (if sent then [EvPublish rk m true] else []) in
    MQ.send_message env exchange rk b w
    = (with_events (events w ++ [EvDeclare rk true] ++ tries) w,
       Returned (PyBool sent))
    /\ Z.of_nat (List.length (publishes tries)) <= Z.max 0 (max_retries (mq w))
    /\ sleeps tries = repeat 1 k
    /\ (sent = true <-> In true (publishes tries))
    /\ (0 < max_retries (mq w) -> publishes tries <> [])
    /\ (forall j : nat,
          (j < k)%nat ->
          MQ.obs_publish_ok (env j) = false /\ abort_at env j = false)
    /\ (sent = true ->
        MQ.obs_publish_ok (env k) = true /\ abort_at env k = false)
    /\ (sent = false ->
        Z.of_nat k = Z.max 0 (max_retries (mq w)) \/ abort_at env k = true)
    /\ (forall i : nat,
          (0 < i)%nat -> Z.of_nat i < max_retries (mq w) ->
          MQ.obs_consumer_tags (env i) = false \/ MQ.obs_running (env i) = false ->
          (k <= i)%nat /\ (k = i -> sent = false)).
Proof.
  intros Hch.
  destruct (publish_loop_spec env (mq w) rk
              (mkMessage b (MQ.build_properties (mq w)))
              (Z.to_nat (max_retries (mq w))) 0
              (events w ++ [EvDeclare rk true]))
    as (k & sent & Heq & Hle & Hfail & Hsent & Hstop).
  { destruct (Z.le_gt_cases 0 (max_retries (mq w))); [left | right]; lia. }
  cbn [Nat.add] in Hfail, Hsent, Hstop.
  exists k, sent. cbn zeta.
  split; [|split; [|split; [|split; [|split; [|split; [|split; [|split]]]]]]].
  - unfold MQ.send_message. rewrite Hch. cbn [emit events mq].
    rewrite Heq. unfold with_events. cbn. rewrite <- app_assoc. reflexivity.
  - rewrite publishes_app, length_app, failed_tries_publishes, repeat_length.
    destruct sent; cbn [publishes flat_map List.length app]; lia.
  - rewrite sleeps_app, failed_tries_sleeps.
    destruct sent; cbn; now rewrite app_nil_r.
  - rewrite publishes_app, failed_tries_publishes. split.
    + intros ->. apply in_or_app. right. cbn. now left.
    + intros Hin. apply in_app_or in Hin. destruct Hin as [Hin | Hin].
      * apply repeat_spec in Hin. discriminate.
      * destruct sent; [reflexivity | destruct Hin].
  - intros Hpos. rewrite publishes_app, failed_tries_publishes.
    destruct sent.
    + intros Hnil. apply app_eq_nil in Hnil. destruct Hnil as [_ Hnil].
      discriminate.
    + destruct (Hstop eq_refl) as [-> | Hab].
      * destruct (Z.to_nat (max_retries (mq w))) eqn:Hn; [lia | discriminate].
      * destruct k; [|discriminate].
        unfold abort_at in Hab. cbn in Hab. rewrite andb_false_r in Hab.
        discriminate.
  - intros j Hj. apply Hfail. lia.
  - exact Hsent.
  - intros Hs. destruct (Hstop Hs) as [-> | Hab]; [left; lia | right; exact Hab].
  - intros i Hi Hlt Hcond.
    assert (Hab : abort_at env i = true).
    { unfold abort_at. apply andb_true_intro. split.
      - destruct Hcond as [-> | ->]; cbn; [reflexivity | apply orb_true_r].
      - apply Nat.ltb_lt. exact Hi. }
    assert (Hki : (k <= i)%nat).
    { destruct (Nat.le_gt_cases k i) as [Hle' | Hgt]; [exact Hle'|].
      destruct (Hfail i) as [_ Hno]; [lia|]. congruence. }
    split; [exact Hki|].
    intros ->. destruct sent; [|reflexivity].
    destruct (Hsent eq_refl) as [_ Hno]. congruence.
Qed.

(* ------------------------------------------------------------------ *)
(** ** The connect loop *)

Lemma backoff_le_30 (n : Z) : MQ.backoff n <= 30.
Proof. unfold MQ.backoff. apply Z.le_min_r. Qed.

Lemma backoff_capped (n : Z) : 15 <= n -> MQ.backoff n = 30.
Proof. unfold MQ.backoff. intros H. apply Z.min_r. lia. Qed.

Lemma backoff_below_cap (n : Z) : n <= 15 -> MQ.backoff n = n * 2.
Proof. unfold MQ.backoff. intros H. apply Z.min_l. lia. Qed.

Lemma sleeps_retried (url : string) (k : nat) :
  forall n : nat,
    sleeps (retried url (Z.of_nat n) k)
    = map (fun j => Z.min (Z.of_nat j * 2) 30) (seq n k).
Proof.
  induction k as [|k IH]; intros n; [reflexivity|].
  cbn [retried seq map]. unfold sleeps in *. cbn [flat_map app].
  unfold MQ.backoff at 1. f_equal.
  replace (Z.of_nat n + 1) with (Z.of_nat (S n)) by lia. apply IH.
Qed.

Lemma sleeps_connect_ending (url : string) (running at_bound : bool)
      (o : MQ.connect_obs) :
  sleeps (ce_tail (connect_ending url running at_bound o)) = [].
Proof. unfold connect_ending. destruct running, at_bound, o; reflexivity. Qed.

(** After a failure that is retried, the flag the next turns read is the one
    the world carries on. *)
Lemma running_at_shift (w w' : World) (env : nat -> MQ.connect_obs)
      (i : nat) (still : bool) (n : nat) :
  env i = MQ.ConnAMQPError still ->
  mq_running (mq w') = still ->
  running_at w' env (S i) n = running_at w env i (S n).
Proof.
  intros Henv Hrun. destruct n as [|n]; cbn [running_at].
  - rewrite Nat.add_0_r, Henv. exact Hrun.
  - rewrite <- plus_n_Sm. reflexivity.
Qed.

(** Every run of the loop, from any attempt count, under any bound: the
    turns before [k] are failures that are retried, each met by a running
    handler; turn [k] is not, and ends the run. *)
Lemma connect_loop_exact (env : nat -> MQ.connect_obs) (fuel : nat) :
  forall (attempts : Z) (i : nat) (w : World),
  exists k : nat,
    (k <= fuel)%nat
    /\ (forall n, (n < k)%nat ->
          running_at w env i n = true
          /\ retried_failure env (max_retries (mq w)) (i + n)
                             (attempts + Z.of_nat n + 1) = true)
    /\ (running_at w env i k = false \/ k = fuel
        \/ retried_failure env (max_retries (mq w)) (i + k)
                           (attempts + Z.of_nat k + 1) = false)
    /\ events (fst (MQ.connect_loop fuel env attempts i w))
       = events w ++ retried (mq_url (mq w)) (attempts + 1) k
           ++ ce_tail (connect_ending (mq_url (mq w)) (running_at w env i k)
                                      (k =? fuel)%nat (env (i + k)%nat))
    /\ snd (MQ.connect_loop fuel env attempts i w)
       = ce_progress (connect_ending (mq_url (mq w)) (running_at w env i k)
                                     (k =? fuel)%nat (env (i + k)%nat))
    /\ mq_running (mq (fst (MQ.connect_loop fuel env attempts i w)))
       = ce_running (connect_ending (mq_url (mq w)) (running_at w env i k)
                                    (k =? fuel)%nat (env (i + k)%nat)).
Proof.
  induction fuel as [|fuel IH]; intros attempts i w.
  - exists O. cbn [MQ.connect_loop running_at retried app Nat.eqb].
    split; [lia|]. split; [intros n Hn; lia|].
    split; [right; left; reflexivity|].
    unfold connect_ending.
    destruct (mq_running (mq w)) eqn:Hrun; cbn; rewrite app_nil_r;
      repeat split; assumption.
  - cbn [MQ.connect_loop]. destruct (mq_running (mq w)) eqn:Hrun.
    2:{ exists O. cbn [running_at retried app]. rewrite Hrun.
        split; [lia|]. split; [intros n Hn; lia|].
        split; [left; reflexivity|].
        cbn. rewrite app_nil_r. repeat split. exact Hrun. }
    destruct (env i) as [ | still | ] eqn:Henv.
    + exists O. cbn [running_at retried app Nat.eqb].
      rewrite Hrun, Nat.add_0_r, Henv.
      split; [lia|]. split; [intros n Hn; lia|].
      split; [right; right; unfold retried_failure; rewrite Henv; reflexivity|].
      cbn. repeat split. exact Hrun.
    + cbn [emit with_metrics mq max_retries events].
      destruct (negb (max_retries (mq w) =? 0)
                && (attempts + 1 >? max_retries (mq w))) eqn:Hgive.
      * exists O. cbn [running_at retried app Nat.eqb].
        rewrite Hrun, Nat.add_0_r, Henv.
        split; [lia|]. split; [intros n Hn; lia|].
        split.
        { right; right. unfold retried_failure. rewrite Henv.
          apply andb_prop in Hgive. destruct Hgive as [Hne Hgt].
          apply negb_true_iff in Hne. rewrite Hne. cbn [orb].
          apply Z.gtb_lt in Hgt. apply Z.leb_gt. cbn [Z.of_nat]. lia. }
        cbn. repeat split.
      * match goal with
        | |- context [MQ.connect_loop fuel env ?a ?j ?w'] =>
            set (wn := w');
            destruct (IH a j wn)
              as (k & Hk & Hbefore & Hstop & Hev & Hprog & Hfin)
        end.
        assert (Hmx : max_retries (mq wn) = max_retries (mq w)) by reflexivity.
        assert (Hurl : mq_url (mq wn) = mq_url (mq w)) by reflexivity.
        assert (Hevn : events wn
                       = events w ++ [EvConnect (mq_url (mq w)) false;
                                      EvSleep (MQ.backoff (attempts + 1))]).
        { subst wn. cbn. rewrite <- app_assoc. reflexivity. }
        assert (Hshift : forall n, running_at wn env (S i) n
                                   = running_at w env i (S n)).
        { intros n. apply (running_at_shift w wn env i still n Henv).
          reflexivity. }
        rewrite Hmx in Hbefore, Hstop. rewrite Hurl, Hshift in Hev, Hprog, Hfin.
        rewrite Hevn in Hev.
        assert (Hidx : forall n, (S i + n = i + S n)%nat) by (intros; lia).
        assert (Hnum : forall n, attempts + 1 + Z.of_nat n + 1
                                 = attempts + Z.of_nat (S n) + 1)
          by (intros; lia).
        exists (S k).
        split; [lia|]. split; [|split; [|split; [|split]]].
        -- intros n Hn. destruct n as [|n].
           ++ cbn [running_at]. split; [exact Hrun|].
              unfold retried_failure. rewrite Nat.add_0_r, Henv.
              apply andb_false_iff in Hgive. destruct Hgive as [Hz | Hle].
              ** apply negb_false_iff in Hz. rewrite Hz. reflexivity.
              ** apply orb_true_iff. right. apply Z.leb_le.
                 destruct (Z.gtb_spec (attempts + 1) (max_retries (mq w)));
                   [discriminate | cbn [Z.of_nat]; lia].
           ++ destruct (Hbefore n) as [H1 H2]; [lia|].
              rewrite Hshift in H1. rewrite Hidx, Hnum in H2.
              split; assumption.
        -- rewrite Hshift, Hidx, Hnum in Hstop.
           destruct Hstop as [H | [H | H]];
             [left; exact H | right; left; lia | right; right; exact H].
        -- rewrite Hev, Hidx. cbn [retried Nat.eqb].
           rewrite <- !app_assoc. reflexivity.
        -- rewrite Hprog, Hidx. reflexivity.
        -- rewrite Hfin, Hidx. reflexivity.
    + exists O. cbn [running_at retried app Nat.eqb].
      rewrite Hrun, Nat.add_0_r, Henv.
      split; [lia|]. split; [intros n Hn; lia|].
      split; [right; right; unfold retried_failure; rewrite Henv; reflexivity|].
      cbn. rewrite app_nil_r. repeat split.
Qed.

(** C5.  What [create_connection] does, whatever the connect outcomes and
    however long it is followed.  There is a number [k] of turns such that
    each attempt [n = 1 .. k] failed within the retry limit and was followed
    by a sleep of [min (n * 2) 30] seconds before attempt [n + 1]; turn [k] is
    the first that is not such a failure (the handler was stopped, the
    connect succeeded or was interrupted, the limit was exceeded, or the
    bound on the turns was reached) and it decides how the run ends.  The
    sleeps are exactly [min (n * 2) 30] for [n = 1 .. k], none longer than 30
    seconds. *)
Theorem create_connection_backoff
        (fuel : nat) (env : nat -> MQ.connect_obs) (w : World) :
  exists k : nat,
    let url := mq_url (mq w) in
    let mx := max_retries (mq w) in
    let r := MQ.create_connection fuel env w in
    let e := connect_ending url (running_at w env 0 k) (k =? fuel)%nat (env k) in
    (k <= fuel)%nat
    /\ (forall n, (n < k)%nat ->
          running_at w env 0 n = true
          /\ retried_failure env mx n (Z.of_nat n + 1) = true)
    /\ (running_at w env 0 k = false \/ k = fuel
        \/ retried_failure env mx k (Z.of_nat k + 1) = false)
    /\ events (fst r) = events w ++ retried url 1 k ++ ce_tail e
    /\ snd r = ce_progress e
    /\ mq_running (mq (fst r)) = ce_running e
    /\ sleeps (retried url 1 k ++ ce_tail e)
       = map (fun n => Z.min (Z.of_nat n * 2) 30) (seq 1 k)
    /\ Forall (fun s => s <= 30) (sleeps (retried url 1 k ++ ce_tail e)).
Proof.
  destruct (connect_loop_exact env fuel 0 0 w)
    as (k & Hk & Hbefore & Hstop & Hev & Hprog & Hfin).
  exists k. cbn zeta. cbn [Nat.add Z.add] in *.
  assert (Hsl : sleeps (retried (mq_url (mq w)) 1 k
                        ++ ce_tail (connect_ending (mq_url (mq w))
                                      (running_at w env 0 k)
                                      (k =? fuel)%nat (env k)))
                = map (fun n => Z.min (Z.of_nat n * 2) 30) (seq 1 k)).
  { rewrite sleeps_app, sleeps_connect_ending, app_nil_r.
    apply (sleeps_retried (mq_url (mq w)) k 1). }
  split; [exact Hk|]. split; [exact Hbefore|]. split; [exact Hstop|].
  split; [exact Hev|]. split; [exact Hprog|]. split; [exact Hfin|].
  split; [exact Hsl|].
  rewrite Hsl. apply Forall_forall. intros s Hin.
  apply in_map_iff in Hin. destruct Hin as (n & <- & _). apply Z.le_min_r.
Qed.

(** Two refused connects, then a connection: sleeps of 2 and 4 seconds, and
    the third attempt ends the run. *)
Example create_connection_third_time :
  let r := MQ.create_connection 10 env_third_time (connecting_world 5) in
  events (fst r)
  = retried (mq_url (mq (connecting_world 5))) 1 2
    ++ [EvConnect (mq_url (mq (connecting_world 5))) true]
  /\ sleeps (events (fst r)) = [2; 4]
  /\ snd r = Finished
  /\ connection (mq (fst r)) = true.
Proof. vm_compute. repeat split. Qed.

(** With [max_retries] set, the loop is left after at most [max_retries + 1]
    turns. *)
Lemma connect_loop_finishes (env : nat -> MQ.connect_obs) (fuel : nat) :
  forall (attempts : Z) (i : nat) (w : World),
    max_retries (mq w) <> 0 ->
    (Z.to_nat (max_retries (mq w) - attempts) < fuel)%nat ->
    snd (MQ.connect_loop fuel env attempts i w) = Finished.
Proof.
  induction fuel as [|fuel IH]; intros attempts i w Hmax Hfuel; [lia|].
  cbn [MQ.connect_loop]. destruct (mq_running (mq w)); [|reflexivity].
  destruct (env i) as [ | still | ]; try reflexivity.
  cbn [emit with_metrics mq max_retries events].
  destruct (negb (max_retries (mq w) =? 0)
            && (attempts + 1 >? max_retries (mq w))) eqn:Hgive; [reflexivity|].
  apply IH; cbn; [exact Hmax|].
  apply andb_false_iff in Hgive. destruct Hgive as [Hz | Hle].
  - apply negb_false_iff, Z.eqb_eq in Hz. contradiction.
  - assert (attempts + 1 <= max_retries (mq w))
      by (destruct (Z.gtb_spec (attempts + 1) (max_retries (mq w))); [discriminate | lia]).
    lia.
Qed.

(** The unreachable broker with the default [max_retries = 5]: five
    backoffs of 2, 4, 6, 8 and 10 seconds, the sixth failure ends the loop
    and clears [mq_running]. *)
Example unreachable_broker_backoffs :
  let r := MQ.create_connection 7 env_unreachable (connecting_world 5) in
  sleeps (events (fst r)) = [2; 4; 6; 8; 10]
  /\ mq_running (mq (fst r)) = false
  /\ snd r = Finished.
Proof. vm_compute. repeat split. Qed.

(** With no retry limit ([max_retries = 0]) the sleeps reach the cap at the
    fifteenth failure and stay there. *)
Example unlimited_retries_reach_cap :
  sleeps (events (fst (MQ.create_connection 17 env_unreachable (connecting_world 0))))
  = [2; 4; 6; 8; 10; 12; 14; 16; 18; 20; 22; 24; 26; 28; 30; 30; 30].
Proof. vm_compute. reflexivity. Qed.

(* ------------------------------------------------------------------ *)
(** ** The published message *)

Lemma to_int_not_nil (z : Z) :
  Z.to_int z <> Decimal.Pos Decimal.Nil /\ Z.to_int z <> Decimal.Neg Decimal.Nil.
Proof.
  destruct z as [|p|p]; cbn; split; try discriminate;
    intros H; injection H as H; exact (Unsigned.to_uint_nonnil p H).
Qed.

Lemma str_int_inj (a b : Z) : str_int a = str_int b -> a = b.
Proof.
  unfold str_int. intros H.
  apply (f_equal NilZero.int_of_string) in H.
  destruct (to_int_not_nil a) as [Ha1 Ha2].
  destruct (to_int_not_nil b) as [Hb1 Hb2].
  rewrite !NilZero.isi in H by assumption.
  injection H as H. now apply DecimalZ.to_int_inj.
Qed.

(** Every message [send_message] builds carries these two properties. *)
Lemma build_properties_spec (h : MQHandler) :
  MQ.build_properties h
  = [("content_type", "text/plain"); ("expiration", str_int (ttl_from_ws h))]%string.
Proof. reflexivity. Qed.

(** Unless the TTL is zero, the expiration is not the TTL in milliseconds. *)
Lemma expiration_not_milliseconds (h : MQHandler) :
  ttl_from_ws h <> 0 ->
  MQ.build_properties h
  <> [("content_type", "text/plain");
      ("expiration", str_int (ttl_from_ws h * 1000))]%string.
Proof.
  intros Hnz H. rewrite build_properties_spec in H.
  injection H as H. apply str_int_inj in H. lia.
Qed.

(** C3, at the default TTL of 300 seconds: the message published for a frame
    has content type [text/plain] and expiration ["300"], the TTL itself as a
    decimal string, where the TTL in milliseconds would read ["300000"]. *)
Theorem publish_expiration_is_ttl_unscaled :
  MQ.send_message_from_ws env_publish_ok "frame"%string consuming_world
  = (with_events
       [EvDeclare "from_ws" true;
        EvPublish "from_ws"
                  (mkMessage "frame"
                             [("content_type", "text/plain");
                              ("expiration", "300")]%string)
                  true]
       consuming_world,
     Returned (PyBool true))
  /\ ttl_from_ws (mq consuming_world) = 300
  /\ str_int (ttl_from_ws (mq consuming_world) * 1000) = "300000"%string.
Proof. vm_compute. repeat split. Qed.

(** C6 as worded fails at the first try: on a handler that [close] has
    stopped, the publish is still tried, goes through, and the result is
    [True]. *)
Lemma publish_not_aborted_on_first_try :
  ~ aborts_whenever_not_running env_stopped_publish_ok EmptyString "from_ws"
      "frame" closed_world.
Proof.
  intros H. specialize (H O).
  assert (Hres : snd (MQ.send_message env_stopped_publish_ok EmptyString
                        "from_ws" "frame" closed_world)
                 = Returned (PyBool true)) by (vm_compute; reflexivity).
  rewrite Hres in H.
  assert (Hf : Returned (PyBool true) = Returned (PyBool false)).
  { apply H; [vm_compute; reflexivity | intros j Hj; lia | reflexivity]. }
  discriminate Hf.
Qed.

Example publish_on_closed_handler :
  mq_running (mq closed_world) = false
  /\ MQ.send_message env_stopped_publish_ok EmptyString "from_ws" "frame"
                     closed_world
     = (with_events
          [EvDeclare "from_ws" true;
           EvPublish "from_ws"
                     (mkMessage "frame" (MQ.build_properties (mq closed_world)))
                     true]
          closed_world,
        Returned (PyBool true)).
Proof. vm_compute. split; reflexivity. Qed.

(** Two failed tries, then the handler is seen stopped: two tries, two
    sleeps, result [False]. *)
Lemma send_message_retry_contract_witness :
  channel (mq consuming_world) = Some a_channel /\
  exists (k : nat) (sent : bool),
    let m := mkMessage "frame" (MQ.build_properties (mq consuming_world)) in
    let tries := failed_tries "from_ws" m k
                 ++ (if sent then [EvPublish "from_ws" m true] else []) in
    MQ.send_message env_fail_then_stopped EmptyString "from_ws" "frame"
                    consuming_world
    = (with_events (events consuming_world ++ [EvDeclare "from_ws" true] ++ tries)
                   consuming_world,
       Returned (PyBool sent))
    /\ (sent = false ->
        Z.of_nat k = Z.max 0 (max_retries (mq consuming_world))
        \/ abort_at env_fail_then_stopped k = true).
Proof.
  split; [reflexivity|].
  destruct (send_message_retry_contract env_fail_then_stopped EmptyString
              "from_ws" "frame" consuming_world a_channel eq_refl)
    as (k & sent & H1 & _ & _ & _ & _ & _ & _ & H8 & _).
  exists k, sent. split; [exact H1 | exact H8].
Defined.

Example send_message_two_failures :
  MQ.send_message env_fail_then_stopped EmptyString "from_ws" "frame"
                  consuming_world
  = (with_events
       (let m := mkMessage "frame" (MQ.build_properties (mq consuming_world)) in
        [EvDeclare "from_ws" true;
         EvPublish "from_ws" m false; EvSleep 1;
         EvPublish "from_ws" m false; EvSleep 1])
       consuming_world,
     Returned (PyBool false)).
Proof. vm_compute. reflexivity. Qed.

(* ------------------------------------------------------------------ *)
(** ** The counters *)

(** The frame counters only ever step up: a frame sent to the socket. *)
Lemma send_ws_message_counters (ok : bool) (msg : string) (w : World) :
  counters_le_opt (metrics w) (metrics (fst (WS.send_ws_message ok msg w))).
Proof.
  unfold WS.send_ws_message.
  destruct (ws_connected (ws w) && ws_running (ws w)).
  - destruct ok; cbn.
    + destruct (metrics w) as [mh|]; cbn; [|exact I].
      destruct (metrics_enabled mh); cbn; unfold counters_le; cbn; lia.
    + destruct (metrics w) as [mh|]; cbn; [unfold counters_le; lia | exact I].
  - destruct (ws_running (ws w)); cbn;
      (destruct (metrics w) as [mh|]; cbn; [unfold counters_le; lia | exact I]).
Qed.

(** C7, where the code departs from it.  The two attempt counters are
    assigned the attempt number of the loop in progress.  A second
    [create_connection] (the reconnect after a broker error) starts again at
    attempt 1 and takes [count_mq_connection_attempts] from 3 down to 1; in
    [run_ws_server], a session that outlives the attempt window resets the
    attempt number, and the next attempt takes
    [count_ws_connection_attempts] from 3 down to 1. *)
Theorem attempt_counters_are_lowered :
  (let w1 := fst (MQ.create_connection 10 env_third_time (connecting_world 5)) in
   let w2 := fst (MQ.create_connection 10 env_first_time w1) in
   option_map count_mq_connection_attempts (metrics w1) = Some 3
   /\ mq_running (mq w1) = true
   /\ option_map count_mq_connection_attempts (metrics w2) = Some 1
   /\ ~ counters_le_opt (metrics w1) (metrics w2))
  /\
  (forall (hmac_sha256 : list N -> list N -> list N)
          (set_order : list JWT.item -> list JWT.item),
     let run fuel :=
       fst (WS.run_ws_server hmac_sha256 set_order None env_sessions fuel
              (mkWorld (mq_consuming 300) ws_setup metrics_on [])) in
     option_map count_ws_connection_attempts (metrics (run 3%nat)) = Some 3
     /\ option_map count_ws_connection_attempts (metrics (run 4%nat)) = Some 1
     /\ ~ counters_le_opt (metrics (run 3%nat)) (metrics (run 4%nat))).
Proof.
  split.
  - vm_compute. repeat split; try reflexivity.
    intros (_ & _ & H & _). apply H. reflexivity.
  - intros hmac_sha256 set_order run. subst run.
    assert (H3 : option_map count_ws_connection_attempts
                   (metrics (fst (WS.run_ws_server hmac_sha256 set_order None
                      env_sessions 3
                      (mkWorld (mq_consuming 300) ws_setup metrics_on []))))
                 = Some 3) by (vm_compute; reflexivity).
    assert (H4 : option_map count_ws_connection_attempts
                   (metrics (fst (WS.run_ws_server hmac_sha256 set_order None
                      env_sessions 4
                      (mkWorld (mq_consuming 300) ws_setup metrics_on []))))
                 = Some 1) by (vm_compute; reflexivity).
    split; [exact H3|]. split; [exact H4|].
    intros Hle.
    destruct (metrics (fst (WS.run_ws_server hmac_sha256 set_order None
                env_sessions 3 _))) as [m3|]; [|discriminate H3].
    destruct (metrics (fst (WS.run_ws_server hmac_sha256 set_order None
                env_sessions 4 _))) as [m4|]; [|discriminate H4].
    cbn in H3, H4, Hle. injection H3 as H3. injection H4 as H4.
    destruct Hle as (_ & _ & _ & Hle). lia.
Qed.

(* ------------------------------------------------------------------ *)
(** ** The failed flag and the startup poll *)

(** [on_close] without code and message records a reason string. *)
Lemma on_close_sets_reason (w : World) :
  ws_failed (ws (WS.on_close PyNone PyNone w))
  = PyStr "websocket appears to have failed to connect (unidentified by library)".
Proof. reflexivity. Qed.

Lemma on_close_reason_or_none (code msg : pyval) (w : World) :
  reason_or_none (ws_failed (ws w)) ->
  reason_or_none (ws_failed (ws (WS.on_close code msg w))).
Proof.
  intros H. unfold WS.on_close.
  destruct (is_None code && is_None msg); cbn; [exact I | exact H].
Qed.

(** Leaving the connect loop with the budget used up records a reason
    string. *)
Lemma budget_exhaustion_sets_reason
      (hmac_sha256 : list N -> list N -> list N)
      (set_order : list JWT.item -> list JWT.item)
      (handler : option callback) (env : nat -> WS.attempt_obs)
      (fuel : nat) (attempt : Z) (i : nat) (w : World) :
  ws_max_connect_attempts (ws w) <= attempt ->
  WS.ws_loop hmac_sha256 set_order handler env fuel attempt i w
  = (with_ws (WS.set_ws_failed (PyStr WS.budget_exceeded) (ws w)) w,
     WS.WsReturned).
Proof.
  intros Hle.
  assert (H1 : (attempt <? ws_max_connect_attempts (ws w)) = false)
    by (apply Z.ltb_ge; exact Hle).
  assert (H2 : (attempt >=? ws_max_connect_attempts (ws w)) = true)
    by (apply Z.geb_le; exact Hle).
  destruct fuel; cbn [WS.ws_loop]; rewrite H1, H2; reflexivity.
Qed.

(** Whatever the WebSocket handler goes through, [ws_failed] stays [None]
    or a string. *)
Section FailedFlag.

Variable hmac_sha256 : list N -> list N -> list N.
Variable set_order : list JWT.item -> list JWT.item.
Variable handler : option callback.
Variable env : nat -> WS.attempt_obs.

Hypothesis handler_keeps_ws :
  forall h, handler = Some h -> forall m w, ws (fst (h m w)) = ws w.

Lemma dispatch_reason_or_none (e : WS.session_event) (w : World) :
  reason_or_none (ws_failed (ws w)) ->
  reason_or_none (ws_failed (ws (WS.dispatch handler e w))).
Proof.
  intros H. destruct e as [ | m | code msg | | ]; cbn [WS.dispatch].
  - exact H.
  - unfold WS.on_message. destruct handler as [h|] eqn:Hh; [|exact H].
    match goal with
    | |- context [h m ?w0] =>
        pose proof (handler_keeps_ws h eq_refl m w0) as Hws;
        destruct (h m w0) as [w2 [v | e]]
    end; cbn in Hws |- *; rewrite Hws; exact H.
  - apply on_close_reason_or_none. exact H.
  - exact H.
  - unfold WS.close. cbn. destruct (ws_handle (ws w)); exact H.
Qed.

Lemma run_session_reason_or_none (es : list WS.session_event) :
  forall w, reason_or_none (ws_failed (ws w)) ->
            reason_or_none (ws_failed (ws (WS.run_session handler es w))).
Proof.
  unfold WS.run_session.
  induction es as [|e es IH]; intros w H; [exact H|].
  cbn [fold_left]. apply IH. apply dispatch_reason_or_none. exact H.
Qed.

Lemma ws_loop_reason_or_none (fuel : nat) :
  forall (attempt : Z) (i : nat) (w : World),
    reason_or_none (ws_failed (ws w)) ->
    reason_or_none
      (ws_failed (ws (fst (WS.ws_loop hmac_sha256 set_order handler env
                                      fuel attempt i w)))).
Proof.
  induction fuel as [|fuel IH]; intros attempt i w H; cbn [WS.ws_loop].
  - destruct (attempt <? ws_max_connect_attempts (ws w)); [exact H|].
    destruct (attempt >=? ws_max_connect_attempts (ws w)); [exact I | exact H].
  - destruct (attempt <? ws_max_connect_attempts (ws w)).
    2:{ destruct (attempt >=? ws_max_connect_attempts (ws w)); [exact I | exact H]. }
    destruct (ws_running (ws w)); cbn [negb]; [|exact H].
    destruct (JWT.generate_websocket_url _ _ _ _ _ _ _ _ _ _ _ _) as [uri | e].
    + match goal with
      | |- context [WS.run_session handler ?es ?w0] =>
          assert (H3 : reason_or_none
                         (ws_failed (ws (WS.run_session handler es w0))))
            by (apply run_session_reason_or_none; exact H)
      end.
      destruct (WS.ao_end (env i)) as [teardown | | e].
      * apply IH. exact H3.
      * apply IH. unfold WS.close. cbn.
        match goal with
        | |- context [if ?b then _ else _] => destruct b
        end; exact H3.
      * exact H3.
    + apply IH. exact H.
Qed.

Lemma run_ws_server_reason_or_none (fuel : nat) (w : World) :
  reason_or_none (ws_failed (ws w)) ->
  reason_or_none
    (ws_failed (ws (fst (WS.run_ws_server hmac_sha256 set_order handler env
                                          fuel w)))).
Proof.
  intros H. unfold WS.run_ws_server. apply ws_loop_reason_or_none. exact H.
Qed.

End FailedFlag.

(** A flag that is [None] or a string is never [True] to the poll. *)
Lemma poll_loop_reason (obs : nat -> World) (n : nat) :
  forall (i : nat) (r : Bridge.poll_result),
    (forall j, reason_or_none (ws_failed (ws (obs j)))) ->
    Bridge.successful_start (Bridge.poll_loop n i obs r)
    = Bridge.successful_start r
    /\ Bridge.bridge (Bridge.poll_loop n i obs r) = Bridge.bridge r.
Proof.
  induction n as [|n IH]; intros i r Hobs; [split; reflexivity|].
  cbn [Bridge.poll_loop].
  assert (Hnot : is_True (ws_failed (ws (obs i))) = false).
  { specialize (Hobs i). destruct (ws_failed (ws (obs i))); cbn in *;
      try reflexivity; contradiction. }
  rewrite Hnot.
  destruct (mq_running (mq (obs i)) && ws_running (ws (obs i))
            && ws_connected (ws (obs i))); [split; reflexivity|].
  destruct (IH (S i) (Bridge.mkPoll (Bridge.bridge r)
                                    (Bridge.successful_start r)
                                    (Bridge.slept r ++ [1])) Hobs) as [H1 H2].
  split; [exact H1 | exact H2].
Qed.

(** C2, where the code departs from it.  The poll tests
    [ws_failed is True], while the handler sets the flag to a reason string.
    So with the flag [None] or any string at every turn, the poll neither
    trips the shutdown nor records a non-zero exit code. *)
Theorem startup_poll_ignores_failed_reason
        (obs : nat -> World) (bb : Bridge.Mq2WsBridge) :
  (forall i, reason_or_none (ws_failed (ws (obs i)))) ->
  Bridge.successful_start (Bridge.startup_poll obs bb) = 0
  /\ Bridge.bridge (Bridge.startup_poll obs bb) = bb.
Proof.
  intros Hobs. unfold Bridge.startup_poll.
  apply (poll_loop_reason obs 60 0 (Bridge.mkPoll bb 0 []) Hobs).
Qed.

(** The flag holds the reason set by [on_close] from the first turn on: the
    bridge is still marked running and the exit code is 0. *)
Lemma startup_poll_ignores_failed_reason_witness :
  (forall i, reason_or_none (ws_failed (ws (obs_ws_failed i))))
  /\ Bridge.successful_start (Bridge.startup_poll obs_ws_failed a_bridge) = 0
  /\ Bridge.bridge (Bridge.startup_poll obs_ws_failed a_bridge) = a_bridge.
Proof.
  split; [intros i; exact I|].
  apply (startup_poll_ignores_failed_reason obs_ws_failed a_bridge).
  intros i. exact I.
Defined.

Example startup_poll_after_on_close :
  ws_failed (ws ws_failed_world)
  = PyStr "websocket appears to have failed to connect (unidentified by library)"
  /\ Bridge.startup_poll obs_ws_failed a_bridge
     = Bridge.mkPoll a_bridge 0 (repeat 1 60).
Proof. vm_compute. split; reflexivity. Qed.

(** Had the flag been the boolean [True], the poll would have tripped. *)
Example startup_poll_trips_on_True :
  Bridge.startup_poll
    (fun _ => with_ws (WS.set_ws_failed (PyBool true) (ws ws_failed_world))
                      ws_failed_world)
    a_bridge
  = Bridge.mkPoll (Bridge.trip a_bridge) 1 [].
Proof. reflexivity. Qed.

(* ------------------------------------------------------------------ *)
(** ** The stub loopback *)

Lemma delivered_failed_tries (rk : string) (msg : Message) (k : nat) :
  delivered (failed_tries rk msg k) = [].
Proof.
  induction k as [|k IH]; [reflexivity|].
  cbn [failed_tries]. unfold delivered in *. cbn [flat_map app]. exact IH.
Qed.

(** What [send_message_from_ws] leaves behind on a handler with a channel:
    it returns, and touches neither handler nor the record of the frames
    delivered. *)
Lemma send_message_from_ws_returns
      (env : nat -> MQ.pub_obs) (msg : string) (w : World) (ch : Channel) :
  channel (mq w) = Some ch ->
  exists sent : bool,
    snd (MQ.send_message_from_ws env msg w) = Returned (PyBool sent)
    /\ mq (fst (MQ.send_message_from_ws env msg w)) = mq w
    /\ ws (fst (MQ.send_message_from_ws env msg w)) = ws w
    /\ delivered (events (fst (MQ.send_message_from_ws env msg w)))
       = delivered (events w).
Proof.
  intros Hch. unfold MQ.send_message_from_ws, MQ.send_message. rewrite Hch.
  destruct (publish_loop_spec env (mq w) (mq_qname_from_ws (mq w))
              (mkMessage msg (MQ.build_properties (mq w)))
              (Z.to_nat (max_retries (mq w))) 0
              (events (emit (EvDeclare (mq_qname_from_ws (mq w)) true) w)))
    as (k & sent & Heq & _).
  { destruct (Z.le_gt_cases 0 (max_retries (mq w))); [left | right]; lia. }
  rewrite Heq. exists sent. cbn [fst snd with_events mq ws events emit].
  split; [reflexivity|]. split; [reflexivity|]. split; [reflexivity|].
  rewrite !delivered_app, delivered_failed_tries.
  destruct sent; cbn; now rewrite !app_nil_r.
Qed.

(** The stub send on a running, connected stub, whatever handler is wired:
    the handler is called once, on the frame, after both counters are
    stepped; what it leaves is what the send leaves, and the send returns
    [True] when the handler returns. *)
Lemma stub_send_calls_handler (h : callback) (m : string) (w : World) :
  ws_connected (ws w) = true -> ws_running (ws w) = true ->
  WS.send_ws_message_stub (Some h) m w
  = (fst (h m (stub_counted w)),
     match snd (h m (stub_counted w)) with
     | Returned _ => Returned (PyBool true)
     | Raised e => Raised e
     end).
Proof.
  intros Hc Hr. unfold WS.send_ws_message_stub. rewrite Hc, Hr.
  cbn [andb]. change (WS.STUB_SEND_DELAY >? 0) with false. cbn iota.
  fold (stub_counted w).
  destruct (h m (stub_counted w)) as [w3 [v | e]]; reflexivity.
Qed.

(** One call of the stub send as the bridge wires it. *)
Lemma stub_echo_once (envs : nat -> nat -> MQ.pub_obs) (i : nat) (m : string)
      (w : World) (ch : Channel) :
  channel (mq w) = Some ch ->
  ws_connected (ws w) = true -> ws_running (ws w) = true ->
  snd (stub_echo envs i m w) = Returned (PyBool true)
  /\ delivered (events (fst (stub_echo envs i m w))) = delivered (events w) ++ [m]
  /\ ws (fst (stub_echo envs i m w)) = ws w
  /\ mq (fst (stub_echo envs i m w)) = mq w.
Proof.
  intros Hch Hc Hr. unfold stub_echo.
  rewrite (stub_send_calls_handler _ m w Hc Hr). unfold logged.
  destruct (send_message_from_ws_returns (envs i) m
              (emit (EvDelivered m) (stub_counted w)) ch Hch)
    as (sent & Hret & Hmq & Hws & Hdel).
  cbn [fst snd]. rewrite Hret, Hmq, Hws, Hdel.
  cbn [emit events mq ws stub_counted with_metrics].
  rewrite delivered_app. repeat split.
Qed.

Lemma stub_echo_all (envs : nat -> nat -> MQ.pub_obs) (ch : Channel)
      (frames : list string) :
  forall (i : nat) (w : World),
    channel (mq w) = Some ch ->
    ws_connected (ws w) = true -> ws_running (ws w) = true ->
    snd (send_seq (stub_echo envs) i frames w)
    = map (fun _ => Returned (PyBool true)) frames
    /\ delivered (events (fst (send_seq (stub_echo envs) i frames w)))
       = delivered (events w) ++ frames
    /\ ws (fst (send_seq (stub_echo envs) i frames w)) = ws w
    /\ mq (fst (send_seq (stub_echo envs) i frames w)) = mq w.
Proof.
  induction frames as [|m rest IH]; intros i w Hch Hc Hr.
  - cbn. rewrite app_nil_r. repeat split.
  - cbn [send_seq map].
    destruct (stub_echo_once envs i m w ch Hch Hc Hr) as (H1 & H2 & H3 & H4).
    destruct (stub_echo envs i m w) as [w1 r1].
    cbn [fst snd] in H1, H2, H3, H4. subst r1.
    destruct (IH (S i) w1) as (I1 & I2 & I3 & I4);
      [rewrite H4; exact Hch | rewrite H3; exact Hc | rewrite H3; exact Hr |].
    destruct (send_seq (stub_echo envs) (S i) rest w1) as [w2 rs].
    cbn [fst snd] in I1, I2, I3, I4 |- *.
    split; [now rewrite I1|]. split; [|split].
    + rewrite I2, H2, <- app_assoc. reflexivity.
    + rewrite I3. exact H3.
    + rewrite I4. exact H4.
Qed.

(** C9.  On a stub that is running and connected (the module's
    [STUB_SEND_DELAY] being 0), a call of the stub send is one call of the
    handler on the frame, made before the send returns, and the send returns
    [True] when the handler returns; this holds of any handler.  With the
    handler the bridge wires, [send_message_from_ws], on a broker handler
    with a channel (the stub send is only reached through the consume
    callback, past its channel test): whatever the publish loops observe,
    every call returns [True], the frames handed to the handler are exactly
    the frames sent, each once and in the order of the calls, and the stub is
    still running and connected afterwards. *)
Theorem stub_loopback
        (envs : nat -> nat -> MQ.pub_obs) (frames : list string) (w : World)
        (ch : Channel) :
  channel (mq w) = Some ch ->
  ws_connected (ws w) = true ->
  ws_running (ws w) = true ->
  (forall (h : callback) (m : string),
      WS.send_ws_message_stub (Some h) m w
      = (fst (h m (stub_counted w)),
         match snd (h m (stub_counted w)) with
         | Returned _ => Returned (PyBool true)
         | Raised e => Raised e
         end))
  /\ (let r := send_seq (stub_echo envs) 0 frames w in
      snd r = map (fun _ => Returned (PyBool true)) frames
      /\ delivered (events (fst r)) = delivered (events w) ++ frames
      /\ ws_connected (ws (fst r)) = true
      /\ ws_running (ws (fst r)) = true)
  /\ WS.STUB_SEND_DELAY = 0.
Proof.
  intros Hch Hc Hr. split; [|split; [|reflexivity]].
  - intros h m. exact (stub_send_calls_handler h m w Hc Hr).
  - cbn zeta.
    destruct (stub_echo_all envs ch frames 0 w Hch Hc Hr) as (H1 & H2 & H3 & _).
    split; [exact H1|]. split; [exact H2|].
    rewrite H3. split; assumption.
Qed.

(** Three frames through the stub wired to a broker whose first publish of
    the second frame fails. *)
Lemma stub_loopback_witness :
  (channel (mq consuming_world) = Some a_channel
   /\ ws_connected (ws consuming_world) = true
   /\ ws_running (ws consuming_world) = true)
  /\
  let envs : nat -> nat -> MQ.pub_obs :=
    fun i j => MQ.mkPubObs true true (negb ((i =? 1)%nat && (j =? 0)%nat)) in
  let frames := ["a"; "b"; "a"]%string in
  let r := send_seq (stub_echo envs) 0 frames consuming_world in
  snd r = map (fun _ => Returned (PyBool true)) frames
  /\ delivered (events (fst r)) = delivered (events consuming_world) ++ frames
  /\ ws_connected (ws (fst r)) = true
  /\ ws_running (ws (fst r)) = true.
Proof.
  split; [repeat split|].
  exact (proj1 (proj2 (stub_loopback
                  (fun i j => MQ.mkPubObs true true
                                (negb ((i =? 1)%nat && (j =? 0)%nat)))
                  ["a"; "b"; "a"]%string consuming_world a_channel
                  eq_refl eq_refl eq_refl))).
Defined.

(** The same run, event by event: the second frame is published at the
    second try. *)
Example stub_loopback_three_frames :
  let envs : nat -> nat -> MQ.pub_obs :=
    fun i j => MQ.mkPubObs true true (negb ((i =? 1)%nat && (j =? 0)%nat)) in
  let out b := mkMessage b (MQ.build_properties (mq consuming_world)) in
  events (fst (send_seq (stub_echo envs) 0 ["a"; "b"; "a"]%string
                        consuming_world))
  = [EvDelivered "a"; EvDeclare "from_ws" true;
     EvPublish "from_ws" (out "a"%string) true;
     EvDelivered "b"; EvDeclare "from_ws" true;
     EvPublish "from_ws" (out "b"%string) false; EvSleep 1;
     EvPublish "from_ws" (out "b"%string) true;
     EvDelivered "a"; EvDeclare "from_ws" true;
     EvPublish "from_ws" (out "a"%string) true].
Proof. vm_compute. reflexivity. Qed.

(** The bridge as [setup_wshandler] wires it with the stub: each message
    consumed from the broker goes to the stub, which hands it straight to
    [send_message_from_ws]; it is published, counted in both directions and
    acked. *)
Example stub_roundtrip_two_messages :
  let wired : callback :=
    WS.send_ws_message_stub (Some (MQ.send_message_from_ws env_publish_ok)) in
  let m1 := mkMessage "one" [] in
  let m2 := mkMessage "two" [] in
  let w1 := fst (MQ.__call__ wired m1 consuming_world) in
  let w2 := fst (MQ.__call__ wired m2 w1) in
  let out b := mkMessage b (MQ.build_properties (mq consuming_world)) in
  events w2
  = [EvDeclare "from_ws" true; EvPublish "from_ws" (out "one"%string) true;
     EvAck m1;
     EvDeclare "from_ws" true; EvPublish "from_ws" (out "two"%string) true;
     EvAck m2]
  /\ option_map count_to_ws (metrics w2) = Some 2
  /\ option_map count_from_ws (metrics w2) = Some 2.
Proof. vm_compute. repeat split. Qed.

(* ------------------------------------------------------------------ *)
(** ** Dictionaries built from sets of items *)

Section DictFacts.

Lemma dict_get_set_same (k : string) (v : JWT.jval) (d : JWT.pydict) :
  JWT.dict_get k (JWT.dict_set k v d) = Some v.
Proof.
  induction d as [|[k' v'] d IH]; cbn.
  - now rewrite String.eqb_refl.
  - destruct (String.eqb k k') eqn:E; cbn; rewrite E; [reflexivity | exact IH].
Qed.

Lemma dict_get_set_other (k k' : string) (v : JWT.jval) (d : JWT.pydict) :
  k <> k' -> JWT.dict_get k (JWT.dict_set k' v d) = JWT.dict_get k d.
Proof.
  intros Hne. induction d as [|[k2 v2] d IH]; cbn.
  - apply String.eqb_neq in Hne. now rewrite Hne.
  - destruct (String.eqb k' k2) eqn:E; cbn.
    + apply String.eqb_eq in E. subst k2.
      apply String.eqb_neq in Hne. now rewrite Hne.
    + destruct (String.eqb k k2); [reflexivity | exact IH].
Qed.

Lemma fold_keeps_other (k : string) (l : list JWT.item) :
  forall d, ~ In k (map fst l) ->
            JWT.dict_get k (fold_left JWT.dict_step l d) = JWT.dict_get k d.
Proof.
  induction l as [|[k' v'] l IH]; intros d Hnot; [reflexivity|].
  cbn [fold_left]. rewrite IH.
  - unfold JWT.dict_step. cbn [fst snd]. apply dict_get_set_other.
    intros ->. apply Hnot. now left.
  - intros Hin. apply Hnot. now right.
Qed.

(** With one value per key among the items, the dictionary binds each key
    to that value, in whatever order the items come. *)
Lemma fold_get (k : string) (v : JWT.jval) (l : list JWT.item) :
  forall d, NoDup (map fst l) -> In (k, v) l ->
            JWT.dict_get k (fold_left JWT.dict_step l d) = Some v.
Proof.
  induction l as [|[k' v'] l IH]; intros d Hnd Hin; [destruct Hin|].
  cbn [map fst] in Hnd. apply NoDup_cons_iff in Hnd. destruct Hnd as [Hk' Hnd].
  cbn [fold_left]. destruct Hin as [Heq | Hin].
  - injection Heq as -> ->. rewrite fold_keeps_other by exact Hk'.
    unfold JWT.dict_step. cbn [fst snd]. apply dict_get_set_same.
  - apply IH; assumption.
Qed.

Lemma dict_get_none (k : string) (d : JWT.pydict) :
  ~ In k (JWT.keys d) -> JWT.dict_get k d = None.
Proof.
  induction d as [|[k' v'] d IH]; intros Hnot; [reflexivity|].
  cbn. destruct (String.eqb k k') eqn:E.
  - apply String.eqb_eq in E. subst k'. exfalso. apply Hnot. now left.
  - apply IH. intros Hin. apply Hnot. now right.
Qed.

Lemma dict_get_In (k : string) (v : JWT.jval) (d : JWT.pydict) :
  JWT.dict_get k d = Some v -> In (k, v) d.
Proof.
  induction d as [|[k' v'] d IH]; cbn; [discriminate|].
  destruct (String.eqb k k') eqn:E.
  - apply String.eqb_eq in E. subst k'. intros H. injection H as ->. now left.
  - intros H. right. now apply IH.
Qed.

Lemma keys_dict_set (k k0 : string) (v : JWT.jval) (d : JWT.pydict) :
  In k (JWT.keys (JWT.dict_set k0 v d)) <-> k = k0 \/ In k (JWT.keys d).
Proof.
  induction d as [|[k' v'] d IH]; cbn.
  - intuition.
  - destruct (String.eqb k0 k') eqn:E; cbn.
    + apply String.eqb_eq in E. subst k'. intuition.
    + rewrite IH. intuition.
Qed.


Lemma keys_fold (k : string) (l : list JWT.item) :
  forall d, In k (JWT.keys (fold_left JWT.dict_step l d))
            <-> In k (JWT.keys d) \/ In k (map fst l).
Proof.
  induction l as [|[k' v'] l IH]; intros d; cbn [fold_left map fst].
  - cbn. intuition.
  - rewrite IH. unfold JWT.dict_step. cbn [fst snd]. rewrite keys_dict_set.
    cbn. intuition.
Qed.


Variable o : list JWT.item -> list JWT.item.
Hypothesis o_order : is_set_order o.

(** Merging two dictionaries that share no key: every binding of either
    survives, whatever the iteration order of the set. *)
Lemma merge_get (a b : JWT.pydict) (k : string) (v : JWT.jval) :
  NoDup (JWT.keys (a ++ b)) -> In (k, v) (a ++ b) ->
  JWT.dict_get k (JWT.merge o a b) = Some v.
Proof.
  intros Hnd Hin. unfold JWT.merge, JWT.dict_of_items, JWT.items_union.
  assert (Hfix : nodup JWT.item_eq_dec (a ++ b) = a ++ b).
  { apply nodup_fixed_point. exact (NoDup_map_inv _ _ Hnd). }
  rewrite Hfix. apply (fold_get k v).
  - apply (Permutation_NoDup (l := map fst (a ++ b))); [|exact Hnd].
    apply Permutation_map, Permutation_sym, o_order.
  - apply (Permutation_in (l := a ++ b)); [|exact Hin].
    apply Permutation_sym, o_order.
Qed.

Lemma merge_keys (a b : JWT.pydict) (k : string) :
  In k (JWT.keys (JWT.merge o a b)) -> In k (JWT.keys a) \/ In k (JWT.keys b).
Proof.
  unfold JWT.merge, JWT.dict_of_items, JWT.items_union. intros Hin.
  apply keys_fold in Hin. destruct Hin as [[] | Hin].
  apply in_map_iff in Hin. destruct Hin as ([k' v] & Hk & Hin). cbn in Hk.
  subst k'.
  apply (Permutation_in _ (o_order _)) in Hin. apply nodup_In in Hin.
  apply in_app_or in Hin. unfold JWT.keys.
  destruct Hin as [Hin | Hin]; [left | right];
    apply in_map_iff; exists (k, v); split; auto.
Qed.


Lemma merge_get_none (a b : JWT.pydict) (k : string) :
  ~ In k (JWT.keys (a ++ b)) -> JWT.dict_get k (JWT.merge o a b) = None.
Proof.
  intros Hnot. apply dict_get_none. intros Hin. apply merge_keys in Hin.
  apply Hnot. unfold JWT.keys in *. rewrite map_app. apply in_or_app. exact Hin.
Qed.

End DictFacts.

Lemma id_is_set_order : is_set_order (fun l => l).
Proof. intros l. apply Permutation_refl. Qed.

Lemma rev_is_set_order : is_set_order (@rev JWT.item).
Proof. intros l. apply Permutation_sym, Permutation_rev. Qed.

(** Two runs that iterate the sets differently still build dictionaries with
    the same bindings, as long as no key is bound twice. *)
Lemma merge_bindings_independent_of_order
      (o1 o2 : list JWT.item -> list JWT.item) (a b : JWT.pydict) (k : string) :
  is_set_order o1 -> is_set_order o2 ->
  NoDup (JWT.keys (a ++ b)) ->
  JWT.dict_get k (JWT.merge o1 a b) = JWT.dict_get k (JWT.merge o2 a b).
Proof.
  intros H1 H2 Hnd.
  destruct (in_dec string_dec k (JWT.keys (a ++ b))) as [Hin | Hnot].
  - unfold JWT.keys in Hin. apply in_map_iff in Hin.
    destruct Hin as ([k' v] & Hk & Hin). cbn in Hk. subst k'.
    rewrite (merge_get o1 H1 a b k v Hnd Hin).
    rewrite (merge_get o2 H2 a b k v Hnd Hin). reflexivity.
  - rewrite (merge_get_none o1 H1 a b k Hnot).
    rewrite (merge_get_none o2 H2 a b k Hnot). reflexivity.
Qed.

(* ------------------------------------------------------------------ *)
(** ** The signed token *)

(** C4 as worded fails: two runs that differ only in the order in which
    they iterate a set (here, the order of the list and its reverse) emit
    different headers from the inputs of the specification's scenario. *)
Lemma jwt_runs_disagree :
  ~ deterministic_across_runs
      1700000000 zero_nonce "cid" [0; 255]%N "/x" "wss://h" "GET" [] [].
Proof.
  intros H.
  specialize (H (fun l => l) (@rev JWT.item) id_is_set_order rev_is_set_order
                fixed_digest).
  apply (f_equal (fun p => fst (fst p))) in H.
  vm_compute in H. discriminate H.
Qed.

Example header_in_either_order :
  JWT.generate_header (fun l => l) [] = "eyJhbGciOiAiSFMyNTYiLCAidHlwIjogIkpXVCJ9"%string
  /\ JWT.generate_header (@rev JWT.item) [] = "eyJ0eXAiOiAiSldUIiwgImFsZyI6ICJIUzI1NiJ9"%string.
Proof. vm_compute. split; reflexivity. Qed.

(** Setting a key the dictionary does not have appends the pair. *)
Lemma dict_set_new (k : string) (v : JWT.jval) (d : JWT.pydict) :
  ~ In k (JWT.keys d) -> JWT.dict_set k v d = d ++ [(k, v)].
Proof.
  induction d as [|[k' v'] d IH]; cbn; intros Hnot; [reflexivity|].
  destruct (String.eqb_spec k k') as [-> | Hne].
  - exfalso. apply Hnot. now left.
  - cbn. rewrite IH; [reflexivity|]. intros Hin. apply Hnot. now right.
Qed.

(** Items with distinct new keys are appended in the order they come. *)
Lemma fold_fresh_items (l : list JWT.item) :
  forall d, NoDup (JWT.keys d ++ map fst l) ->
            fold_left JWT.dict_step l d = d ++ l.
Proof.
  induction l as [|[k v] l IH]; intros d Hnd; cbn [fold_left].
  - now rewrite app_nil_r.
  - cbn [map fst] in Hnd.
    assert (Hk : ~ In k (JWT.keys d)).
    { intros Hin. apply NoDup_remove_2 in Hnd. apply Hnd.
      apply in_or_app. now left. }
    unfold JWT.dict_step at 2. cbn [fst snd].
    rewrite (dict_set_new k v d Hk), IH, <- app_assoc; [reflexivity|].
    unfold JWT.keys in *. rewrite map_app, <- app_assoc. exact Hnd.
Qed.

(** The merge of two consistent dictionaries is the set of their pairs, in
    the order the set was iterated. *)
Lemma merge_consistent (o : list JWT.item -> list JWT.item) (a b : JWT.pydict) :
  is_set_order o -> consistent a b ->
  JWT.merge o a b = o (nodup JWT.item_eq_dec (a ++ b))
  /\ NoDup (JWT.keys (JWT.merge o a b)).
Proof.
  intros Ho Hc. unfold consistent in Hc.
  assert (Hnd : NoDup (map fst (o (nodup JWT.item_eq_dec (a ++ b))))).
  { apply (Permutation_NoDup (l := JWT.keys (nodup JWT.item_eq_dec (a ++ b))));
      [|exact Hc].
    apply Permutation_map, Permutation_sym, Ho. }
  assert (Heq : JWT.merge o a b = o (nodup JWT.item_eq_dec (a ++ b))).
  { unfold JWT.merge, JWT.dict_of_items, JWT.items_union.
    rewrite fold_fresh_items; [reflexivity | exact Hnd]. }
  split; [exact Heq|]. rewrite Heq. exact Hnd.
Qed.

Lemma In_dict_get (k : string) (v : JWT.jval) (d : JWT.pydict) :
  NoDup (JWT.keys d) -> In (k, v) d -> JWT.dict_get k d = Some v.
Proof.
  induction d as [|[k' v'] d IH]; intros Hnd Hin; [destruct Hin|].
  cbn [JWT.keys map fst] in Hnd. apply NoDup_cons_iff in Hnd.
  destruct Hnd as [Hk' Hnd]. cbn [JWT.dict_get].
  destruct Hin as [Heq | Hin].
  - injection Heq as -> ->. now rewrite String.eqb_refl.
  - destruct (String.eqb_spec k k') as [-> | Hne]; [|now apply IH].
    exfalso. apply Hk'. unfold JWT.keys. apply in_map_iff.
    exists (k', v). split; [reflexivity | exact Hin].
Qed.

(** Dictionaries with the same pairs bind every key alike, whatever the
    order of their keys. *)
Lemma dict_get_perm (d1 d2 : JWT.pydict) (k : string) :
  Permutation d1 d2 -> NoDup (JWT.keys d1) ->
  JWT.dict_get k d1 = JWT.dict_get k d2.
Proof.
  intros Hp Hnd1.
  assert (Hnd2 : NoDup (JWT.keys d2)).
  { apply (Permutation_NoDup (l := JWT.keys d1)); [|exact Hnd1].
    apply Permutation_map, Hp. }
  destruct (JWT.dict_get k d1) as [v|] eqn:H1.
  - symmetry. apply In_dict_get; [exact Hnd2|].
    apply (Permutation_in _ Hp). now apply dict_get_In.
  - destruct (JWT.dict_get k d2) as [v|] eqn:H2; [|reflexivity].
    apply dict_get_In in H2.
    apply (Permutation_in _ (Permutation_sym Hp)) in H2.
    rewrite (In_dict_get k v d1 Hnd1 H2) in H1. discriminate H1.
Qed.

(** Two runs merging the same consistent dictionaries. *)
Lemma merge_up_to_order (o1 o2 : list JWT.item -> list JWT.item)
      (a b : JWT.pydict) :
  is_set_order o1 -> is_set_order o2 -> consistent a b ->
  Permutation (JWT.merge o1 a b) (JWT.merge o2 a b)
  /\ (forall k, JWT.dict_get k (JWT.merge o1 a b)
                = JWT.dict_get k (JWT.merge o2 a b))
  /\ Permutation (map JWT.json_item (JWT.merge o1 a b))
                 (map JWT.json_item (JWT.merge o2 a b)).
Proof.
  intros H1 H2 Hc.
  destruct (merge_consistent o1 a b H1 Hc) as [E1 N1].
  destruct (merge_consistent o2 a b H2 Hc) as [E2 _].
  assert (Hp : Permutation (JWT.merge o1 a b) (JWT.merge o2 a b)).
  { rewrite E1, E2.
    apply (Permutation_trans (H1 _)), Permutation_sym, H2. }
  split; [exact Hp|]. split.
  - intros k. apply dict_get_perm; assumption.
  - apply Permutation_map, Hp.
Qed.

(** C4, as amended.  From the same inputs, clock reading and nonce (the
    extra parameters binding no key to a second value), two runs build the
    same header object and the same payload object whatever order each
    iterates its item sets in: the same pairs, every key bound alike, the
    same members in the JSON text; only the order of the members can differ.
    When the two runs iterate the two merged item sets in the same order, the
    header, the payload and the signature are byte-identical, and so is the
    token. *)
Theorem jwt_deterministic_up_to_key_order
        (hmac_sha256 : list N -> list N -> list N)
        (o1 o2 : list JWT.item -> list JWT.item)
        (now : Z) (nonce key_id : string) (key_secret : list N)
        (path uri method : string) (jwt_params header_params : JWT.pydict) :
  is_set_order o1 -> is_set_order o2 ->
  consistent JWT.algo header_params ->
  consistent (JWT.jwt_payload now nonce key_id path uri method) jwt_params ->
  let h1 := JWT.header_dict o1 header_params in
  let h2 := JWT.header_dict o2 header_params in
  let p1 := JWT.payload_dict o1 now nonce key_id path uri method jwt_params in
  let p2 := JWT.payload_dict o2 now nonce key_id path uri method jwt_params in
  (Permutation h1 h2
   /\ (forall k, JWT.dict_get k h1 = JWT.dict_get k h2)
   /\ Permutation (map JWT.json_item h1) (map JWT.json_item h2))
  /\ (Permutation p1 p2
      /\ (forall k, JWT.dict_get k p1 = JWT.dict_get k p2)
      /\ Permutation (map JWT.json_item p1) (map JWT.json_item p2))
  /\ (o1 (nodup JWT.item_eq_dec (JWT.algo ++ header_params))
      = o2 (nodup JWT.item_eq_dec (JWT.algo ++ header_params)) ->
      o1 (nodup JWT.item_eq_dec
                (JWT.jwt_payload now nonce key_id path uri method ++ jwt_params))
      = o2 (nodup JWT.item_eq_dec
                  (JWT.jwt_payload now nonce key_id path uri method ++ jwt_params)) ->
      JWT.jwt_parts hmac_sha256 o1 now nonce key_id key_secret path uri method
                    jwt_params header_params
      = JWT.jwt_parts hmac_sha256 o2 now nonce key_id key_secret path uri method
                      jwt_params header_params
      /\ JWT.generate_jwt hmac_sha256 o1 now nonce key_id key_secret path uri
                          method jwt_params header_params
         = JWT.generate_jwt hmac_sha256 o2 now nonce key_id key_secret path uri
                            method jwt_params header_params).
Proof.
  intros H1 H2 Hch Hcp. cbn zeta. unfold JWT.header_dict, JWT.payload_dict.
  split; [exact (merge_up_to_order o1 o2 _ _ H1 H2 Hch)|].
  split; [exact (merge_up_to_order o1 o2 _ _ H1 H2 Hcp)|].
  intros Hh Hp.
  assert (Hhead : JWT.generate_header o1 header_params
                  = JWT.generate_header o2 header_params).
  { unfold JWT.generate_header, JWT.header_dict, JWT.merge, JWT.items_union.
    now rewrite Hh. }
  assert (Hpay : JWT.generate_payload o1 now nonce key_id path uri method jwt_params
                 = JWT.generate_payload o2 now nonce key_id path uri method jwt_params).
  { unfold JWT.generate_payload, JWT.payload_dict, JWT.merge, JWT.items_union.
    now rewrite Hp. }
  unfold JWT.jwt_parts, JWT.generate_jwt. cbn zeta.
  rewrite Hhead, Hpay. split; reflexivity.
Qed.

Lemma consistent_nil_r (a : JWT.pydict) :
  NoDup (JWT.keys a) -> consistent a [].
Proof.
  intros Hnd. unfold consistent. rewrite app_nil_r.
  rewrite (nodup_fixed_point JWT.item_eq_dec (NoDup_map_inv _ _ Hnd)).
  exact Hnd.
Qed.

(** The scenario of the specification, in two runs that iterate their sets
    in opposite orders: the payloads bind [exp] alike. *)
Lemma jwt_deterministic_up_to_key_order_witness :
  (is_set_order (fun l : list JWT.item => l)
   /\ is_set_order (@rev JWT.item)
   /\ consistent JWT.algo []
   /\ consistent (JWT.jwt_payload 1700000000 zero_nonce "cid" "/x" "wss://h" "GET") [])
  /\ JWT.dict_get "exp"
       (JWT.payload_dict (fun l => l) 1700000000 zero_nonce
                         "cid" "/x" "wss://h" "GET" [])
     = JWT.dict_get "exp"
         (JWT.payload_dict (@rev JWT.item) 1700000000 zero_nonce
                           "cid" "/x" "wss://h" "GET" []).
Proof.
  assert (Ha : consistent JWT.algo []).
  { apply consistent_nil_r. cbn.
    repeat constructor; cbn; intuition discriminate. }
  assert (Hp : consistent
                 (JWT.jwt_payload 1700000000 zero_nonce "cid" "/x" "wss://h" "GET")
                 []).
  { apply consistent_nil_r. cbn.
    repeat constructor; cbn; intuition discriminate. }
  split; [split; [exact id_is_set_order
                 | split; [exact rev_is_set_order | split; [exact Ha | exact Hp]]]|].
  exact (proj1 (proj2 (proj1 (proj2
           (jwt_deterministic_up_to_key_order
              fixed_digest (fun l => l) (@rev JWT.item)
              1700000000 zero_nonce "cid" [0; 255]%N "/x" "wss://h" "GET" [] []
              id_is_set_order rev_is_set_order Ha Hp)))) "exp"%string).
Defined.















(** The call [run_ws_server] makes passes no extra parameters. *)
Lemma no_params_keep_claims (now_ws now : Z) (key_id : string) :
  keeps_claims now_ws now key_id [].
Proof. intros k v []. Qed.

Example websocket_payload_serialised :
  JWT.json_dumps
    (websocket_payload (fun l => l) 1700000000 1700000000 zero_nonce
                       "cid" "/x" "wss://h" "GET" [])
  = String.concat (String JWT.dquote EmptyString)
      ["{"; "iss"; ": "; "cid"; ", "; "kid"; ": "; "cid"; ", "; "exp";
       ": 1700000300, "; "nbf"; ": 1699999940, "; "iat"; ": 1699999940, ";
       "region"; ": "; "ny"; ", "; "method"; ": "; "GET"; ", "; "path"; ": ";
       "/x"; ", "; "host"; ": "; "wss://h"; ", "; "client_id"; ": "; "cid";
       ", "; "nonce"; ": "; "00000000-0000-0000-0000-000000000000"; ", ";
       "connection_expiry"; ": 1700000300}"]%string.
Proof. vm_compute. reflexivity. Qed.

(** The hypothesis on the extra parameters is needed: a caller that binds
    [exp] to another value gets a payload in which either value can end up,
    depending on the order in which the set is iterated. *)
Example payload_with_rebound_exp :
  JWT.dict_get "exp"
    (websocket_payload (fun l => l) 1700000000 1700000000 zero_nonce
                       "cid" "/x" "wss://h" "GET" [("exp"%string, JWT.JInt 0)])
  = Some (JWT.JInt 0)
  /\ JWT.dict_get "exp"
       (websocket_payload (@rev JWT.item) 1700000000 1700000000 zero_nonce
                          "cid" "/x" "wss://h" "GET" [("exp"%string, JWT.JInt 0)])
     = Some (JWT.JInt 1700000300).
Proof. vm_compute. split; reflexivity. Qed.

(* ------------------------------------------------------------------ *)
(** ** More on the token: alphabet, shape, URL *)

Lemma list_ind3 (A : Type) (P : list A -> Prop) :
  P [] -> (forall a, P [a]) -> (forall a b, P [a; b]) ->
  (forall a b c r, P r -> P (a :: b :: c :: r)) ->
  forall l, P l.
Proof.
  intros H0 H1 H2 H3. fix IH 1.
  intros [|a [|b [|c r]]]; [exact H0 | apply H1 | apply H2 | apply H3, IH].
Qed.

Lemma b64_char_alphabet (n : N) :
  (n < 64)%N -> b64url_char (JWT.b64_char n) = true.
Proof.
  intros Hn.
  assert (Hall : forallb (fun k => b64url_char (JWT.b64_char (N.of_nat k)))
                         (seq 0 64) = true) by (vm_compute; reflexivity).
  rewrite forallb_forall in Hall.
  specialize (Hall (N.to_nat n)). rewrite N2Nat.id in Hall.
  apply Hall. apply in_seq. lia.
Qed.

(** Padded output: alphabet characters and the padding sign only. *)
Lemma urlsafe_b64encode_chars (l : list N) :
  bytes l ->
  Forall (fun c => b64url_char c = true \/ c = "="%char)
         (JWT.urlsafe_b64encode l).
Proof.
  induction l as [ | a | a b | a b c r IH] using list_ind3; intros Hb.
  - constructor.
  - inversion Hb as [|? ? Ha _]; subst. cbn [JWT.urlsafe_b64encode].
    pose proof (N.mod_upper_bound a 4).
    repeat (apply Forall_cons;
            [first [ right; reflexivity
                   | left; apply b64_char_alphabet;
                     first [lia | apply N.Div0.div_lt_upper_bound; lia] ] | ]).
    apply Forall_nil.
  - inversion Hb as [|? ? Ha Hb']; subst.
    inversion Hb' as [|? ? Hbb _]; subst. cbn [JWT.urlsafe_b64encode].
    assert (b / 16 < 16)%N by (apply N.Div0.div_lt_upper_bound; lia).
    pose proof (N.mod_upper_bound a 4). pose proof (N.mod_upper_bound b 16).
    repeat (apply Forall_cons;
            [first [ right; reflexivity
                   | left; apply b64_char_alphabet;
                     first [lia | apply N.Div0.div_lt_upper_bound; lia] ] | ]).
    apply Forall_nil.
  - inversion Hb as [|? ? Ha Hb']; subst.
    inversion Hb' as [|? ? Hbb Hb'']; subst.
    inversion Hb'' as [|? ? Hc Hr]; subst.
    cbn [JWT.urlsafe_b64encode].
    assert (b / 16 < 16)%N by (apply N.Div0.div_lt_upper_bound; lia).
    assert (c / 64 < 4)%N by (apply N.Div0.div_lt_upper_bound; lia).
    pose proof (N.mod_upper_bound a 4). pose proof (N.mod_upper_bound b 16).
    pose proof (N.mod_upper_bound c 64).
    do 4 (apply Forall_cons;
          [left; apply b64_char_alphabet;
           first [lia | apply N.Div0.div_lt_upper_bound; lia] | ]).
    apply IH. exact Hr.
Qed.

Lemma encode_bytes (s : string) : bytes (JWT.encode s).
Proof.
  unfold bytes. induction s as [|c s IH]; cbn [JWT.encode]; [constructor|].
  apply Forall_app. split; [|exact IH].
  unfold JWT.utf8_char. pose proof (N_ascii_bounded c) as Hc.
  destruct (N.ltb_spec (N_of_ascii c) 128).
  - repeat constructor. lia.
  - assert (N_of_ascii c / 64 < 4)%N by (apply N.Div0.div_lt_upper_bound; lia).
    pose proof (N.mod_upper_bound (N_of_ascii c) 64).
    repeat constructor; lia.
Qed.

Lemma all_chars_of_list (p : ascii -> bool) (l : list ascii) :
  Forall (fun c => p c = true) l -> all_chars p (string_of_list_ascii l) = true.
Proof.
  induction 1 as [|c l Hc _ IH]; cbn; [reflexivity|]. now rewrite Hc, IH.
Qed.

Lemma all_chars_app (p : ascii -> bool) (a b : string) :
  all_chars p (a ++ b) = all_chars p a && all_chars p b.
Proof.
  induction a as [|c a IH]; cbn; [reflexivity|]. now rewrite IH, andb_assoc.
Qed.

Lemma all_chars_weaken (p q : ascii -> bool) (s : string) :
  (forall c, p c = true -> q c = true) ->
  all_chars p s = true -> all_chars q s = true.
Proof.
  intros Hpq. induction s as [|c s IH]; cbn; [reflexivity|].
  intros H. apply andb_prop in H. destruct H as [Hc Hs].
  now rewrite (Hpq c Hc), (IH Hs).
Qed.

Lemma b64encode_bytes_alphabet (l : list N) :
  bytes l -> all_chars b64url_char (JWT.b64encode (JWT.Bytes l)) = true.
Proof.
  intros Hb. unfold JWT.b64encode. apply all_chars_of_list.
  apply Forall_forall. intros c Hin. apply filter_In in Hin.
  destruct Hin as [Hin Hne].
  pose proof (urlsafe_b64encode_chars l Hb) as Hall.
  rewrite Forall_forall in Hall. destruct (Hall c Hin) as [Hc | ->].
  - exact Hc.
  - discriminate Hne.
Qed.

(** X1.  Whatever it encodes, [b64encode] returns text over the URL-safe
    alphabet [A-Z a-z 0-9 - _] only: no padding sign, no dot, nothing a URL
    would escape. *)
Theorem b64encode_alphabet :
  (forall s : string,
      all_chars b64url_char (JWT.b64encode (JWT.Str s)) = true)
  /\ (forall l : list N,
         bytes l -> all_chars b64url_char (JWT.b64encode (JWT.Bytes l)) = true).
Proof.
  split.
  - intros s. apply (b64encode_bytes_alphabet (JWT.encode s)), encode_bytes.
  - exact b64encode_bytes_alphabet.
Qed.

Lemma b64encode_alphabet_witness :
  bytes [0; 255; 16]%N
  /\ all_chars b64url_char (JWT.b64encode (JWT.Bytes [0; 255; 16]%N)) = true.
Proof.
  assert (H : bytes [0; 255; 16]%N) by (repeat constructor).
  split; [exact H | exact (proj2 b64encode_alphabet [0; 255; 16]%N H)].
Defined.

Lemma string_app_assoc (a b c : string) :
  ((a ++ b) ++ c = a ++ (b ++ c))%string.
Proof. induction a as [|x a IH]; cbn; [reflexivity | now rewrite IH]. Qed.

Lemma count_char_app (c : ascii) (a b : string) :
  count_char c (a ++ b) = (count_char c a + count_char c b)%nat.
Proof.
  induction a as [|c' a IH]; cbn [count_char append]; [reflexivity|].
  rewrite IH. lia.
Qed.

Lemma no_dot_in_b64url (s : string) :
  all_chars b64url_char s = true -> count_char "."%char s = O.
Proof.
  induction s as [|c s IH]; cbn [count_char all_chars]; [reflexivity|].
  intros H. apply andb_prop in H. destruct H as [Hc Hs].
  rewrite (IH Hs). destruct (Ascii.eqb_spec "."%char c) as [<- | _];
    [discriminate Hc | reflexivity].
Qed.

Section TokenShape.

Variable hmac_sha256 : list N -> list N -> list N.
Hypothesis hmac_bytes : digest_fn hmac_sha256.
Variable set_order : list JWT.item -> list JWT.item.

Lemma jwt_parts_alphabet
      (now : Z) (nonce key_id : string) (key_secret : list N)
      (path uri method : string) (jwt_params header_params : JWT.pydict) :
  let '(h, p, s) := JWT.jwt_parts hmac_sha256 set_order now nonce key_id
                      key_secret path uri method jwt_params header_params in
  all_chars b64url_char h = true
  /\ all_chars b64url_char p = true
  /\ all_chars b64url_char s = true.
Proof.
  unfold JWT.jwt_parts, JWT.generate_header, JWT.generate_payload,
    JWT.generate_signature. cbn zeta.
  split; [apply (proj1 b64encode_alphabet)|].
  split; [apply (proj1 b64encode_alphabet)|].
  apply b64encode_bytes_alphabet. apply hmac_bytes.
Qed.

End TokenShape.

(** X2.  With a digest that returns bytes, the token [generate_jwt] returns
    is the header, the payload and the signature joined by dots, and
    contains exactly two dots: none of the three parts has one, so the token
    splits back into its parts in one way only. *)
Theorem generate_jwt_two_dots
        (hmac_sha256 : list N -> list N -> list N)
        (set_order : list JWT.item -> list JWT.item)
        (now : Z) (nonce key_id : string) (key_secret : list N)
        (path uri method : string) (jwt_params header_params : JWT.pydict) :
  digest_fn hmac_sha256 ->
  let '(h, p, s) := JWT.jwt_parts hmac_sha256 set_order now nonce key_id
                      key_secret path uri method jwt_params header_params in
  let token := JWT.generate_jwt hmac_sha256 set_order now nonce key_id
                 key_secret path uri method jwt_params header_params in
  token = (h ++ "." ++ p ++ "." ++ s)%string
  /\ count_char "."%char h = O
  /\ count_char "."%char p = O
  /\ count_char "."%char s = O
  /\ count_char "."%char token = 2%nat
  /\ all_chars token_char token = true.
Proof.
  intros Hd.
  pose proof (jwt_parts_alphabet hmac_sha256 Hd set_order now nonce key_id
                key_secret path uri method jwt_params header_params) as Hparts.
  unfold JWT.jwt_parts, JWT.generate_jwt in *. cbn zeta in *.
  set (h := JWT.generate_header set_order header_params) in *.
  set (p := JWT.generate_payload set_order now nonce key_id path uri method
              jwt_params) in *.
  set (s := JWT.generate_signature hmac_sha256 (h ++ "." ++ p) key_secret) in *.
  destruct Hparts as (Hh & Hp & Hs).
  assert (Hweak : forall c, b64url_char c = true -> token_char c = true)
    by (intros c Hc; unfold token_char; now rewrite Hc).
  split; [now rewrite !string_app_assoc|].
  split; [now apply no_dot_in_b64url|].
  split; [now apply no_dot_in_b64url|].
  split; [now apply no_dot_in_b64url|].
  split.
  - rewrite !count_char_app.
    rewrite (no_dot_in_b64url h Hh), (no_dot_in_b64url p Hp),
      (no_dot_in_b64url s Hs). reflexivity.
  - rewrite !all_chars_app.
    rewrite (all_chars_weaken _ _ h Hweak Hh),
      (all_chars_weaken _ _ p Hweak Hp), (all_chars_weaken _ _ s Hweak Hs).
    reflexivity.
Qed.

Lemma fixed_digest_bytes : digest_fn fixed_digest.
Proof. intros key msg. repeat constructor. Qed.

Lemma generate_jwt_two_dots_witness :
  digest_fn fixed_digest
  /\ count_char "."%char
       (JWT.generate_jwt fixed_digest order_a 1700000000 zero_nonce "cid"
                         [0; 255]%N "/x" "wss://h" "GET" [] []) = 2%nat.
Proof.
  split; [exact fixed_digest_bytes|].
  exact (proj1 (proj2 (proj2 (proj2 (proj2
           (generate_jwt_two_dots fixed_digest order_a 1700000000 zero_nonce
              "cid" [0; 255]%N "/x" "wss://h" "GET" [] []
              fixed_digest_bytes)))))).
Defined.

Lemma string_app_nil_r (a : string) : (a ++ EmptyString)%string = a.
Proof. induction a as [|x a IH]; cbn; [reflexivity | now rewrite IH]. Qed.

Lemma concat_empty_cons (x : string) (l : list string) :
  String.concat EmptyString (x :: l) = (x ++ String.concat EmptyString l)%string.
Proof.
  destruct l as [|y l]; cbn [String.concat].
  - now rewrite string_app_nil_r.
  - reflexivity.
Qed.

(** Text over the token characters is left as it is by [quote_plus]. *)
Lemma quote_plus_token_chars (s : string) :
  all_chars token_char s = true -> JWT.quote_plus s = s.
Proof.
  unfold JWT.quote_plus.
  induction s as [|c s IH]; cbn [all_chars JWT.encode]; [reflexivity|].
  intros H. apply andb_prop in H. destruct H as [Hc Hs].
  assert (Hlt : (N_of_ascii c <? 128)%N = true).
  { unfold token_char, b64url_char in Hc. apply N.ltb_lt.
    repeat match type of Hc with
           | (_ || _) = true => apply orb_prop in Hc; destruct Hc as [Hc | Hc]
           | (_ && _) = true => apply andb_prop in Hc; destruct Hc as [? Hc]
           end;
      repeat match goal with
             | H : (_ <=? _)%N = true |- _ => apply N.leb_le in H
             | H : (_ =? _)%N = true |- _ => apply N.eqb_eq in H
             end; lia. }
  assert (Hun : JWT.unreserved (N_of_ascii c) = true).
  { unfold token_char, b64url_char in Hc. unfold JWT.unreserved.
    repeat match type of Hc with
           | (_ || _) = true => apply orb_prop in Hc; destruct Hc as [Hc | Hc]
           end;
      rewrite ?Hc, ?orb_true_r; try reflexivity. }
  unfold JWT.utf8_char. rewrite Hlt. cbn [app map].
  rewrite concat_empty_cons, (IH Hs).
  unfold JWT.quote_byte. rewrite Hun, ascii_N_embedding. reflexivity.
Qed.

(** X3.  [generate_websocket_url] as [run_ws_server] calls it (no extra
    query parameters): with a client secret that is not hexadecimal it
    raises; otherwise it returns host, path, [?jwt=] and the token exactly as
    [generate_jwt] built it, since no character of a token needs escaping. *)
Theorem generate_websocket_url_shape
        (hmac_sha256 : list N -> list N -> list N)
        (set_order : list JWT.item -> list JWT.item)
        (now_ws now : Z) (nonce path method client_id client_secret uri : string)
        (jwt_params header_params : JWT.pydict) :
  digest_fn hmac_sha256 ->
  JWT.generate_websocket_url hmac_sha256 set_order now_ws now nonce path method
                             (client_id, client_secret) uri
                             jwt_params header_params []
  = match JWT.unhexlify client_secret with
    | None => Raised "binascii.Error"
    | Some key_secret =>
        Returned (uri ++ path ++ "?jwt="
                  ++ JWT.generate_jwt hmac_sha256 set_order now nonce client_id
                       key_secret path uri method
                       (JWT.websocket_jwt_params set_order now_ws jwt_params)
                       header_params)%string
    end.
Proof.
  intros Hd. unfold JWT.generate_websocket_url, JWT.generate_url. cbn [fst snd].
  destruct (JWT.unhexlify client_secret) as [key_secret|]; [|reflexivity].
  f_equal. f_equal. f_equal.
  cbn [JWT.query_set JWT.urlencode map String.concat fst snd].
  pose proof (generate_jwt_two_dots hmac_sha256 set_order now nonce client_id
                key_secret path uri method
                (JWT.websocket_jwt_params set_order now_ws jwt_params)
                header_params Hd) as Hshape.
  destruct (JWT.jwt_parts _ _ _ _ _ _ _ _ _ _ _) as [[h p] s].
  destruct Hshape as (_ & _ & _ & _ & _ & Hchars).
  rewrite (quote_plus_token_chars _ Hchars).
  reflexivity.
Qed.

Lemma generate_websocket_url_shape_witness :
  digest_fn fixed_digest
  /\ JWT.generate_websocket_url fixed_digest order_a 1700000000 1700000000
       zero_nonce "/x" "GET" ("cid", "zz")%string "wss://h" [] [] []
     = Raised "binascii.Error".
Proof.
  split; [exact fixed_digest_bytes|].
  exact (generate_websocket_url_shape fixed_digest order_a 1700000000
           1700000000 zero_nonce "/x" "GET" "cid" "zz" "wss://h" [] []
           fixed_digest_bytes).
Defined.

(** X4.  Without extra header parameters, whatever the iteration order of
    the set, [generate_header] returns one of two strings: the encoding of
    the dictionary with [alg] first, or with [typ] first. *)
Theorem generate_header_two_forms (o : list JWT.item -> list JWT.item) :
  is_set_order o ->
  JWT.generate_header o [] = header_alg_first
  \/ JWT.generate_header o [] = header_typ_first.
Proof.
  intros Ho.
  unfold JWT.generate_header, JWT.header_dict, JWT.merge, JWT.items_union.
  assert (Hnd : nodup JWT.item_eq_dec (JWT.algo ++ []) = JWT.algo)
    by (vm_compute; reflexivity).
  rewrite Hnd.
  pose proof (Permutation_sym (Ho JWT.algo)) as Hperm. unfold JWT.algo in Hperm.
  apply Permutation_length_2_inv in Hperm.
  unfold JWT.algo. destruct Hperm as [-> | ->]; [left | right];
    vm_compute; reflexivity.
Qed.

Lemma generate_header_two_forms_witness :
  is_set_order order_b
  /\ (JWT.generate_header order_b [] = header_alg_first
      \/ JWT.generate_header order_b [] = header_typ_first).
Proof.
  assert (H : is_set_order order_b).
  { intros l. unfold order_b. destruct (List.length l <=? 11)%nat.
    - apply Permutation_sym, Permutation_rev.
    - apply Permutation_refl. }
  split; [exact H | exact (generate_header_two_forms order_b H)].
Defined.






(* ------------------------------------------------------------------ *)
(** ** The bridge as wired: broker to socket *)

Lemma count_app (p : event -> bool) (a b : trace) :
  count p (a ++ b) = count p a + count p b.
Proof. unfold count. rewrite filter_app, length_app. lia. Qed.

Lemma count_nonneg (p : event -> bool) (t : trace) : 0 <= count p t.
Proof. unfold count. lia. Qed.

Lemma settled_app (a b : trace) : settled (a ++ b) = settled a ++ settled b.
Proof. unfold settled. apply flat_map_app. Qed.

Ltac settle_counts :=
  repeat match goal with
         | |- _ /\ _ => split
         | |- _ <-> _ => split
         end;
  try (cbn; lia);
  try (intros; cbn in *; first [lia | discriminate | tauto]);
  try (intros; cbn in *; intuition (try discriminate; try lia; auto)).

(** One delivery to the handler wired to the real socket. *)
Lemma deliver_one (m : Message) (send_ok : bool) (w : World) (ch : Channel) :
  channel (mq w) = Some ch ->
  let w' := fst (MQ.__call__ (WS.send_ws_message send_ok) m w) in
  mq w' = mq w /\ ws w' = ws w
  /\ (metrics_on_in w -> metrics_on_in w')
  /\ exists t,
      events w' = events w ++ t
      /\ settled t = [m]
      /\ count is_ack t + count is_reject t = 1
      /\ count is_reject t = count is_requeue t
      /\ count is_ack t = count is_sent t
      /\ (metrics_on_in w -> to_ws_total w' = to_ws_total w + count is_ack t)
      /\ (count is_ack t = 1 <->
          mq_running (mq w) = true /\ ws_connected (ws w) = true
          /\ ws_running (ws w) = true /\ send_ok = true).
Proof.
  intros Hch. unfold MQ.__call__. rewrite Hch.
  destruct (mq_running (mq w)) eqn:Hrun; cbn [negb].
  2:{ cbn [fst emit mq ws metrics events].
      split; [reflexivity|]. split; [reflexivity|]. split; [intros H; exact H|].
      exists [EvReject m true].
      split; [reflexivity|]. split; [reflexivity|].
      unfold to_ws_total. cbn [metrics].
      settle_counts. }
  unfold WS.send_ws_message.
  destruct (ws_connected (ws w)) eqn:Hc; destruct (ws_running (ws w)) eqn:Hr;
    cbn [andb]; [destruct send_ok|..]; cbn [fst is_True].
  - split; [reflexivity|]. split; [reflexivity|]. split.
    { intros (mh & Hm & He). unfold metrics_on_in. cbn. rewrite Hm. cbn.
      rewrite He. eexists. split; [reflexivity|]. cbn. exact He. }
    exists [EvWsSend (body m) true; EvAck m].
    split; [cbn; now rewrite <- app_assoc|].
    split; [reflexivity|].
    split; [reflexivity|]. split; [reflexivity|]. split; [reflexivity|].
    split.
    + intros (mh & Hm & He). unfold to_ws_total. cbn. rewrite Hm. cbn.
      rewrite He. cbn. lia.
    + split; [intros _; repeat split | intros _; reflexivity].
  - split; [reflexivity|]. split; [reflexivity|]. split; [intros H; exact H|].
    exists [EvWsSend (body m) false; EvReject m true].
    split; [cbn; now rewrite <- app_assoc|]. split; [reflexivity|].
    unfold to_ws_total. cbn [metrics emit]. settle_counts.
  - split; [reflexivity|]. split; [reflexivity|]. split; [intros H; exact H|].
    exists [EvReject m true].
    split; [reflexivity|]. split; [reflexivity|].
    unfold to_ws_total. cbn [metrics emit]. settle_counts.
  - split; [reflexivity|]. split; [reflexivity|]. split; [intros H; exact H|].
    exists [EvSleep 1; EvReject m true].
    split; [cbn; now rewrite <- app_assoc|]. split; [reflexivity|].
    unfold to_ws_total. cbn [metrics emit]. settle_counts.
  - split; [reflexivity|]. split; [reflexivity|]. split; [intros H; exact H|].
    exists [EvReject m true].
    split; [reflexivity|]. split; [reflexivity|].
    unfold to_ws_total. cbn [metrics emit]. settle_counts.
Qed.

(** X6.  The broker side wired to the real socket, over any run of
    deliveries to a handler with a channel: the messages settled are the
    messages delivered, each once and in the order of delivery, by an ack or
    by a reject that requeues (never a reject that drops); the acks are as
    many as the frames the socket accepted, and with metrics on the to-WS
    counter grows by that number. *)
Theorem deliveries_settled_once
        (ds : list (Message * bool)) (w : World) (ch : Channel) :
  channel (mq w) = Some ch ->
  let w' := deliver_all ds w in
  exists t,
    events w' = events w ++ t
    /\ settled t = map fst ds
    /\ count is_ack t + count is_reject t = Z.of_nat (List.length ds)
    /\ count is_reject t = count is_requeue t
    /\ count is_ack t = count is_sent t
    /\ (metrics_on_in w -> to_ws_total w' = to_ws_total w + count is_ack t).
Proof.
  intros Hch. cbn zeta. revert w Hch.
  induction ds as [|[m ok] rest IH]; intros w Hch.
  - exists []. cbn. rewrite app_nil_r. repeat split; try reflexivity.
    intros _. lia.
  - cbn [deliver_all].
    destruct (deliver_one m ok w ch Hch)
      as (Hmq & Hws & Hmet & t1 & Hev1 & Hset1 & Hone & Hrq & Hsent & Hcnt & _).
    set (w1 := fst (MQ.__call__ (WS.send_ws_message ok) m w)) in *.
    assert (Hch1 : channel (mq w1) = Some ch) by (rewrite Hmq; exact Hch).
    destruct (IH w1 Hch1) as (t2 & Hev2 & Hset2 & Hall & Hrq2 & Hsent2 & Hcnt2).
    exists (t1 ++ t2). rewrite !count_app.
    split; [rewrite Hev2, Hev1, app_assoc; reflexivity|].
    split; [rewrite settled_app, Hset1, Hset2; reflexivity|].
    split; [cbn [List.length]; lia|].
    split; [lia|]. split; [lia|].
    intros Hon. rewrite (Hcnt2 (Hmet Hon)), (Hcnt Hon). lia.
Qed.

(** Two messages, the second refused by the socket: the first is acked, the
    second rejected, in that order. *)
Lemma deliveries_settled_once_witness :
  channel (mq consuming_world) = Some a_channel
  /\ exists t,
      events (deliver_all [(a_message, true); (mkMessage "second" [], false)]
                          consuming_world)
      = events consuming_world ++ t
      /\ settled t = [a_message; mkMessage "second" []]
      /\ count is_ack t + count is_reject t = 2.
Proof.
  split; [reflexivity|].
  destruct (deliveries_settled_once
              [(a_message, true); (mkMessage "second" [], false)]
              consuming_world a_channel eq_refl)
    as (t & H1 & H2 & H3 & _).
  exists t. split; [exact H1 | split; [exact H2 | exact H3]].
Defined.

(** X7.  One delivery to that handler is acked exactly when the handler is
    running, the socket connected and running, and the send went through; a
    frame the socket refused, or one that met a socket not yet connected, is
    rejected with requeue. *)
Theorem delivery_acked_iff_sent
        (m : Message) (send_ok : bool) (w : World) (ch : Channel) :
  channel (mq w) = Some ch ->
  let r := MQ.__call__ (WS.send_ws_message send_ok) m w in
  (In (EvAck m) (skipn (List.length (events w)) (events (fst r)))
   <-> mq_running (mq w) = true /\ ws_connected (ws w) = true
       /\ ws_running (ws w) = true /\ send_ok = true)
  /\ (In (EvReject m true) (skipn (List.length (events w)) (events (fst r)))
      <-> ~ (mq_running (mq w) = true /\ ws_connected (ws w) = true
             /\ ws_running (ws w) = true /\ send_ok = true))
  /\ (snd r = Returned (PyBool true)
      <-> mq_running (mq w) = true /\ ws_connected (ws w) = true
          /\ ws_running (ws w) = true /\ send_ok = true).
Proof.
  intros Hch. cbn zeta. unfold MQ.__call__, WS.send_ws_message. rewrite Hch.
  assert (Hskip : forall t : trace,
             skipn (List.length (events w)) (events w ++ t) = t).
  { intros t. rewrite skipn_app, skipn_all, Nat.sub_diag. reflexivity. }
  destruct (mq_running (mq w)); destruct (ws_connected (ws w));
    destruct (ws_running (ws w)); destruct send_ok;
    cbn [negb andb fst snd is_True emit events with_metrics];
    rewrite <- ?app_assoc, ?Hskip; cbn [app In];
    (split; [|split]); split;
    try (intros H; repeat split; reflexivity);
    try (intros (H1 & H2 & H3 & H4); discriminate);
    try (intros H; exfalso; apply H; repeat split; reflexivity);
    try (intros [H | [H | []]]; discriminate);
    try (intros [H | []]; discriminate);
    try (intros H; discriminate H);
    try (intros _; intros (H1 & H2 & H3 & H4); discriminate);
    try (intros _; tauto);
    try (intros _; intuition congruence);
    try (intros [H | [H | []]]; congruence);
    try (intros [H | []]; congruence);
    try tauto.
Qed.

Lemma delivery_acked_iff_sent_witness :
  channel (mq consuming_world) = Some a_channel
  /\ snd (MQ.__call__ (WS.send_ws_message false) a_message consuming_world)
     <> Returned (PyBool true).
Proof.
  split; [reflexivity|].
  intros H.
  destruct (proj1 (proj2 (proj2 (delivery_acked_iff_sent a_message false
                     consuming_world a_channel eq_refl))) H)
    as (_ & _ & _ & Hf).
  discriminate Hf.
Defined.

(* ------------------------------------------------------------------ *)
(** ** The bridge as wired: the stub, and socket to broker *)

(** What [send_message] does on a handler with a channel, in terms of the
    publish outcomes. *)
Lemma send_message_run
      (env : nat -> MQ.pub_obs) (exchange rk b : string) (w : World)
      (ch : Channel) :
  channel (mq w) = Some ch ->
  exists (k : nat) (sent : bool),
    let m := mkMessage b (MQ.build_properties (mq w)) in
    let tries := failed_tries rk m k
                 ++ (if sent then [EvPublish rk m true] else []) in
    MQ.send_message env exchange rk b w
    = (with_events (events w ++ EvDeclare rk true :: tries) w,
       Returned (PyBool sent))
    /\ (sent = true -> MQ.obs_publish_ok (env k) = true)
    /\ (Z.of_nat k + (if sent then 1 else 0) <= Z.max 0 (max_retries (mq w))).
Proof.
  intros Hch.
  destruct (publish_loop_spec env (mq w) rk
              (mkMessage b (MQ.build_properties (mq w)))
              (Z.to_nat (max_retries (mq w))) 0
              (events w ++ [EvDeclare rk true]))
    as (k & sent & Heq & Hle & Hfail & Hsent & Hstop).
  { destruct (Z.le_gt_cases 0 (max_retries (mq w))); [left | right]; lia. }
  exists k, sent. cbn zeta. split; [|split].
  - unfold MQ.send_message. rewrite Hch. cbn [emit events mq].
    rewrite Heq. unfold with_events. cbn. rewrite <- app_assoc. reflexivity.
  - intros Hs. exact (proj1 (Hsent Hs)).
  - destruct sent; lia.
Qed.

Lemma count_cons (p : event -> bool) (e : event) (t : trace) :
  count p (e :: t) = (if p e then 1 else 0) + count p t.
Proof. unfold count. cbn [filter]. destruct (p e); cbn [List.length]; lia. Qed.

Lemma count_failed_tries (p : event -> bool) (rk : string) (m : Message) (k : nat) :
  p (EvPublish rk m false) = false -> p (EvSleep 1) = false ->
  count p (failed_tries rk m k) = 0.
Proof.
  intros H1 H2. unfold count.
  induction k as [|k IH]; cbn [failed_tries filter]; [reflexivity|].
  rewrite H1, H2. exact IH.
Qed.

(** X8.  In stub mode a consumed message is acked whatever becomes of the
    echo: [send_ws_message_stub] returns [True] once the handler has
    returned, whether [send_message_from_ws] managed to publish or gave up.
    Both frame counters are stepped before the publish is tried. *)
Theorem stub_acks_whatever_the_publish
        (env : nat -> MQ.pub_obs) (m : Message) (w : World) (ch : Channel) :
  channel (mq w) = Some ch ->
  mq_running (mq w) = true ->
  ws_connected (ws w) = true ->
  ws_running (ws w) = true ->
  let r := MQ.__call__ (stub_wired env) m w in
  snd r = Returned (PyBool true)
  /\ (exists t published,
         events (fst r) = events w ++ t ++ [EvAck m]
         /\ count is_ack t = 0 /\ count is_reject t = 0
         /\ publishes t = published
         /\ ((forall i, MQ.obs_publish_ok (env i) = false) ->
             ~ In true published))
  /\ (metrics_on_in w ->
      to_ws_total (fst r) = to_ws_total w + 1
      /\ from_ws_total (fst r) = from_ws_total w + 1).
Proof.
  intros Hch Hrun Hc Hr. cbn zeta.
  unfold MQ.__call__, stub_wired, WS.send_ws_message_stub.
  rewrite Hch, Hrun, Hc, Hr. cbn [negb andb].
  change (WS.STUB_SEND_DELAY >? 0) with false. cbn iota.
  unfold MQ.send_message_from_ws.
  match goal with
  | |- context [MQ.send_message env ?ex ?rk ?b ?w0] =>
      destruct (send_message_run env ex rk b w0 ch) as (k & sent & Hsm & Hok & _);
        [exact Hch|]
  end.
  cbn zeta in Hsm. rewrite Hsm. cbn [fst snd is_True emit events with_events
                                     with_metrics mq ws metrics].
  split; [reflexivity|]. split.
  - exists (EvDeclare (mq_qname_from_ws (mq w)) true
            :: failed_tries (mq_qname_from_ws (mq w))
                 (mkMessage (body m) (MQ.build_properties (mq w))) k
               ++ (if sent
                   then [EvPublish (mq_qname_from_ws (mq w))
                           (mkMessage (body m) (MQ.build_properties (mq w)))
                           true]
                   else [])).
    eexists. split.
    + rewrite <- app_assoc. reflexivity.
    + split; [|split; [|split; [reflexivity|]]].
      * rewrite count_cons, count_app.
        rewrite count_failed_tries by reflexivity. destruct sent; reflexivity.
      * rewrite count_cons, count_app.
        rewrite count_failed_tries by reflexivity. destruct sent; reflexivity.
      * intros Hall Hin.
        change (publishes (EvDeclare ?q ?d :: ?x)) with (publishes x) in Hin.
        rewrite publishes_app, failed_tries_publishes in Hin.
        cbn [publishes flat_map app] in Hin.
        apply in_app_or in Hin. destruct Hin as [Hin | Hin].
        -- apply repeat_spec in Hin. discriminate Hin.
        -- destruct sent; [|destruct Hin].
           specialize (Hok eq_refl). rewrite Hall in Hok. discriminate Hok.
  - intros (mh & Hm & He). unfold to_ws_total, from_ws_total. cbn [metrics].
    rewrite Hm. cbn. rewrite He. cbn. split; reflexivity.
Qed.

Lemma stub_acks_whatever_the_publish_witness :
  (channel (mq consuming_world) = Some a_channel
   /\ mq_running (mq consuming_world) = true
   /\ ws_connected (ws consuming_world) = true
   /\ ws_running (ws consuming_world) = true)
  /\ snd (MQ.__call__ (stub_wired (fun _ => MQ.mkPubObs true true false))
                      a_message consuming_world)
     = Returned (PyBool true).
Proof.
  split; [repeat split|].
  exact (proj1 (stub_acks_whatever_the_publish
                  (fun _ => MQ.mkPubObs true true false) a_message
                  consuming_world a_channel eq_refl eq_refl eq_refl eq_refl)).
Defined.

(** X9.  A frame arriving from the socket: with no handler wired it is
    dropped and not counted; with [send_message_from_ws] wired (and a
    channel) it is counted once in the from-WS counter and handed to the
    publish loop, and [on_message] returns [None] whether the publish went
    through or was given up: a frame that could not be published is lost
    without a trace in the result. *)
Theorem frame_counted_whatever_the_publish
        (env : nat -> MQ.pub_obs) (frame : string) (w : World) (ch : Channel) :
  channel (mq w) = Some ch ->
  WS.on_message None frame w = (w, Returned PyNone)
  /\ let r := WS.on_message (Some (MQ.send_message_from_ws env)) frame w in
     snd r = Returned PyNone
     /\ mq (fst r) = mq w /\ ws (fst r) = ws w
     /\ (metrics_on_in w ->
         from_ws_total (fst r) = from_ws_total w + 1
         /\ to_ws_total (fst r) = to_ws_total w)
     /\ exists t,
         events (fst r)
         = events w ++ EvDeclare (mq_qname_from_ws (mq w)) true :: t
         /\ Z.of_nat (List.length (publishes t)) <= Z.max 0 (max_retries (mq w))
         /\ sleeps t = repeat 1 (List.length (filter negb (publishes t))).
Proof.
  intros Hch. split; [reflexivity|]. cbn zeta.
  unfold WS.on_message, MQ.send_message_from_ws.
  match goal with
  | |- context [MQ.send_message env ?ex ?rk ?b ?w0] =>
      destruct (send_message_run env ex rk b w0 ch) as (k & sent & Hsm & _ & Hk);
        [exact Hch|]
  end.
  cbn zeta in Hsm. rewrite Hsm.
  cbn [fst snd with_events with_metrics mq ws metrics events] in *.
  split; [reflexivity|]. split; [reflexivity|]. split; [reflexivity|]. split.
  - intros (mh & Hm & He). unfold to_ws_total, from_ws_total. cbn [metrics].
    rewrite Hm. cbn. rewrite He. cbn. split; reflexivity.
  - eexists. split; [reflexivity|].
    rewrite publishes_app, sleeps_app, failed_tries_publishes,
      failed_tries_sleeps, length_app, repeat_length, filter_app.
    assert (Hf : forall n, filter negb (repeat false n) = repeat false n).
    { induction n as [|n IH]; cbn; [reflexivity | now rewrite IH]. }
    rewrite Hf, length_app, repeat_length.
    destruct sent; cbn; rewrite ?app_nil_r, ?Nat.add_0_r; split;
      try reflexivity; lia.
Qed.

Lemma frame_counted_whatever_the_publish_witness :
  channel (mq consuming_world) = Some a_channel
  /\ snd (WS.on_message
            (Some (MQ.send_message_from_ws (fun _ => MQ.mkPubObs true true false)))
            "frame" consuming_world)
     = Returned PyNone.
Proof.
  split; [reflexivity|].
  exact (proj1 (proj2 (frame_counted_whatever_the_publish
                  (fun _ => MQ.mkPubObs true true false) "frame"
                  consuming_world a_channel eq_refl))).
Defined.

(* ------------------------------------------------------------------ *)
(** ** The WebSocket run loop *)

Lemma when_enabled_twice (a b : Z) (m : option MetricsHandler) :
  when_enabled (set_count_ws_connection_attempts a)
               (when_enabled (set_count_ws_connection_attempts b) m)
  = when_enabled (set_count_ws_connection_attempts a) m.
Proof.
  destruct m as [mh|]; [|reflexivity]. cbn.
  destruct (metrics_enabled mh) eqn:He; cbn; rewrite He; reflexivity.
Qed.

Section BadSecret.

Variable hmac_sha256 : list N -> list N -> list N.
Variable set_order : list JWT.item -> list JWT.item.
Variable handler : option callback.
Variable env : nat -> WS.attempt_obs.

Lemma ws_loop_bad_secret (fuel : nat) :
  forall (attempt : Z) (i : nat) (w : World),
    JWT.unhexlify (snd (ws_credentials (ws w))) = None ->
    ws_running (ws w) = true ->
    (Z.to_nat (ws_max_connect_attempts (ws w) - attempt) <= fuel)%nat ->
    WS.ws_loop hmac_sha256 set_order handler env fuel attempt i w
    = (with_ws (WS.set_ws_failed (PyStr WS.budget_exceeded) (ws w))
         (with_metrics
            (if attempt <? ws_max_connect_attempts (ws w)
             then when_enabled
                    (set_count_ws_connection_attempts
                       (ws_max_connect_attempts (ws w)))
                    (metrics w)
             else metrics w) w),
       WS.WsReturned).
Proof.
  induction fuel as [|fuel IH]; intros attempt i w Hhex Hrun Hfuel.
  - assert (Hge : ws_max_connect_attempts (ws w) <= attempt) by lia.
    cbn [WS.ws_loop].
    destruct (Z.ltb_spec attempt (ws_max_connect_attempts (ws w))); [lia|].
    destruct (Z.geb_spec attempt (ws_max_connect_attempts (ws w))); [|lia].
    destruct w; reflexivity.
  - cbn [WS.ws_loop].
    destruct (Z.ltb_spec attempt (ws_max_connect_attempts (ws w))) as [Hlt | Hge].
    + rewrite Hrun. cbn [negb with_metrics ws].
      unfold JWT.generate_websocket_url, JWT.generate_url. rewrite Hhex.
      rewrite IH; cbn [with_metrics ws metrics]; try assumption; [|lia].
      rewrite when_enabled_twice.
      destruct (Z.ltb_spec (attempt + 1) (ws_max_connect_attempts (ws w)))
        as [Hlt' | Hge']; [reflexivity|].
      replace (attempt + 1) with (ws_max_connect_attempts (ws w)) by lia.
      reflexivity.
    + destruct (Z.geb_spec attempt (ws_max_connect_attempts (ws w))); [|lia].
      destruct w; reflexivity.
Qed.

End BadSecret.

(** X10.  With a client secret that is not hexadecimal, every turn of
    [run_ws_server] fails while building the URL and moves on to the next:
    after [ws_max_connect_attempts] turns the loop is left with the
    budget-exhausted reason in [ws_failed].  No socket was opened, nothing
    was slept, the attempt counter reads the maximum, and [ws_running] is
    still [True]. *)
Theorem run_ws_server_bad_secret
        (hmac_sha256 : list N -> list N -> list N)
        (set_order : list JWT.item -> list JWT.item)
        (handler : option callback) (env : nat -> WS.attempt_obs)
        (fuel : nat) (w : World) :
  JWT.unhexlify (snd (ws_credentials (ws w))) = None ->
  (Z.to_nat (ws_max_connect_attempts (ws w)) <= fuel)%nat ->
  let r := WS.run_ws_server hmac_sha256 set_order handler env fuel w in
  snd r = WS.WsReturned
  /\ events (fst r) = events w
  /\ ws_failed (ws (fst r)) = PyStr WS.budget_exceeded
  /\ ws_running (ws (fst r)) = true
  /\ ws_connected (ws (fst r)) = ws_connected (ws w)
  /\ mq (fst r) = mq w
  /\ (0 < ws_max_connect_attempts (ws w) -> metrics_on_in w ->
      ws_attempts_total (fst r) = ws_max_connect_attempts (ws w)).
Proof.
  intros Hhex Hfuel. cbn zeta. unfold WS.run_ws_server.
  rewrite ws_loop_bad_secret; cbn [with_ws ws metrics]; try assumption;
    try reflexivity; [|rewrite Z.sub_0_r; exact Hfuel].
  cbn [fst snd events with_ws with_metrics ws mq WS.set_ws_failed ws_failed
       ws_running ws_connected WS.set_ws_running].
  repeat (split; [reflexivity|]).
  intros Hpos (mh & Hm & He). unfold ws_attempts_total. cbn [metrics].
  assert (Hb : (0 <? ws_max_connect_attempts (ws w)) = true)
    by (apply Z.ltb_lt; exact Hpos).
  rewrite Hm. cbn. rewrite He. cbn. rewrite Hb. reflexivity.
Qed.

Lemma run_ws_server_bad_secret_witness :
  let w := mkWorld (mq_consuming 300)
                   (WS.init "wss://h" "/x" ("cid", "not hex")%string 10 3 60)
                   metrics_on [] in
  (JWT.unhexlify (snd (ws_credentials (ws w))) = None
   /\ (Z.to_nat (ws_max_connect_attempts (ws w)) <= 5)%nat)
  /\ ws_failed (ws (fst (WS.run_ws_server fixed_digest order_a None
                           env_sessions 5 w)))
     = PyStr WS.budget_exceeded.
Proof.
  cbn zeta. split; [split; [reflexivity | cbn; lia]|].
  refine (proj1 (proj2 (proj2
            (run_ws_server_bad_secret fixed_digest order_a None env_sessions 5
               (mkWorld (mq_consuming 300)
                        (WS.init "wss://h" "/x" ("cid", "not hex")%string 10 3 60)
                        metrics_on [])
               eq_refl _)))).
  cbn. lia.
Defined.

Section QuietHandler.

Variable hmac_sha256 : list N -> list N -> list N.
Variable set_order : list JWT.item -> list JWT.item.
Variable handler : option callback.
Variable env : nat -> WS.attempt_obs.

(** The handler wired to [on_message] leaves the WebSocket handler object
    alone and opens no socket of its own. *)
Hypothesis handler_quiet :
  forall h, handler = Some h ->
  forall m w, ws (fst (h m w)) = ws w
              /\ count is_open (events (fst (h m w))) = count is_open (events w).

Lemma dispatch_quiet (e : WS.session_event) (w : World) :
  ws_max_connect_attempts (ws (WS.dispatch handler e w))
  = ws_max_connect_attempts (ws w)
  /\ ws_attempt_window_secs (ws (WS.dispatch handler e w))
     = ws_attempt_window_secs (ws w)
  /\ count is_open (events (WS.dispatch handler e w)) = count is_open (events w)
  /\ (has_reason (ws_failed (ws w)) ->
      has_reason (ws_failed (ws (WS.dispatch handler e w)))).
Proof.
  destruct e as [ | m | code msg | | ]; cbn [WS.dispatch].
  - repeat split; auto.
  - unfold WS.on_message. destruct handler as [h|] eqn:Hh;
      [|repeat split; auto].
    match goal with
    | |- context [h m ?w0] =>
        destruct (handler_quiet h eq_refl m w0) as [Hws Hop];
        destruct (h m w0) as [w2 [v | e]]
    end; cbn in Hws, Hop |- *; rewrite Hws, Hop; repeat split; auto.
  - unfold WS.on_close. destruct (is_None code && is_None msg); cbn;
      repeat split; auto. intros _. eexists. reflexivity.
  - repeat split; auto.
  - unfold WS.close. cbn. destruct (ws_handle (ws w)); cbn;
      repeat split; auto.
    rewrite count_app. cbn. lia.
Qed.

Lemma run_session_quiet (es : list WS.session_event) :
  forall w,
    ws_max_connect_attempts (ws (WS.run_session handler es w))
    = ws_max_connect_attempts (ws w)
    /\ ws_attempt_window_secs (ws (WS.run_session handler es w))
       = ws_attempt_window_secs (ws w)
    /\ count is_open (events (WS.run_session handler es w))
       = count is_open (events w)
    /\ (has_reason (ws_failed (ws w)) ->
        has_reason (ws_failed (ws (WS.run_session handler es w)))).
Proof.
  unfold WS.run_session.
  induction es as [|e es IH]; intros w; cbn [fold_left]; [repeat split; auto|].
  destruct (dispatch_quiet e w) as (H1 & H2 & H3 & H4).
  destruct (IH (WS.dispatch handler e w)) as (I1 & I2 & I3 & I4).
  rewrite I1, I2, I3, H1, H2, H3. repeat split; auto.
Qed.

(** A reason in [ws_failed] survives every turn of the loop. *)
Lemma ws_loop_keeps_reason (fuel : nat) :
  forall (attempt : Z) (i : nat) (w : World),
    has_reason (ws_failed (ws w)) ->
    has_reason
      (ws_failed (ws (fst (WS.ws_loop hmac_sha256 set_order handler env
                                      fuel attempt i w)))).
Proof.
  induction fuel as [|fuel IH]; intros attempt i w H; cbn [WS.ws_loop].
  - destruct (attempt <? ws_max_connect_attempts (ws w)); [exact H|].
    destruct (attempt >=? ws_max_connect_attempts (ws w));
      [eexists; reflexivity | exact H].
  - destruct (attempt <? ws_max_connect_attempts (ws w)).
    2:{ destruct (attempt >=? ws_max_connect_attempts (ws w));
          [eexists; reflexivity | exact H]. }
    destruct (ws_running (ws w)); cbn [negb]; [|exact H].
    destruct (JWT.generate_websocket_url _ _ _ _ _ _ _ _ _ _ _ _) as [uri | e].
    + match goal with
      | |- context [WS.run_session handler ?es ?w0] =>
          destruct (run_session_quiet es w0) as (_ & _ & _ & H3)
      end.
      specialize (H3 H).
      destruct (WS.ao_end (env i)) as [teardown | | e].
      * apply IH. exact H3.
      * apply IH. unfold WS.close. cbn.
        match goal with
        | |- context [if ?b then _ else _] => destruct b
        end; exact H3.
      * exact H3.
    + apply IH. exact H.
Qed.

Variable window : Z.

(** No session outlives the attempt window. *)
Hypothesis short_sessions :
  forall i, Qle_bool (WS.ao_time_end (env i) - WS.ao_time_start (env i))%Q
                     (inject_Z window) = true.

Lemma ws_loop_opens (fuel : nat) :
  forall (attempt : Z) (i : nat) (w : World),
    ws_attempt_window_secs (ws w) = window ->
    count is_open (events (fst (WS.ws_loop hmac_sha256 set_order handler env
                                           fuel attempt i w)))
    <= count is_open (events w)
       + Z.max 0 (ws_max_connect_attempts (ws w) - attempt).
Proof.
  induction fuel as [|fuel IH]; intros attempt i w Hwin; cbn [WS.ws_loop].
  - destruct (attempt <? ws_max_connect_attempts (ws w)); cbn; [lia|].
    destruct (attempt >=? ws_max_connect_attempts (ws w)); cbn; lia.
  - destruct (Z.ltb_spec attempt (ws_max_connect_attempts (ws w))) as [Hlt | Hge].
    2:{ destruct (attempt >=? ws_max_connect_attempts (ws w)); cbn; lia. }
    destruct (ws_running (ws w)); cbn [negb]; [|cbn; lia].
    destruct (JWT.generate_websocket_url _ _ _ _ _ _ _ _ _ _ _ _) as [uri | e].
    + match goal with
      | |- context [WS.run_session handler ?es ?w0] =>
          destruct (run_session_quiet es w0) as (Hmax & Hw & Hop & _);
          set (w3 := WS.run_session handler es w0) in *
      end.
      cbn [emit with_ws with_metrics ws events WS.set_ws_handle
           ws_max_connect_attempts ws_attempt_window_secs] in Hmax, Hw, Hop.
      rewrite count_app in Hop. cbn in Hop.
      destruct (WS.ao_end (env i)) as [teardown | | e].
      * rewrite Hw, Hwin, short_sessions. cbn [negb].
        specialize (IH (attempt + 1) (S i) w3 (eq_trans Hw Hwin)).
        rewrite Hmax in IH. lia.
      * assert (Hc : ws_attempt_window_secs (ws (WS.close w3)) = window).
        { unfold WS.close. cbn. destruct (ws_handle (ws w3)); cbn;
            rewrite Hw; exact Hwin. }
        specialize (IH (attempt + 1) (S i) (WS.close w3) Hc).
        assert (Hm : ws_max_connect_attempts (ws (WS.close w3))
                     = ws_max_connect_attempts (ws w)).
        { unfold WS.close. cbn. destruct (ws_handle (ws w3)); cbn; exact Hmax. }
        assert (Ho : count is_open (events (WS.close w3))
                     = count is_open (events w3)).
        { unfold WS.close. cbn. destruct (ws_handle (ws w3)); cbn;
            [rewrite count_app; cbn; lia | reflexivity]. }
        rewrite Hm, Ho in IH. lia.
      * cbn [fst]. lia.
    + match goal with
      | |- context [WS.ws_loop _ _ _ _ fuel ?a ?j ?w1] =>
          specialize (IH a j w1 Hwin)
      end.
      cbn [with_metrics ws events] in IH. lia.
Qed.

End QuietHandler.

(** X11.  While no session outlives the attempt window, the budget bounds
    the loop: [run_ws_server] opens at most [ws_max_connect_attempts]
    sockets, however its sessions end and however long the loop is followed
    (the handler wired to [on_message] leaving the WebSocket handler alone). *)
Theorem run_ws_server_budget
        (hmac_sha256 : list N -> list N -> list N)
        (set_order : list JWT.item -> list JWT.item)
        (handler : option callback) (env : nat -> WS.attempt_obs)
        (fuel : nat) (w : World) :
  (forall h, handler = Some h ->
   forall m w0, ws (fst (h m w0)) = ws w0
                /\ count is_open (events (fst (h m w0)))
                   = count is_open (events w0)) ->
  (forall i, Qle_bool (WS.ao_time_end (env i) - WS.ao_time_start (env i))%Q
                      (inject_Z (ws_attempt_window_secs (ws w))) = true) ->
  count is_open
        (events (fst (WS.run_ws_server hmac_sha256 set_order handler env fuel w)))
  <= count is_open (events w) + Z.max 0 (ws_max_connect_attempts (ws w)).
Proof.
  intros Hq Hshort. unfold WS.run_ws_server.
  pose proof (ws_loop_opens hmac_sha256 set_order handler env Hq
                (ws_attempt_window_secs (ws w)) Hshort fuel 0 0
                (with_ws (WS.set_ws_running true (ws w)) w) eq_refl) as H.
  cbn [with_ws ws events WS.set_ws_running ws_max_connect_attempts] in H.
  rewrite Z.sub_0_r in H. exact H.
Qed.

(** X12.  A reason once recorded in [ws_failed] is never cleared: not by a
    later [on_open], nor by any other callback of a session, nor by a new
    [run_ws_server]. *)
Theorem ws_failed_is_sticky
        (hmac_sha256 : list N -> list N -> list N)
        (set_order : list JWT.item -> list JWT.item)
        (handler : option callback) (env : nat -> WS.attempt_obs)
        (fuel : nat) (es : list WS.session_event) (w : World) :
  (forall h, handler = Some h ->
   forall m w0, ws (fst (h m w0)) = ws w0
                /\ count is_open (events (fst (h m w0)))
                   = count is_open (events w0)) ->
  has_reason (ws_failed (ws w)) ->
  has_reason (ws_failed (ws (WS.on_open w)))
  /\ has_reason (ws_failed (ws (WS.run_session handler es w)))
  /\ has_reason
       (ws_failed (ws (fst (WS.run_ws_server hmac_sha256 set_order handler
                                             env fuel w)))).
Proof.
  intros Hq H. split; [exact H|]. split.
  - exact (proj2 (proj2 (proj2 (run_session_quiet handler Hq es w))) H).
  - unfold WS.run_ws_server.
    apply (ws_loop_keeps_reason hmac_sha256 set_order handler env Hq). exact H.
Qed.

Lemma run_ws_server_budget_witness :
  ((forall h, @None callback = Some h ->
    forall m w0, ws (fst (h m w0)) = ws w0
                 /\ count is_open (events (fst (h m w0)))
                    = count is_open (events w0))
   /\ (forall i, Qle_bool (WS.ao_time_end (env_short_sessions i)
                           - WS.ao_time_start (env_short_sessions i))%Q
                          (inject_Z (ws_attempt_window_secs (ws ws_world)))
                 = true))
  /\ count is_open
       (events (fst (WS.run_ws_server fixed_digest order_a None
                       env_short_sessions 25 ws_world)))
     <= count is_open (events ws_world)
        + Z.max 0 (ws_max_connect_attempts (ws ws_world)).
Proof.
  assert (H1 : forall h, @None callback = Some h ->
               forall m w0, ws (fst (h m w0)) = ws w0
                            /\ count is_open (events (fst (h m w0)))
                               = count is_open (events w0))
    by (intros h Hh; discriminate Hh).
  assert (H2 : forall i, Qle_bool (WS.ao_time_end (env_short_sessions i)
                                   - WS.ao_time_start (env_short_sessions i))%Q
                                  (inject_Z (ws_attempt_window_secs (ws ws_world)))
                         = true)
    by (intros i; reflexivity).
  split; [split; [exact H1 | exact H2]|].
  exact (run_ws_server_budget fixed_digest order_a None env_short_sessions 25
           ws_world H1 H2).
Defined.

Example short_sessions_use_the_budget :
  let r := WS.run_ws_server fixed_digest order_a None env_short_sessions 25
             ws_world in
  count is_open (events (fst r)) = 10
  /\ ws_failed (ws (fst r)) = PyStr WS.budget_exceeded
  /\ snd r = WS.WsReturned.
Proof. vm_compute. repeat split. Qed.

Lemma ws_failed_is_sticky_witness :
  ((forall h, @None callback = Some h ->
    forall m w0, ws (fst (h m w0)) = ws w0
                 /\ count is_open (events (fst (h m w0)))
                    = count is_open (events w0))
   /\ has_reason (ws_failed (ws ws_failed_world)))
  /\ has_reason
       (ws_failed (ws (WS.run_session None [WS.CbOpen; WS.CbMessage "m"]
                                      ws_failed_world))).
Proof.
  assert (H1 : forall h, @None callback = Some h ->
               forall m w0, ws (fst (h m w0)) = ws w0
                            /\ count is_open (events (fst (h m w0)))
                               = count is_open (events w0))
    by (intros h Hh; discriminate Hh).
  assert (H2 : has_reason (ws_failed (ws ws_failed_world)))
    by (eexists; reflexivity).
  split; [split; [exact H1 | exact H2]|].
  exact (proj1 (proj2 (ws_failed_is_sticky fixed_digest order_a None
                         env_short_sessions 0
                         [WS.CbOpen; WS.CbMessage "m"] ws_failed_world H1 H2))).
Defined.

(* ------------------------------------------------------------------ *)
(** ** The connect loop: giving up, never giving up, what it returns with *)

Lemma mq_when_enabled_twice (a b : Z) (m : option MetricsHandler) :
  when_enabled (set_count_mq_connection_attempts a)
               (when_enabled (set_count_mq_connection_attempts b) m)
  = when_enabled (set_count_mq_connection_attempts a) m.
Proof.
  destruct m as [mh|]; [|reflexivity]. cbn.
  destruct (metrics_enabled mh) eqn:He; cbn; rewrite He; reflexivity.
Qed.

Lemma retried_snoc_front (url : string) (n : Z) (k : nat) (t : trace) :
  ([EvConnect url false; EvSleep (MQ.backoff n)] ++ retried url (n + 1) k) ++ t
  = retried url n (S k) ++ t.
Proof. reflexivity. Qed.

Section Unreachable.

Variable env : nat -> MQ.connect_obs.

(** The broker never answers, and nobody stops the handler meanwhile. *)
Hypothesis never_connects : forall i, env i = MQ.ConnAMQPError true.

Lemma connect_loop_gives_up (fuel : nat) :
  forall (attempts : Z) (i : nat) (w : World),
    mq_running (mq w) = true ->
    0 < max_retries (mq w) ->
    attempts <= max_retries (mq w) ->
    (Z.to_nat (max_retries (mq w) - attempts) < fuel)%nat ->
    MQ.connect_loop fuel env attempts i w
    = (mkWorld (MQ.set_mq_running false (mq w)) (ws w)
         (when_enabled
            (set_count_mq_connection_attempts (max_retries (mq w) + 1))
            (metrics w))
         (events w
          ++ retried (mq_url (mq w)) (attempts + 1)
                     (Z.to_nat (max_retries (mq w) - attempts))
          ++ [EvConnect (mq_url (mq w)) false]),
       Finished).
Proof.
  induction fuel as [|fuel IH]; intros attempts i w Hrun Hpos Hle Hfuel; [lia|].
  cbn [MQ.connect_loop]. rewrite Hrun, never_connects.
  cbn [emit with_metrics with_mq mq ws metrics events max_retries mq_url].
  assert (Hnz : negb (max_retries (mq w) =? 0) = true).
  { apply negb_true_iff, Z.eqb_neq. lia. }
  rewrite Hnz. cbn [andb].
  destruct (Z.gtb_spec (attempts + 1) (max_retries (mq w))) as [Hgt | Hngt].
  - assert (attempts = max_retries (mq w)) by lia. subst attempts.
    rewrite Z.sub_diag. cbn [Z.to_nat retried app]. reflexivity.
  - rewrite IH;
      cbn [mq ws metrics events max_retries mq_url mq_running
           MQ.set_mq_running with_mq emit with_metrics];
      try reflexivity; try lia.
    rewrite mq_when_enabled_twice.
    replace (Z.to_nat (max_retries (mq w) - attempts))
      with (S (Z.to_nat (max_retries (mq w) - (attempts + 1)))) by lia.
    cbn [retried]. rewrite <- !app_assoc. reflexivity.
Qed.

Lemma connect_loop_never_gives_up (fuel : nat) :
  forall (attempts : Z) (i : nat) (w : World),
    mq_running (mq w) = true ->
    max_retries (mq w) = 0 ->
    let r := MQ.connect_loop fuel env attempts i w in
    snd r = StillLooping
    /\ events (fst r) = events w ++ retried (mq_url (mq w)) (attempts + 1) fuel
    /\ mq_running (mq (fst r)) = true
    /\ connection (mq (fst r)) = connection (mq w).
Proof.
  induction fuel as [|fuel IH]; intros attempts i w Hrun Hzero; cbn zeta.
  - cbn [MQ.connect_loop]. rewrite Hrun. cbn. rewrite app_nil_r. repeat split.
    exact Hrun.
  - cbn [MQ.connect_loop]. rewrite Hrun, never_connects.
    cbn [emit with_metrics with_mq mq ws metrics events max_retries mq_url].
    rewrite Hzero. cbn [Z.eqb negb andb].
    match goal with
    | |- context [MQ.connect_loop fuel env ?a ?j ?w'] =>
        destruct (IH a j w') as (I1 & I2 & I3 & I4); [reflexivity | exact Hzero |]
    end.
    cbn zeta in I1, I2, I3, I4.
    cbn [events mq mq_url connection MQ.set_mq_running with_mq emit
         with_metrics] in I2, I4.
    rewrite I1, I2, I3, I4. cbn [retried].
    rewrite <- !app_assoc. repeat split.
Qed.

End Unreachable.

(** X13.  An unreachable broker with [max_retries = N > 0]: the handler
    makes exactly [N + 1] connect attempts, sleeping after each of the first
    [N], and then gives up: [mq_running] is cleared, no connection is set and
    the attempt counter reads [N + 1]. *)
Theorem create_connection_gives_up_after
        (env : nat -> MQ.connect_obs) (fuel : nat) (w : World) :
  (forall i, env i = MQ.ConnAMQPError true) ->
  mq_running (mq w) = true ->
  0 < max_retries (mq w) ->
  (Z.to_nat (max_retries (mq w)) < fuel)%nat ->
  let r := MQ.create_connection fuel env w in
  let n := Z.to_nat (max_retries (mq w)) in
  snd r = Finished
  /\ events (fst r)
     = events w ++ retried (mq_url (mq w)) 1 n ++ [EvConnect (mq_url (mq w)) false]
  /\ sleeps (retried (mq_url (mq w)) 1 n)
     = map (fun k => Z.min (Z.of_nat k * 2) 30) (seq 1 n)
  /\ mq_running (mq (fst r)) = false
  /\ connection (mq (fst r)) = connection (mq w)
  /\ (metrics_on_in w -> mq_attempts_total (fst r) = max_retries (mq w) + 1).
Proof.
  intros Henv Hrun Hpos Hfuel. cbn zeta. unfold MQ.create_connection.
  rewrite (connect_loop_gives_up env Henv fuel 0 0 w Hrun Hpos); try lia.
  rewrite Z.sub_0_r. cbn [fst snd events mq MQ.set_mq_running mq_running
                          connection metrics].
  split; [reflexivity|]. split; [reflexivity|].
  split; [apply (sleeps_retried (mq_url (mq w)) _ 1)|].
  split; [reflexivity|]. split; [reflexivity|].
  intros (mh & Hm & He). unfold mq_attempts_total. cbn [metrics].
  rewrite Hm. cbn. rewrite He. reflexivity.
Qed.

Lemma create_connection_gives_up_after_witness :
  ((forall i, env_unreachable i = MQ.ConnAMQPError true)
   /\ mq_running (mq (connecting_world 5)) = true
   /\ 0 < max_retries (mq (connecting_world 5))
   /\ (Z.to_nat (max_retries (mq (connecting_world 5))) < 7)%nat)
  /\ mq_running (mq (fst (MQ.create_connection 7 env_unreachable
                            (connecting_world 5)))) = false.
Proof.
  assert (H1 : forall i, env_unreachable i = MQ.ConnAMQPError true)
    by (intros i; reflexivity).
  assert (H3 : 0 < max_retries (mq (connecting_world 5))) by (cbn; lia).
  assert (H4 : (Z.to_nat (max_retries (mq (connecting_world 5))) < 7)%nat)
    by (cbn; lia).
  split; [split; [exact H1 | split; [reflexivity | split; [exact H3 | exact H4]]]|].
  exact (proj1 (proj2 (proj2 (proj2
           (create_connection_gives_up_after env_unreachable 7
              (connecting_world 5) H1 eq_refl H3 H4))))).
Defined.

(** X14.  [max_retries = 0] means two opposite things.  The connect loop
    reads it as no limit: against an unreachable broker it never gives up,
    and after any number of turns it is still looping, having slept after
    every attempt.  The publish loop reads it as no try at all: the queue is
    declared, the message is never published, and the result is [False]. *)
Theorem zero_max_retries
        (cenv : nat -> MQ.connect_obs) (penv : nat -> MQ.pub_obs)
        (fuel : nat) (exchange rk b : string) (w : World) (ch : Channel) :
  max_retries (mq w) = 0 ->
  ((forall i, cenv i = MQ.ConnAMQPError true) ->
   mq_running (mq w) = true ->
   let r := MQ.create_connection fuel cenv w in
   snd r = StillLooping
   /\ events (fst r) = events w ++ retried (mq_url (mq w)) 1 fuel
   /\ mq_running (mq (fst r)) = true)
  /\ (channel (mq w) = Some ch ->
      MQ.send_message penv exchange rk b w
      = (emit (EvDeclare rk true) w, Returned (PyBool false))).
Proof.
  intros Hzero. split.
  - intros Henv Hrun. cbn zeta. unfold MQ.create_connection.
    destruct (connect_loop_never_gives_up cenv Henv fuel 0 0 w Hrun Hzero)
      as (H1 & H2 & H3 & _).
    repeat split; assumption.
  - intros Hch. unfold MQ.send_message. rewrite Hch, Hzero.
    cbn. destruct w; reflexivity.
Qed.

Lemma zero_max_retries_witness :
  max_retries (mq (connecting_world 0)) = 0
  /\ snd (MQ.create_connection 40 env_unreachable (connecting_world 0))
     = StillLooping.
Proof.
  split; [reflexivity|].
  exact (proj1 (proj1 (zero_max_retries env_unreachable env_publish_ok 40
                         EmptyString EmptyString EmptyString
                         (connecting_world 0) a_channel eq_refl)
                      (fun i => eq_refl) eq_refl)).
Defined.

(** Every way out of the connect loop. *)
Lemma connect_loop_connected (env : nat -> MQ.connect_obs) (fuel : nat) :
  forall (attempts : Z) (i : nat) (w : World),
    (mq_running (mq w) = true -> connection (mq w) = true) \/ mq_running (mq w) = true ->
    let r := MQ.connect_loop fuel env attempts i w in
    snd r = Finished ->
    mq_running (mq (fst r)) = true ->
    connection (mq (fst r)) = true.
Proof.
  induction fuel as [|fuel IH]; intros attempts i w Hinit; cbn zeta;
    cbn [MQ.connect_loop].
  - destruct (mq_running (mq w)) eqn:Hrun; cbn; [discriminate|].
    intros _ Hr. rewrite Hrun in Hr. discriminate.
  - destruct (mq_running (mq w)) eqn:Hrun.
    2:{ cbn. intros _ Hr. rewrite Hrun in Hr. discriminate. }
    destruct (env i) as [ | still | ].
    + cbn. intros _ _. reflexivity.
    + cbn [emit with_metrics with_mq mq ws metrics events max_retries mq_url].
      destruct (negb (max_retries (mq w) =? 0)
                && (attempts + 1 >? max_retries (mq w))).
      * cbn. intros _ Hr. discriminate.
      * apply IH. cbn. destruct still; [now right | left; discriminate].
    + cbn. intros _ Hr. discriminate.
Qed.

(** X15.  [create_connection] never returns with the handler running and no
    connection: when it is left with [mq_running] still [True], a connect has
    succeeded and [self.connection] is set, so [consume_messages] can open a
    channel on it. *)
Theorem create_connection_returns_connected
        (env : nat -> MQ.connect_obs) (fuel : nat) (w : World) :
  let r := MQ.create_connection fuel env w in
  snd r = Finished ->
  mq_running (mq (fst r)) = true ->
  mq_running (mq w) = true /\ connection (mq (fst r)) = true.
Proof.
  cbn zeta. unfold MQ.create_connection. intros Hfin Hrun.
  destruct (mq_running (mq w)) eqn:Hinit.
  - split; [reflexivity|].
    apply (connect_loop_connected env fuel 0 0 w); [now right | exact Hfin | exact Hrun].
  - exfalso. destruct fuel; cbn [MQ.connect_loop] in Hrun; rewrite Hinit in Hrun;
      cbn in Hrun; rewrite Hinit in Hrun; discriminate.
Qed.

Lemma create_connection_returns_connected_witness :
  let r := MQ.create_connection 10 env_third_time (connecting_world 5) in
  (snd r = Finished /\ mq_running (mq (fst r)) = true)
  /\ connection (mq (fst r)) = true.
Proof.
  cbn zeta. split; [split; reflexivity|].
  exact (proj2 (create_connection_returns_connected env_third_time 10
                  (connecting_world 5) eq_refl eq_refl)).
Defined.

(* ------------------------------------------------------------------ *)
(** ** The supervisor: poll, watch loop, interrupter *)

Lemma poll_loop_waits (obs : nat -> World) (n : nat) :
  forall (i : nat) (r : Bridge.poll_result),
    (forall j, reason_or_none (ws_failed (ws (obs j)))) ->
    exists k : nat,
      (k <= n)%nat
      /\ Bridge.slept (Bridge.poll_loop n i obs r) = Bridge.slept r ++ repeat 1 k
      /\ (forall j, (j < k)%nat -> Supervisor.ready (obs (i + j)%nat) = false)
      /\ ((k < n)%nat -> Supervisor.ready (obs (i + k)%nat) = true).
Proof.
  induction n as [|n IH]; intros i r Hobs.
  - exists O. cbn. rewrite app_nil_r. repeat split; intros; lia.
  - cbn [Bridge.poll_loop].
    assert (Hnot : is_True (ws_failed (ws (obs i))) = false).
    { specialize (Hobs i). destruct (ws_failed (ws (obs i))); cbn in *;
        try reflexivity; contradiction. }
    rewrite Hnot.
    fold (Supervisor.ready (obs i)).
    destruct (Supervisor.ready (obs i)) eqn:Hready.
    + exists O. cbn [repeat]. rewrite app_nil_r, Nat.add_0_r.
      split; [lia|]. split; [reflexivity|].
      split; [intros j Hj; lia | intros _; exact Hready].
    + destruct (IH (S i) (Bridge.mkPoll (Bridge.bridge r)
                                        (Bridge.successful_start r)
                                        (Bridge.slept r ++ [1])) Hobs)
        as (k & Hk & Hsl & Hno & Hyes).
      exists (S k). split; [lia|]. split; [|split].
      * rewrite Hsl. cbn [Bridge.slept repeat]. rewrite <- app_assoc. reflexivity.
      * intros j Hj. destruct j as [|j].
        -- rewrite Nat.add_0_r. exact Hready.
        -- replace (i + S j)%nat with (S i + j)%nat by lia. apply Hno. lia.
      * intros Hlt. replace (i + S k)%nat with (S i + k)%nat by lia.
        apply Hyes. lia.
Qed.

(** X16.  The startup poll waits one second per turn and returns as soon as
    a turn finds the broker handler running and the socket running and
    connected, after 60 turns at the latest: the seconds slept are the number
    of turns before the first ready one. *)
Theorem startup_poll_waits_until_ready
        (obs : nat -> World) (bb : Bridge.Mq2WsBridge) :
  (forall i, reason_or_none (ws_failed (ws (obs i)))) ->
  exists k : nat,
    (k <= 60)%nat
    /\ Bridge.slept (Bridge.startup_poll obs bb) = repeat 1 k
    /\ (forall j, (j < k)%nat -> Supervisor.ready (obs j) = false)
    /\ ((k < 60)%nat -> Supervisor.ready (obs k) = true).
Proof.
  intros Hobs. unfold Bridge.startup_poll.
  destruct (poll_loop_waits obs 60 0 (Bridge.mkPoll bb 0 []) Hobs)
    as (k & Hk & Hsl & Hno & Hyes).
  exists k. repeat split; assumption.
Qed.

Lemma startup_poll_waits_until_ready_witness :
  (forall i, reason_or_none (ws_failed (ws (obs_ws_failed i))))
  /\ exists k : nat,
      (k <= 60)%nat
      /\ Bridge.slept (Bridge.startup_poll obs_ws_failed a_bridge) = repeat 1 k
      /\ (forall j, (j < k)%nat -> Supervisor.ready (obs_ws_failed j) = false)
      /\ ((k < 60)%nat -> Supervisor.ready (obs_ws_failed k) = true).
Proof.
  split; [intros i; exact I|].
  exact (startup_poll_waits_until_ready obs_ws_failed a_bridge (fun i => I)).
Defined.

Lemma watch_loop_exit (obs : nat -> Supervisor.watch_obs) (fuel : nat) :
  forall (i : nat) (r : Supervisor.main_result),
    let r' := Supervisor.watch_loop fuel obs i r in
    Supervisor.mr_exit r' = Supervisor.mr_exit r
    /\ (Supervisor.mr_progress r' = Finished ->
        Bridge.server_running (Supervisor.mr_bridge r') = false)
    /\ (Bridge.server_running (Supervisor.mr_bridge r) = false ->
        Supervisor.mr_slept r' = Supervisor.mr_slept r)
    /\ exists k : nat,
        (k <= fuel)%nat
        /\ Supervisor.mr_slept r' = Supervisor.mr_slept r ++ repeat 3 k.
Proof.
  induction fuel as [|fuel IH]; intros i r; cbn zeta;
    cbn [Supervisor.watch_loop].
  - destruct (Bridge.server_running (Supervisor.mr_bridge r)) eqn:Hrun; cbn.
    + repeat split; try discriminate. exists O. cbn. now rewrite app_nil_r.
    + repeat split; auto. exists O. cbn. now rewrite app_nil_r.
  - destruct (Bridge.server_running (Supervisor.mr_bridge r)) eqn:Hrun.
    2:{ cbn. repeat split; auto. exists O. split; [lia|]. cbn.
        now rewrite app_nil_r. }
    destruct (Supervisor.wo_interrupt (obs i)).
    + cbn. repeat split; try discriminate. exists 1%nat. split; [lia|].
      reflexivity.
    + match goal with
      | |- context [Supervisor.watch_loop fuel obs ?j ?r0] =>
          destruct (IH j r0) as (H1 & H2 & _ & k & Hk & Hsl)
      end.
      cbn zeta in H1, H2, Hsl. cbn [Supervisor.mr_exit Supervisor.mr_slept] in *.
      split; [exact H1|]. split; [exact H2|]. split; [discriminate|].
      exists (S k). split; [lia|]. rewrite Hsl, <- app_assoc. reflexivity.
Qed.

(** X17.  Once the threads are started, the value [main] returns is settled
    by the startup poll alone: the watch loop shuts the bridge down when a
    thread has died, a handler has stopped or the user interrupts, but never
    touches the exit code.  As the handler stores [None] or a string in
    [ws_failed], that value is 0, also when the broker could never be
    reached.  A watch loop that is left has cleared [server_running], having
    slept three seconds per turn. *)
Theorem main_exit_code
        (fuel : nat) (poll_obs : nat -> World)
        (obs : nat -> Supervisor.watch_obs) (bb : Bridge.Mq2WsBridge) :
  let r := Supervisor.main_after_setup fuel poll_obs obs bb in
  Supervisor.mr_exit r
  = Bridge.successful_start (Bridge.startup_poll poll_obs bb)
  /\ ((forall i, reason_or_none (ws_failed (ws (poll_obs i)))) ->
      Supervisor.mr_exit r = 0)
  /\ (Supervisor.mr_progress r = Finished ->
      Bridge.server_running (Supervisor.mr_bridge r) = false)
  /\ exists k : nat,
      (k <= fuel)%nat
      /\ Supervisor.mr_slept r
         = Bridge.slept (Bridge.startup_poll poll_obs bb) ++ repeat 3 k.
Proof.
  cbn zeta. unfold Supervisor.main_after_setup.
  assert (Hp : (forall i, reason_or_none (ws_failed (ws (poll_obs i)))) ->
               Bridge.successful_start (Bridge.startup_poll poll_obs bb) = 0).
  { intros Hobs.
    exact (proj1 (poll_loop_reason poll_obs 60 0 (Bridge.mkPoll bb 0 []) Hobs)). }
  revert Hp. generalize (Bridge.startup_poll poll_obs bb). intros p Hp.
  pose proof (watch_loop_exit obs fuel 0
                (Supervisor.mkMain (Bridge.bridge p) (Bridge.successful_start p)
                                   (Bridge.slept p) Finished)) as H.
  destruct H as (H1 & H2 & _ & H4).
  split; [exact H1|]. split; [|split; [exact H2 | exact H4]].
  intros Hobs. exact (eq_trans H1 (Hp Hobs)).
Qed.

Lemma main_exit_code_witness :
  (forall i, reason_or_none (ws_failed (ws (obs_ws_failed i))))
  /\ Supervisor.mr_exit
       (Supervisor.main_after_setup 5 obs_ws_failed
          (fun _ => Supervisor.mkWatch false false true ws_failed_world false)
          a_bridge) = 0.
Proof.
  split; [intros i; exact I|].
  exact (proj1 (proj2 (main_exit_code 5 obs_ws_failed
                  (fun _ => Supervisor.mkWatch false false true ws_failed_world false)
                  a_bridge)) (fun i => I)).
Defined.

Lemma close_all_stops (w : World) :
  let w' := fst (Supervisor.close_all w) in
  mq_running (mq w') = false
  /\ ws_running (ws w') = false
  /\ channel (mq w') = channel (mq w)
  /\ connection (mq w') = connection (mq w)
  /\ metrics w' = metrics w.
Proof.
  unfold Supervisor.close_all, MQClose.close, WS.close. cbn.
  destruct (ws_handle (ws w)); cbn; repeat split.
Qed.

(** X18.  When the interrupter is done, the bridge is down: [server_running]
    is [False] and both handlers have their running flag cleared, so a
    message the broker still delivers is rejected with requeue without being
    forwarded, and a frame handed to [send_ws_message] is refused without
    touching the socket.  With a run time set it does so after one wait of
    [interrupt_secs]; with [0] it waits in turns of 60 seconds for as long as
    [server_running] reads [True]. *)
Theorem interrupter_stops_everything
        (fuel : nat) (flag : nat -> bool)
        (bb : Bridge.Mq2WsBridge) (w : World) :
  let r := Supervisor.interrupter fuel flag bb w in
  (Bridge.interrupt_secs bb <> 0 ->
   Supervisor.ir_progress r = Finished
   /\ Supervisor.ir_waits r = [Bridge.interrupt_secs bb])
  /\ (Bridge.interrupt_secs bb = 0 ->
      exists k, (k <= fuel)%nat /\ Supervisor.ir_waits r = repeat 60 k
                /\ (forall j, (j < k)%nat -> flag j = true)
                /\ (Supervisor.ir_progress r = Finished -> flag k = false))
  /\ (Supervisor.ir_progress r = Finished ->
      let w' := Supervisor.ir_world r in
      Bridge.server_running (Supervisor.ir_bridge r) = false
      /\ mq_running (mq w') = false
      /\ ws_running (ws w') = false
      /\ (forall fwd m ch,
             channel (mq w) = Some ch ->
             MQ.__call__ fwd m w'
             = (emit (EvReject m true) w', Returned (PyBool false)))
      /\ (forall send_ok msg,
             WS.send_ws_message send_ok msg w' = (w', Returned (PyBool false)))).
Proof.
  cbn zeta.
  assert (Hpark : forall fuel0 i waits,
             exists k, (k <= fuel0)%nat
                       /\ fst (Supervisor.park fuel0 flag i waits)
                          = waits ++ repeat 60 k
                       /\ (forall j, (j < k)%nat -> flag (i + j)%nat = true)
                       /\ (snd (Supervisor.park fuel0 flag i waits) = Finished ->
                           flag (i + k)%nat = false)).
  { induction fuel0 as [|f IH]; intros i waits; cbn [Supervisor.park].
    - exists O. rewrite Nat.add_0_r. destruct (flag i) eqn:Hf; cbn;
        rewrite app_nil_r; repeat split; intros; try lia; try discriminate;
        auto.
    - destruct (flag i) eqn:Hf.
      + destruct (IH (S i) (waits ++ [60])) as (k & Hk & Hw & Hall & Hend).
        exists (S k). split; [lia|]. split; [|split].
        * rewrite Hw, <- app_assoc. reflexivity.
        * intros j Hj. destruct j as [|j]; [now rewrite Nat.add_0_r|].
          replace (i + S j)%nat with (S i + j)%nat by lia. apply Hall. lia.
        * intros Hfin. replace (i + S k)%nat with (S i + k)%nat by lia.
          apply Hend. exact Hfin.
      + exists O. rewrite Nat.add_0_r. cbn. rewrite app_nil_r.
        repeat split; intros; try lia; auto. }
  assert (Hstop : forall w0 calls,
             Supervisor.close_all w = (w0, calls) ->
             mq_running (mq w0) = false /\ ws_running (ws w0) = false
             /\ channel (mq w0) = channel (mq w)).
  { intros w0 calls Heq. pose proof (close_all_stops w) as H.
    cbn zeta in H. rewrite Heq in H. cbn in H. tauto. }
  assert (Hdown : forall w0,
             mq_running (mq w0) = false -> ws_running (ws w0) = false ->
             channel (mq w0) = channel (mq w) ->
             (forall fwd m ch,
                 channel (mq w) = Some ch ->
                 MQ.__call__ fwd m w0
                 = (emit (EvReject m true) w0, Returned (PyBool false)))
             /\ (forall send_ok msg,
                    WS.send_ws_message send_ok msg w0
                    = (w0, Returned (PyBool false)))).
  { intros w0 H1 H2 H3. split.
    - intros fwd m ch Hch. unfold MQ.__call__. rewrite H3, Hch, H1. reflexivity.
    - intros ok msg. unfold WS.send_ws_message. rewrite H2.
      rewrite andb_false_r. reflexivity. }
  unfold Supervisor.interrupter.
  destruct (Z.eqb_spec (Bridge.interrupt_secs bb) 0) as [Hz | Hnz].
  - destruct (Hpark fuel O []) as (k & Hk & Hw & Hall & Hend).
    destruct (Supervisor.park fuel flag 0 []) as [waits [|]] eqn:Hp;
      cbn [fst snd] in Hw, Hend.
    + destruct (Supervisor.close_all w) as [w0 calls] eqn:Hc.
      destruct (Hstop w0 calls eq_refl) as (H1 & H2 & H3).
      cbn. split; [intros Hne; contradiction|]. split.
      * intros _. exists k. repeat split; auto.
      * intros _. split; [reflexivity|]. split; [exact H1|].
        split; [exact H2|]. exact (Hdown w0 H1 H2 H3).
    + cbn. split; [intros Hne; contradiction|]. split.
      * intros _. exists k. repeat split; auto.
      * discriminate.
  - destruct (Supervisor.close_all w) as [w0 calls] eqn:Hc.
    destruct (Hstop w0 calls eq_refl) as (H1 & H2 & H3).
    cbn. split; [intros _; split; reflexivity|]. split; [intros Hz; contradiction|].
    intros _. split; [reflexivity|]. split; [exact H1|].
    split; [exact H2|]. exact (Hdown w0 H1 H2 H3).
Qed.

Lemma interrupter_stops_everything_witness :
  let r := Supervisor.interrupter 0 (fun _ => true) a_bridge consuming_world in
  (Bridge.interrupt_secs a_bridge <> 0
   /\ Supervisor.ir_progress r = Finished)
  /\ MQ.__call__ (WS.send_ws_message true) a_message (Supervisor.ir_world r)
     = (emit (EvReject a_message true) (Supervisor.ir_world r),
        Returned (PyBool false)).
Proof.
  cbn zeta.
  assert (Hne : Bridge.interrupt_secs a_bridge <> 0) by (cbn; lia).
  split; [split; [exact Hne | reflexivity]|].
  exact (proj1 (proj2 (proj2 (proj2 (proj2 (proj2
           (interrupter_stops_everything 0 (fun _ => true) a_bridge
              consuming_world)) eq_refl))))
           (WS.send_ws_message true) a_message a_channel eq_refl).
Defined.
